(** * The news module of the site (news.js): publication, listing, deletion

    A shallow embedding of [news.js] and a verification of what its
    documentation says about it.

    The script runs in a browser.  What it touches there is gathered in a
    record [World]: the globals of [window] it reads, [localStorage], the
    form of the admin page, the answers of the visitor to [confirm] and
    [prompt], the remote store behind [fetch], and what the script shows
    ([alert], [console]).  Every function of the script that works on the
    store is a computation [M A := World -> completion A * World]; an
    [await] is sequencing.  The functions that make the markup of a card
    are pure: they return a text or throw.  The elements of the public
    page and of the lightbox are no part of [World]; the functions that
    work on them take them and hand them back.  How a browser writes a
    date, [toLocaleDateString], is a parameter.

    JavaScript values are the values JSON can carry, plus [undefined].
    Within that:
    - a string is a sequence of 8-bit characters (code units below 256);
    - a number is an integer, and its text is its decimal digits: the
      text JavaScript gives for the integers up to 2^53 in size, and not
      beyond (from 10^21 on JavaScript writes an exponent); [exact_text]
      marks the values within that range;
    - the properties of an object are kept in the order in which they
      were added.
    What JavaScript does outside of this (a number with a fraction or an
    exponent, a [\u] escape above [00FF], a property name that is an
    array index and is therefore enumerated first) is not given a
    meaning: [JSON.parse] answers [Unmodelled] there, which no [catch]
    handles and about which no theorem says anything. *)

From Stdlib Require Import ZArith NArith List Ascii String Bool Lia.
From Stdlib Require Import DecimalN DecimalFacts DecimalPos.
From stdpp Require Import gmap strings.

Import ListNotations.
Local Open Scope Z_scope.
Local Open Scope list_scope.

Set Default Proof Using "Type".

(* ===================================================================== *)
(** ** JavaScript values *)
(* ===================================================================== *)

Local Unset Elimination Schemes.
Inductive value : Type :=
| JUndefined
| JNull
| JBool (b : bool)
| JNum (z : Z)
| JStr (s : string)
| JArr (items : list value)
| JObj (fields : list (string * value)).
Local Set Elimination Schemes.

(** What the script can throw or let through. *)
Inductive exn : Type :=
| SyntaxError            (* JSON.parse, response.json() *)
| TypeError              (* a property of null, a method that is missing *)
| FetchFailed            (* fetch() rejected: the transport failed *)
| Error (msg : string).  (* throw new Error(msg) *)

Inductive completion (A : Type) : Type :=
| Normal (a : A)
| Throw (e : exn)
| Unmodelled.
Arguments Normal {A} a.
Arguments Throw {A} e.
Arguments Unmodelled {A}.

(** Induction over values that reaches inside arrays and objects. *)
Section value_induction.
Variable P : value -> Prop.
Hypothesis Hundef : P JUndefined.
Hypothesis Hnull : P JNull.
Hypothesis Hbool : forall b, P (JBool b).
Hypothesis Hnum : forall z, P (JNum z).
Hypothesis Hstr : forall s, P (JStr s).
Hypothesis Harr : forall items, Forall P items -> P (JArr items).
Hypothesis Hobj :
  forall fields, Forall (fun kv => P (snd kv)) fields -> P (JObj fields).

Fixpoint value_nested_ind (v : value) : P v :=
  match v with
  | JUndefined => Hundef
  | JNull => Hnull
  | JBool b => Hbool b
  | JNum z => Hnum z
  | JStr s => Hstr s
  | JArr items =>
      Harr items
        ((fix go (l : list value) : Forall P l :=
            match l with
            | [] => @List.Forall_nil _ P
            | x :: l' => @List.Forall_cons _ P x l' (value_nested_ind x) (go l')
            end) items)
  | JObj fields =>
      Hobj fields
        ((fix go (l : list (string * value)) : Forall (fun kv => P (snd kv)) l :=
            match l with
            | [] => @List.Forall_nil _ _
            | kv :: l' => @List.Forall_cons _ _ kv l' (value_nested_ind (snd kv)) (go l')
            end) fields)
  end.
End value_induction.

(** [!v] is [negb (truthy v)]. *)
Definition truthy (v : value) : bool :=
  match v with
  | JUndefined | JNull => false
  | JBool b => b
  | JNum z => negb (z =? 0)
  | JStr s => negb (String.eqb s "")
  | JArr _ | JObj _ => true
  end.

Definition nullish (v : value) : bool :=
  match v with JUndefined | JNull => true | _ => false end.

(** Own property of an object literal or of a parsed object. *)
Fixpoint assoc (k : string) (fields : list (string * value)) : option value :=
  match fields with
  | [] => None
  | (k', v) :: rest => if String.eqb k k' then Some v else assoc k rest
  end.

(** [o[k] = v]: an existing property keeps its place, a new one goes last. *)
Fixpoint obj_set (k : string) (v : value) (fields : list (string * value))
  : list (string * value) :=
  match fields with
  | [] => [(k, v)]
  | (k', v') :: rest =>
      if String.eqb k k' then (k, v) :: rest else (k', v') :: obj_set k v rest
  end.

(** [v.k] for the property names the script reads ([url], [key], [URL],
    [ANON_KEY], [id], [title], ..., and [length]).  Reading a property of
    [null] or [undefined] throws; none of these names is inherited from a
    prototype, so on a primitive or an array the answer is [undefined],
    [length] apart. *)
Definition get_prop (v : value) (k : string) : completion value :=
  match v with
  | JUndefined | JNull => Throw TypeError
  | JObj fields => Normal (match assoc k fields with Some x => x | None => JUndefined end)
  | JArr items =>
      Normal (if String.eqb k "length" then JNum (Z.of_nat (List.length items))
              else JUndefined)
  | JStr s =>
      Normal (if String.eqb k "length" then JNum (Z.of_nat (String.length s))
              else JUndefined)
  | JBool _ | JNum _ => Normal JUndefined
  end.

(** [===] *)
Definition strict_eq_str (s : string) (v : value) : bool :=
  match v with JStr t => String.eqb s t | _ => false end.

(* ===================================================================== *)
(** ** Numbers in decimal *)
(* ===================================================================== *)

Fixpoint chars_of_uint (d : Decimal.uint) : list ascii :=
  match d with
  | Decimal.Nil => []
  | Decimal.D0 d => "0"%char :: chars_of_uint d
  | Decimal.D1 d => "1"%char :: chars_of_uint d
  | Decimal.D2 d => "2"%char :: chars_of_uint d
  | Decimal.D3 d => "3"%char :: chars_of_uint d
  | Decimal.D4 d => "4"%char :: chars_of_uint d
  | Decimal.D5 d => "5"%char :: chars_of_uint d
  | Decimal.D6 d => "6"%char :: chars_of_uint d
  | Decimal.D7 d => "7"%char :: chars_of_uint d
  | Decimal.D8 d => "8"%char :: chars_of_uint d
  | Decimal.D9 d => "9"%char :: chars_of_uint d
  end.

Definition chars_of_N (n : N) : list ascii := chars_of_uint (N.to_uint n).

(** [String(z)] for an integer [z]: its decimal digits, [-] in front of a
    negative one.  That is the text JavaScript gives as long as [z] is at
    most 2^53 in size ([safe]); beyond, JavaScript has rounded the number
    to a double and, from 10^21 on, writes it with an exponent
    ([1e+21]), which this function does not do. *)
Definition chars_of_Z (z : Z) : list ascii :=
  match z with
  | Z0 => ["0"%char]
  | Zpos p => chars_of_N (Npos p)
  | Zneg p => "-"%char :: chars_of_N (Npos p)
  end.

Definition string_of_Z (z : Z) : string := string_of_list_ascii (chars_of_Z z).

Definition digit_cons (c : ascii) : option (Decimal.uint -> Decimal.uint) :=
  match c with
  | "0"%char => Some Decimal.D0
  | "1"%char => Some Decimal.D1
  | "2"%char => Some Decimal.D2
  | "3"%char => Some Decimal.D3
  | "4"%char => Some Decimal.D4
  | "5"%char => Some Decimal.D5
  | "6"%char => Some Decimal.D6
  | "7"%char => Some Decimal.D7
  | "8"%char => Some Decimal.D8
  | "9"%char => Some Decimal.D9
  | _ => None
  end.

Definition is_digit (c : ascii) : bool :=
  match digit_cons c with Some _ => true | None => false end.

(** The longest run of digits in front of [s], and what follows it. *)
Fixpoint read_uint (s : list ascii) : Decimal.uint * list ascii :=
  match s with
  | [] => (Decimal.Nil, [])
  | c :: r =>
      match digit_cons c with
      | Some d => let '(u, rest) := read_uint r in (d u, rest)
      | None => (Decimal.Nil, s)
      end
  end.

(* ===================================================================== *)
(** ** Strings: the methods the script calls *)
(* ===================================================================== *)

(** White space and line terminators among the 8-bit characters. *)
Definition is_js_space (c : ascii) : bool :=
  match nat_of_ascii c with
  | 9 | 10 | 11 | 12 | 13 | 32 | 160 => true
  | _ => false
  end%nat.

Fixpoint drop_space (s : list ascii) : list ascii :=
  match s with
  | c :: r => if is_js_space c then drop_space r else s
  | [] => []
  end.

(** [s.trim()] *)
Definition trim (s : string) : string :=
  string_of_list_ascii
    (rev (drop_space (rev (drop_space (list_ascii_of_string s))))).

Definition lower (c : ascii) : ascii :=
  let n := nat_of_ascii c in
  if (65 <=? n)%nat && (n <=? 90)%nat then ascii_of_nat (n + 32) else c.

(** [re.test(s)] for a pattern that is a literal prefix under the [i]
    flag, which on a pattern of ASCII letters folds ASCII case only. *)
Fixpoint starts_with_ci (p s : list ascii) : bool :=
  match p, s with
  | [], _ => true
  | _ :: _, [] => false
  | a :: p', b :: s' => Ascii.eqb (lower a) (lower b) && starts_with_ci p' s'
  end.

(** [/^https?:\/\//i.test(s)] *)
Definition has_http_scheme (s : string) : bool :=
  let l := list_ascii_of_string s in
  starts_with_ci (list_ascii_of_string "http://") l
  || starts_with_ci (list_ascii_of_string "https://") l.

(** [s.replace(/\/$/, '')]: one slash at the very end goes. *)
Fixpoint strip_trailing_slash (s : string) : string :=
  match s with
  | EmptyString => EmptyString
  | String c EmptyString => if Ascii.eqb c "/" then EmptyString else s
  | String c r => String c (strip_trailing_slash r)
  end.

(** [s.split('.').pop()]: what follows the last dot, or all of [s]. *)
Fixpoint after_last_dot (acc : string) (s : string) : string :=
  match s with
  | EmptyString => acc
  | String c r =>
      if Ascii.eqb c "." then after_last_dot r r else after_last_dot acc r
  end.

Definition extension (name : string) : string := after_last_dot name name.

(** [a.join(",")] on texts. *)
Fixpoint join_comma (l : list (list ascii)) : list ascii :=
  match l with
  | [] => []
  | [x] => x
  | x :: l' => x ++ ","%char :: join_comma l'
  end.

(** [ToString(v)], the conversion behind a template literal and [+].  An
    array joins its entries, [null] and [undefined] among them giving
    nothing; a plain object gives [[object Object]], unless it has a
    property [toString] of its own, which data never makes callable. *)
Fixpoint to_chars (v : value) : option (list ascii) :=
  match v with
  | JUndefined => Some (list_ascii_of_string "undefined")
  | JNull => Some (list_ascii_of_string "null")
  | JBool true => Some (list_ascii_of_string "true")
  | JBool false => Some (list_ascii_of_string "false")
  | JNum z => Some (chars_of_Z z)
  | JStr s => Some (list_ascii_of_string s)
  | JArr items =>
      option_map join_comma
        ((fix entries (l : list value) : option (list (list ascii)) :=
            match l with
            | [] => Some []
            | x :: l' =>
                match (if nullish x then Some [] else to_chars x), entries l' with
                | Some a, Some b => Some (a :: b)
                | _, _ => None
                end
            end) items)
  | JObj fields =>
      match assoc "toString" fields with
      | Some _ => None
      | None => Some (list_ascii_of_string "[object Object]")
      end
  end.

Definition to_string (v : value) : completion string :=
  match to_chars v with
  | Some l => Normal (string_of_list_ascii l)
  | None => Throw TypeError
  end.

(** [v.toString()]: there is no such method on [null] and [undefined]. *)
Definition call_toString (v : value) : completion string :=
  if nullish v then Throw TypeError else to_string v.

(* ===================================================================== *)
(** ** JSON.stringify *)
(* ===================================================================== *)

Definition hex_digit (n : nat) : ascii :=
  match n with
  | 0 => "0" | 1 => "1" | 2 => "2" | 3 => "3" | 4 => "4" | 5 => "5"
  | 6 => "6" | 7 => "7" | 8 => "8" | 9 => "9" | 10 => "a" | 11 => "b"
  | 12 => "c" | 13 => "d" | 14 => "e" | _ => "f"
  end%nat%char.

(** One character inside a JSON string: the quote, the backslash and the
    control characters are escaped, everything else stands for itself. *)
Definition quote_char (c : ascii) : list ascii :=
  match c with
  | "034"%char => ["\"; "034"]
  | "\"%char => ["\"; "\"]
  | "008"%char => ["\"; "b"]
  | "009"%char => ["\"; "t"]
  | "010"%char => ["\"; "n"]
  | "012"%char => ["\"; "f"]
  | "013"%char => ["\"; "r"]
  | _ =>
      let n := nat_of_ascii c in
      if (n <? 32)%nat
      then ["\"; "u"; "0"; "0"; hex_digit (n / 16); hex_digit (n mod 16)]
      else [c]
  end%char.

Fixpoint quote_chars (s : list ascii) : list ascii :=
  match s with
  | [] => []
  | c :: r => quote_char c ++ quote_chars r
  end.

Definition quote (s : string) : list ascii :=
  "034"%char :: quote_chars (list_ascii_of_string s) ++ ["034"%char].

(** The text of a value, or [None] where [JSON.stringify] gives
    [undefined].  In an array [undefined] is written [null]; in an object
    a property whose value is [undefined] is left out. *)
Fixpoint stringify (v : value) : option (list ascii) :=
  match v with
  | JUndefined => None
  | JNull => Some (list_ascii_of_string "null")
  | JBool true => Some (list_ascii_of_string "true")
  | JBool false => Some (list_ascii_of_string "false")
  | JNum z => Some (chars_of_Z z)
  | JStr s => Some (quote s)
  | JArr items =>
      Some ("["%char ::
            join_comma
              ((fix entries (l : list value) : list (list ascii) :=
                  match l with
                  | [] => []
                  | x :: l' =>
                      match stringify x with
                      | Some t => t
                      | None => list_ascii_of_string "null"
                      end :: entries l'
                  end) items)
            ++ ["]"%char])
  | JObj fields =>
      Some ("{"%char ::
            join_comma
              ((fix members (l : list (string * value)) : list (list ascii) :=
                  match l with
                  | [] => []
                  | (k, x) :: l' =>
                      match stringify x with
                      | Some t => (quote k ++ ":"%char :: t) :: members l'
                      | None => members l'
                      end
                  end) fields)
            ++ ["}"%char])
  end.

(** [JSON.stringify(v)] where the script then uses the result as a string
    ([localStorage.setItem], the body of a request). *)
Definition JSON_stringify (v : value) : string :=
  match stringify v with
  | Some t => string_of_list_ascii t
  | None => "undefined"
  end.

(* ===================================================================== *)
(** ** JSON.parse *)
(* ===================================================================== *)

Inductive parsed (A : Type) : Type :=
| POk (a : A) (rest : list ascii)
| PSyntax
| PUnmodelled.
Arguments POk {A} a rest.
Arguments PSyntax {A}.
Arguments PUnmodelled {A}.

Definition pmap {A B} (f : A -> B) (p : parsed A) : parsed B :=
  match p with
  | POk a rest => POk (f a) rest
  | PSyntax => PSyntax
  | PUnmodelled => PUnmodelled
  end.

Definition is_json_space (c : ascii) : bool :=
  match c with
  | " "%char | "009"%char | "010"%char | "013"%char => true
  | _ => false
  end.

Fixpoint skip_ws (s : list ascii) : list ascii :=
  match s with
  | c :: r => if is_json_space c then skip_ws r else s
  | [] => []
  end.

Definition hex_val (c : ascii) : option nat :=
  let n := nat_of_ascii c in
  if (48 <=? n)%nat && (n <=? 57)%nat then Some (n - 48)%nat
  else if (97 <=? n)%nat && (n <=? 102)%nat then Some (n - 87)%nat
  else if (65 <=? n)%nat && (n <=? 70)%nat then Some (n - 55)%nat
  else None.

Definition hex4 (a b c d : ascii) : option nat :=
  match hex_val a, hex_val b, hex_val c, hex_val d with
  | Some x, Some y, Some z, Some t => Some (((x * 16 + y) * 16 + z) * 16 + t)%nat
  | _, _, _, _ => None
  end.

(** The characters of a string up to its closing quote. *)
Fixpoint read_string (s : list ascii) : parsed (list ascii) :=
  match s with
  | [] => PSyntax
  | c :: r =>
      if Ascii.eqb c "034" then POk [] r
      else if Ascii.eqb c "\" then
        match r with
        | [] => PSyntax
        | e :: r' =>
            match e with
            | "034"%char | "\"%char | "/"%char => pmap (cons e) (read_string r')
            | "b"%char => pmap (cons "008"%char) (read_string r')
            | "t"%char => pmap (cons "009"%char) (read_string r')
            | "n"%char => pmap (cons "010"%char) (read_string r')
            | "f"%char => pmap (cons "012"%char) (read_string r')
            | "r"%char => pmap (cons "013"%char) (read_string r')
            | "u"%char =>
                match r' with
                | h1 :: h2 :: h3 :: h4 :: r'' =>
                    match hex4 h1 h2 h3 h4 with
                    | Some n =>
                        if (n <? 256)%nat
                        then pmap (cons (ascii_of_nat n)) (read_string r'')
                        else PUnmodelled
                    | None => PSyntax
                    end
                | _ => PSyntax
                end
            | _ => PSyntax
            end
        end
      else if (nat_of_ascii c <? 32)%nat then PSyntax
      else pmap (cons c) (read_string r)
  end.

(** The largest integer below which every integer is a number of
    JavaScript. *)
Definition max_safe : N := 9007199254740992.

(** After the integer part: a fraction or an exponent, well formed, takes
    the number out of the model; a malformed one is a syntax error. *)
Definition after_integer (negative : bool) (n : N) (rest : list ascii)
  : parsed value :=
  let exponent (r : list ascii) (fraction : bool) : parsed value :=
    match r with
    | ("e" | "E")%char :: r1 =>
        let r2 := match r1 with ("+" | "-")%char :: r2 => r2 | _ => r1 end in
        match fst (read_uint r2) with
        | Decimal.Nil => PSyntax
        | _ => PUnmodelled
        end
    | _ =>
        if fraction then PUnmodelled
        else if (max_safe <? n)%N then PUnmodelled
        else POk (JNum (if negative then - Z.of_N n else Z.of_N n)) rest
    end in
  match rest with
  | "."%char :: r =>
      match read_uint r with
      | (Decimal.Nil, _) => PSyntax
      | (_, r') => exponent r' true
      end
  | _ => exponent rest false
  end.

Definition read_number (s : list ascii) : parsed value :=
  let '(negative, s1) :=
    match s with "-"%char :: r => (true, r) | _ => (false, s) end in
  match s1 with
  | "0"%char :: r => after_integer negative 0%N r
  | c :: _ =>
      if is_digit c
      then let '(u, rest) := read_uint s1 in after_integer negative (N.of_uint u) rest
      else PSyntax
  | [] => PSyntax
  end.

(** A property name that is an array index: enumerated ahead of the
    others, whatever the order of the text. *)
Definition is_array_index (k : string) : bool :=
  match list_ascii_of_string k with
  | [] => false
  | ["0"%char] => true
  | "0"%char :: _ => false
  | l =>
      match read_uint l with
      | (u, []) => (N.of_uint u <? 4294967295)%N
      | _ => false
      end
  end.

(** The properties of an object in the order JSON.parse creates them: a
    name met again keeps its first place and takes the later value. *)
Definition build_object (pairs : list (string * value)) : list (string * value) :=
  fold_left (fun o kv => obj_set (fst kv) (snd kv) o) pairs [].

Fixpoint parse_value (fuel : nat) (s : list ascii) {struct fuel} : parsed value :=
  match fuel with
  | O => PUnmodelled
  | S fuel =>
      match skip_ws s with
      | "n"%char :: "u"%char :: "l"%char :: "l"%char :: r => POk JNull r
      | "t"%char :: "r"%char :: "u"%char :: "e"%char :: r => POk (JBool true) r
      | "f"%char :: "a"%char :: "l"%char :: "s"%char :: "e"%char :: r =>
          POk (JBool false) r
      | "034"%char :: r => pmap (fun l => JStr (string_of_list_ascii l)) (read_string r)
      | "["%char :: r =>
          match skip_ws r with
          | "]"%char :: r' => POk (JArr []) r'
          | r' => pmap JArr (parse_elements fuel r')
          end
      | "{"%char :: r =>
          match skip_ws r with
          | "}"%char :: r' => POk (JObj []) r'
          | r' => pmap (fun ps => JObj (build_object ps)) (parse_members fuel r')
          end
      | s' => read_number s'
      end
  end
with parse_elements (fuel : nat) (s : list ascii) {struct fuel}
  : parsed (list value) :=
  match fuel with
  | O => PUnmodelled
  | S fuel =>
      match parse_value fuel s with
      | POk v r =>
          match skip_ws r with
          | ","%char :: r' => pmap (cons v) (parse_elements fuel r')
          | "]"%char :: r' => POk [v] r'
          | _ => PSyntax
          end
      | PSyntax => PSyntax
      | PUnmodelled => PUnmodelled
      end
  end
with parse_members (fuel : nat) (s : list ascii) {struct fuel}
  : parsed (list (string * value)) :=
  match fuel with
  | O => PUnmodelled
  | S fuel =>
      match skip_ws s with
      | "034"%char :: r =>
          match read_string r with
          | POk k r1 =>
              let key := string_of_list_ascii k in
              if is_array_index key then PUnmodelled
              else
                match skip_ws r1 with
                | ":"%char :: r2 =>
                    match parse_value fuel r2 with
                    | POk v r3 =>
                        match skip_ws r3 with
                        | ","%char :: r4 => pmap (cons (key, v)) (parse_members fuel r4)
                        | "}"%char :: r4 => POk [(key, v)] r4
                        | _ => PSyntax
                        end
                    | PSyntax => PSyntax
                    | PUnmodelled => PUnmodelled
                    end
                | _ => PSyntax
                end
          | PSyntax => PSyntax
          | PUnmodelled => PUnmodelled
          end
      | _ => PSyntax
      end
  end.

(** [JSON.parse(text)].  The calls of the parser nest no deeper than the
    text is long, which gives the fuel. *)
Definition JSON_parse (text : string) : completion value :=
  let s := list_ascii_of_string text in
  match parse_value (S (List.length s)) s with
  | POk v rest =>
      match skip_ws rest with
      | [] => Normal v
      | _ => Throw SyntaxError
      end
  | PSyntax => Throw SyntaxError
  | PUnmodelled => Unmodelled
  end.

(** Texts in the examples are written with an apostrophe where JSON has a
    double quote. *)
Definition json_text (s : string) : string :=
  string_of_list_ascii
    (map (fun c => if Ascii.eqb c "'" then "034"%char else c) (list_ascii_of_string s)).

(* ===================================================================== *)
(** ** The world the script runs in *)
(* ===================================================================== *)

Local Open Scope string_scope.

(** A file chosen in a file input: [file.name] and [file.type]. *)
Record File : Type := { file_name : string; file_type : string }.

Inductive Body : Type :=
| TextBody (text : string)
| FileBody (f : File).

(** The arguments of one call of [fetch]. *)
Record Request : Type := {
  req_method : string;
  req_url : string;
  req_headers : list (string * value);
  req_body : option Body
}.

(** What [fetch] resolves to, [response.ok] and the text of the body, or
    that it rejected. *)
Inductive Reply : Type :=
| Rejected
| Response (ok : bool) (text : string).

(** The globals the script reads.  [hashPassword] is defined by another
    script of the site; here it is any function from texts to texts. *)
Record Window : Type := {
  SB_URL : value;
  SB_KEY : value;
  SUPABASE_PUBLIC_CONFIG : value;
  ADMIN_PASSWORD_HASH : value;
  USER_PASSWORD_HASH : value;
  hashPassword : string -> string
}.

(** An argument of [console.warn] or [console.error]. *)
Inductive Logged : Type :=
| LText (text : string)
| LExn (e : exn).

Record Button : Type := { textContent : string; disabled : bool }.

(** What the admin list shows; the markup of a card is not modelled, the
    item it shows is. *)
Inductive Pane : Type :=
| PaneLoading
| PaneNoNews
| PaneCards (cards : list value).

(** The elements [document.getElementById] is asked for; [None] where the
    page has no such element, otherwise the state the script reads or
    writes: the [value] of an input, the [files] of a file input. *)
Record Page : Type := {
  news_title : option string;
  news_content : option string;
  news_image : option (list File);
  news_video : option (list File);
  news_link : option string;
  publish_pin : option string;
  btn_add_news : option Button;
  news_list_admin : option Pane
}.

Record World : Type := {
  window : Window;
  localStorage : gmap string string;
  page : Page;
  (** the visitor's answer to [confirm] and to [prompt] *)
  confirm_answer : bool;
  prompt_answer : option string;
  (** the remote store: its reply to a request after the ones before *)
  remote : list Request -> Request -> Reply;
  (** [new Date().toISOString()] *)
  clock : string;
  (** [Date.now()] and [Math.random()] as [uploadFile] combines them, for
      the n-th name it makes *)
  name_stem : nat -> string;
  names_made : nat;
  (** what the script has done so far, oldest first *)
  requests : list Request;
  alerts : list string;
  console : list (list Logged)
}.

Definition with_localStorage (ls : gmap string string) (w : World) : World :=
  {| window := window w; localStorage := ls; page := page w;
     confirm_answer := confirm_answer w; prompt_answer := prompt_answer w;
     remote := remote w; clock := clock w; name_stem := name_stem w;
     names_made := names_made w; requests := requests w; alerts := alerts w;
     console := console w |}.

Definition with_page (p : Page) (w : World) : World :=
  {| window := window w; localStorage := localStorage w; page := p;
     confirm_answer := confirm_answer w; prompt_answer := prompt_answer w;
     remote := remote w; clock := clock w; name_stem := name_stem w;
     names_made := names_made w; requests := requests w; alerts := alerts w;
     console := console w |}.

Definition with_names_made (n : nat) (w : World) : World :=
  {| window := window w; localStorage := localStorage w; page := page w;
     confirm_answer := confirm_answer w; prompt_answer := prompt_answer w;
     remote := remote w; clock := clock w; name_stem := name_stem w;
     names_made := n; requests := requests w; alerts := alerts w;
     console := console w |}.

Definition with_requests (l : list Request) (w : World) : World :=
  {| window := window w; localStorage := localStorage w; page := page w;
     confirm_answer := confirm_answer w; prompt_answer := prompt_answer w;
     remote := remote w; clock := clock w; name_stem := name_stem w;
     names_made := names_made w; requests := l; alerts := alerts w;
     console := console w |}.

Definition with_alerts (l : list string) (w : World) : World :=
  {| window := window w; localStorage := localStorage w; page := page w;
     confirm_answer := confirm_answer w; prompt_answer := prompt_answer w;
     remote := remote w; clock := clock w; name_stem := name_stem w;
     names_made := names_made w; requests := requests w; alerts := l;
     console := console w |}.

Definition with_console (l : list (list Logged)) (w : World) : World :=
  {| window := window w; localStorage := localStorage w; page := page w;
     confirm_answer := confirm_answer w; prompt_answer := prompt_answer w;
     remote := remote w; clock := clock w; name_stem := name_stem w;
     names_made := names_made w; requests := requests w; alerts := alerts w;
     console := l |}.

(* ===================================================================== *)
(** ** Computations *)
(* ===================================================================== *)

Definition M (A : Type) : Type := World -> completion A * World.

Definition ret {A} (a : A) : M A := fun w => (Normal a, w).

Definition bind {A B} (m : M A) (k : A -> M B) : M B :=
  fun w =>
    match m w with
    | (Normal a, w') => k a w'
    | (Throw e, w') => (Throw e, w')
    | (Unmodelled, w') => (Unmodelled, w')
    end.

Notation "'let*' x ':=' m 'in' k" := (bind m (fun x => k))
  (at level 10, x pattern, m at level 100, k at level 200).
Notation "m ';;' k" := (bind m (fun _ => k))
  (at level 100, k at level 200, right associativity).

Definition throw {A} (e : exn) : M A := fun w => (Throw e, w).

(** A pure step that may throw. *)
Definition lift {A} (c : completion A) : M A := fun w => (c, w).

(** [try { m } catch (e) { handler e }] *)
Definition try_catch {A} (m : M A) (handler : exn -> M A) : M A :=
  fun w =>
    match m w with
    | (Throw e, w') => handler e w'
    | r => r
    end.

(** A call of an async function that is not awaited: what it does is
    done, what it returns or throws reaches nobody. *)
Definition detached {A} (m : M A) : M unit :=
  fun w =>
    match m w with
    | (Unmodelled, w') => (Unmodelled, w')
    | (_, w') => (Normal tt, w')
    end.

Definition get_window : M Window := fun w => (Normal (window w), w).
Definition get_page : M Page := fun w => (Normal (page w), w).

Definition alert (msg : string) : M unit :=
  fun w => (Normal tt, with_alerts (alerts w ++ [msg]) w).

Definition console_log (args : list Logged) : M unit :=
  fun w => (Normal tt, with_console (console w ++ [args]) w).

Definition confirm : M bool := fun w => (Normal (confirm_answer w), w).
Definition prompt : M (option string) := fun w => (Normal (prompt_answer w), w).

(** [localStorage.getItem(k)]: [None] is [null]. *)
Definition getItem (k : string) : M (option string) :=
  fun w => (Normal (localStorage w !! k), w).

Definition setItem (k text : string) : M unit :=
  fun w => (Normal tt, with_localStorage (<[k := text]> (localStorage w)) w).

(** The text a condition [if (stored)] or [stored || ...] lets through:
    [null] and the empty string are falsy. *)
Definition present (stored : option string) : option string :=
  match stored with
  | Some text => if String.eqb text "" then None else Some text
  | None => None
  end.

(** [await fetch(url, options)]: the request goes out, the remote store
    answers it. *)
Definition fetch (r : Request) : M (bool * string) :=
  fun w =>
    let w' := with_requests (requests w ++ [r]) w in
    match remote w (requests w) r with
    | Rejected => (Throw FetchFailed, w')
    | Response ok text => (Normal (ok, text), w')
    end.

(** [url.replace(/\/$/, '')]: only a string has the method. *)
Definition replace_trailing_slash (url : value) : completion string :=
  match url with
  | JStr s => Normal (strip_trailing_slash s)
  | _ => Throw TypeError
  end.

(** The two headers every request carries, [key] as it is and inside a
    template literal. *)
Definition auth_headers (key : value) : completion (list (string * value)) :=
  match to_string key with
  | Normal k => Normal [("apikey", key); ("Authorization", JStr ("Bearer " ++ k))]
  | Throw e => Throw e
  | Unmodelled => Unmodelled
  end.

(* ===================================================================== *)
(** ** news.js *)
(* ===================================================================== *)

(** [getSupabaseCredentials()].  Inside the [try], [url] is assigned before
    [key]; both reads are of the same [settings], so they throw together
    and the [catch] finds both variables as they were. *)
Definition getSupabaseCredentials : M (value * value) :=
  let* win := get_window in
  let url := SB_URL win in
  let key := SB_KEY win in
  if negb (truthy url) || negb (truthy key) then
    if truthy (SUPABASE_PUBLIC_CONFIG win) then
      let* url := lift (get_prop (SUPABASE_PUBLIC_CONFIG win) "URL") in
      let* key := lift (get_prop (SUPABASE_PUBLIC_CONFIG win) "ANON_KEY") in
      ret (url, key)
    else
      try_catch
        (let* stored := getItem "supabaseSyncSettings" in
         match present stored with
         | Some text =>
             let* settings := lift (JSON_parse text) in
             let* url := lift (get_prop settings "url") in
             let* key := lift (get_prop settings "key") in
             ret (url, key)
         | None => ret (url, key)
         end)
        (fun _ => ret (url, key))
  else ret (url, key).

(** [if (!url || !key)]: the script works on [localStorage]. *)
Definition local_mode (creds : value * value) : bool :=
  negb (truthy (fst creds)) || negb (truthy (snd creds)).

(** [stored ? JSON.parse(stored) : []] on the slot of the news. *)
Definition read_local_news : M value :=
  let* stored := getItem "mh_news_data" in
  match present stored with
  | Some text => lift (JSON_parse text)
  | None => ret (JArr [])
  end.

(** The object [getNews] makes of one row of the table. *)
Definition news_of_row (item : value) : completion value :=
  match item with
  | JUndefined | JNull => Throw TypeError
  | _ =>
      let field k :=
        match get_prop item k with Normal x => x | _ => JUndefined end in
      Normal (JObj [("id", field "id"); ("title", field "title");
                    ("content", field "content"); ("author", field "author");
                    ("date", field "news_date"); ("image_url", field "image_url");
                    ("video_url", field "video_url"); ("link_url", field "link_url");
                    ("publisher_role", field "publisher_role")])
  end.

Fixpoint map_completion {A B} (f : A -> completion B) (l : list A)
  : completion (list B) :=
  match l with
  | [] => Normal []
  | x :: l' =>
      match f x with
      | Normal y =>
          match map_completion f l' with
          | Normal ys => Normal (y :: ys)
          | Throw e => Throw e
          | Unmodelled => Unmodelled
          end
      | Throw e => Throw e
      | Unmodelled => Unmodelled
      end
  end.

(** [data.map(f)]: only an array has the method. *)
Definition array_map (f : value -> completion value) (data : value)
  : completion value :=
  match data with
  | JArr items =>
      match map_completion f items with
      | Normal l => Normal (JArr l)
      | Throw e => Throw e
      | Unmodelled => Unmodelled
      end
  | _ => Throw TypeError
  end.

(** [GET {url}/rest/v1/news?order=news_date.desc] *)
Definition list_request (base : string) (headers : list (string * value)) : Request :=
  {| req_method := "GET"; req_url := base ++ "/rest/v1/news?order=news_date.desc";
     req_headers := headers; req_body := None |}.

Definition getNews : M value :=
  let* creds := getSupabaseCredentials in
  let '(url, key) := creds in
  if local_mode creds then
    console_log [LText "News: Supabase not configured. Using local storage."] ;;
    read_local_news
  else
    try_catch
      (let* base := lift (replace_trailing_slash url) in
       let* headers := lift (auth_headers key) in
       let* response := fetch (list_request base headers) in
       let '(ok, text) := response in
       if ok then
         let* data := lift (JSON_parse text) in
         lift (array_map news_of_row data)
       else
         console_log [LText "News: Failed to fetch"; LText text] ;;
         throw (Error "Fetch failed"))
      (fun e =>
         console_log [LText "News: Network error"; LExn e] ;;
         read_local_news).

(** [current.push(newsItem)]: only an array has the method. *)
Definition array_push (current item : value) : completion value :=
  match current with
  | JArr items => Normal (JArr (items ++ [item]))
  | _ => Throw TypeError
  end.

(** [JSON.parse(localStorage.getItem('mh_news_data') || '[]')] *)
Definition parse_local_news : M value :=
  let* stored := getItem "mh_news_data" in
  lift (JSON_parse (match present stored with Some text => text | None => "[]" end)).

(** The row [saveNews] posts. *)
Definition payload_of (newsItem : value) : completion value :=
  match newsItem with
  | JUndefined | JNull => Throw TypeError
  | _ =>
      let field k :=
        match get_prop newsItem k with Normal x => x | _ => JUndefined end in
      Normal (JObj [("title", field "title"); ("content", field "content");
                    ("author", field "author"); ("news_date", field "date");
                    ("image_url", field "image_url"); ("video_url", field "video_url");
                    ("link_url", field "link_url");
                    ("publisher_role", field "publisher_role")])
  end.

(** [POST {url}/rest/v1/news] with the row as its body. *)
Definition save_request (base : string) (headers : list (string * value))
  (payload : value) : Request :=
  {| req_method := "POST"; req_url := base ++ "/rest/v1/news";
     req_headers :=
       headers ++ [("Content-Type", JStr "application/json");
                   ("Prefer", JStr "return=minimal")];
     req_body := Some (TextBody (JSON_stringify payload)) |}.

Definition saveNews (newsItem : value) : M bool :=
  let* creds := getSupabaseCredentials in
  let '(url, key) := creds in
  if local_mode creds then
    let* current := parse_local_news in
    let* current := lift (array_push current newsItem) in
    setItem "mh_news_data" (JSON_stringify current) ;;
    ret true
  else
    try_catch
      (let* base := lift (replace_trailing_slash url) in
       let* payload := lift (payload_of newsItem) in
       let* headers := lift (auth_headers key) in
       let* response := fetch (save_request base headers payload) in
       let '(ok, text) := response in
       if ok then ret true
       else
         alert ("Error saving to cloud: " ++ text) ;;
         ret false)
      (fun e =>
         console_log [LExn e] ;;
         alert "Network error: Could not save news." ;;
         ret false).

(** What stops [createNewsCardHtml(item, true)]: an item that is [null] or
    [undefined] has no fields, and a field that is put into the markup
    must have a text. *)
Definition card_fails (item : value) : bool :=
  match item with
  | JUndefined | JNull => true
  | _ =>
      let field k :=
        match get_prop item k with Normal x => x | _ => JUndefined end in
      let no_text x :=
        match to_chars x with Some _ => false | None => true end in
      existsb (fun k => truthy (field k) && no_text (field k))
        ["video_url"; "image_url"; "link_url"; "title"; "date"; "content"; "author"]
      || no_text (field "id")
  end.

Fixpoint cards_until_failure (items : list value) : list value * bool :=
  match items with
  | [] => ([], false)
  | item :: rest =>
      if card_fails item then ([], true)
      else let '(shown, failed) := cards_until_failure rest in (item :: shown, failed)
  end.

Definition set_admin_list (p : Pane) : M unit :=
  fun w =>
    let pg := page w in
    (Normal tt,
     with_page {| news_title := news_title pg; news_content := news_content pg;
                  news_image := news_image pg; news_video := news_video pg;
                  news_link := news_link pg; publish_pin := publish_pin pg;
                  btn_add_news := btn_add_news pg; news_list_admin := Some p |} w).

Definition renderNewsAdmin : M unit :=
  let* pg := get_page in
  match news_list_admin pg with
  | None => ret tt
  | Some _ =>
      set_admin_list PaneLoading ;;
      let* newsItems := getNews in
      set_admin_list (PaneCards []) ;;
      let* len := lift (get_prop newsItems "length") in
      match len with
      | JNum 0 => set_admin_list PaneNoNews
      | _ =>
          match newsItems with
          | JArr items =>
              let '(shown, failed) := cards_until_failure items in
              set_admin_list (PaneCards shown) ;;
              if failed then throw TypeError else ret tt
          | _ => throw TypeError
          end
      end
  end.

(** [item.id.toString() !== id.toString()], for the items to keep. *)
Definition differs_from (id : value) (item : value) : completion bool :=
  match get_prop item "id" with
  | Normal item_id =>
      match call_toString item_id with
      | Normal a =>
          match call_toString id with
          | Normal b => Normal (negb (String.eqb a b))
          | Throw e => Throw e
          | Unmodelled => Unmodelled
          end
      | Throw e => Throw e
      | Unmodelled => Unmodelled
      end
  | Throw e => Throw e
  | Unmodelled => Unmodelled
  end.

Fixpoint filter_completion {A} (f : A -> completion bool) (l : list A)
  : completion (list A) :=
  match l with
  | [] => Normal []
  | x :: l' =>
      match f x with
      | Normal b =>
          match filter_completion f l' with
          | Normal ys => Normal (if b then x :: ys else ys)
          | Throw e => Throw e
          | Unmodelled => Unmodelled
          end
      | Throw e => Throw e
      | Unmodelled => Unmodelled
      end
  end.

(** [current.filter(f)]: only an array has the method. *)
Definition array_filter (f : value -> completion bool) (current : value)
  : completion value :=
  match current with
  | JArr items =>
      match filter_completion f items with
      | Normal l => Normal (JArr l)
      | Throw e => Throw e
      | Unmodelled => Unmodelled
      end
  | _ => Throw TypeError
  end.

(** [DELETE {url}/rest/v1/news?{filter}] *)
Definition delete_request (base filter : string) (headers : list (string * value))
  : Request :=
  {| req_method := "DELETE"; req_url := base ++ "/rest/v1/news?" ++ filter;
     req_headers := headers; req_body := None |}.

Definition deleteNews (id : value) : M unit :=
  let* sure := confirm in
  if negb sure then ret tt
  else
    let* creds := getSupabaseCredentials in
    let '(url, key) := creds in
    if local_mode creds then
      let* current := parse_local_news in
      let* current := lift (array_filter (differs_from id) current) in
      setItem "mh_news_data" (JSON_stringify current) ;;
      detached renderNewsAdmin
    else
      try_catch
        (let* base := lift (replace_trailing_slash url) in
         let* id_text := lift (to_string id) in
         let* headers := lift (auth_headers key) in
         let* response := fetch (delete_request base ("id=eq." ++ id_text) headers) in
         let '(ok, text) := response in
         if ok then detached renderNewsAdmin
         else alert ("Error deleting: " ++ text))
        (fun e =>
           console_log [LExn e] ;;
           alert "Network Error").

(** [uploadFile(file)]: the public address of the uploaded file, or
    [None] for [null]. *)
Definition uploadFile (file : File) : M (option string) :=
  let* creds := getSupabaseCredentials in
  let '(url, key) := creds in
  if local_mode creds then ret None
  else
    let fileExt := extension (file_name file) in
    let* fileName :=
      (fun w => (Normal (name_stem w (names_made w) ++ "." ++ fileExt),
                 with_names_made (S (names_made w)) w)) in
    try_catch
      (let* base := lift (replace_trailing_slash url) in
       let uploadUrl := base ++ "/storage/v1/object/news-images/" ++ fileName in
       let* headers := lift (auth_headers key) in
       let* response :=
         fetch {| req_method := "POST"; req_url := uploadUrl;
                  req_headers :=
                    headers ++
                    [("Content-Type",
                      JStr (if String.eqb (file_type file) ""
                            then "application/octet-stream" else file_type file));
                     ("x-upsert", JStr "true")];
                  req_body := Some (FileBody file) |} in
       let '(ok, text) := response in
       if ok then
         let* base := lift (replace_trailing_slash url) in
         ret (Some (base ++ "/storage/v1/object/public/news-images/" ++ fileName))
       else
         console_log [LText "Upload failed"; LText text] ;;
         ret None)
      (fun e =>
         console_log [LText "Upload error"; LExn e] ;;
         ret None).

(** [btn.textContent = text; btn.disabled = off]; there must be a button. *)
Definition set_button (text : option string) (off : option bool) : M unit :=
  fun w =>
    let pg := page w in
    match btn_add_news pg with
    | None => (Throw TypeError, w)
    | Some b =>
        (Normal tt,
         with_page
           {| news_title := news_title pg; news_content := news_content pg;
              news_image := news_image pg; news_video := news_video pg;
              news_link := news_link pg; publish_pin := publish_pin pg;
              btn_add_news :=
                Some {| textContent := match text with Some t => t | None => textContent b end;
                        disabled := match off with Some d => d | None => disabled b end |};
              news_list_admin := news_list_admin pg |} w)
    end.

Definition button_text : M string :=
  fun w =>
    match btn_add_news (page w) with
    | None => (Throw TypeError, w)
    | Some b => (Normal (textContent b), w)
    end.

(** The form after a publication: every input that exists is emptied. *)
Definition clear_form : M unit :=
  fun w =>
    let pg := page w in
    (Normal tt,
     with_page
       {| news_title := option_map (fun _ => "") (news_title pg);
          news_content := option_map (fun _ => "") (news_content pg);
          news_image := option_map (fun _ => []) (news_image pg);
          news_video := option_map (fun _ => []) (news_video pg);
          news_link := option_map (fun _ => "") (news_link pg);
          publish_pin := option_map (fun _ => "") (publish_pin pg);
          btn_add_news := btn_add_news pg;
          news_list_admin := news_list_admin pg |} w).

(** [input && input.files ? input.files[0] : null] *)
Definition first_file (input : option (list File)) : option File :=
  match input with
  | Some (f :: _) => Some f
  | _ => None
  end.

(** [existingNews.filter(n => n.publisher_role === 'user').length] *)
Definition count_user_posts (existingNews : value) : completion nat :=
  match array_filter
          (fun n =>
             match get_prop n "publisher_role" with
             | Normal r => Normal (strict_eq_str "user" r)
             | Throw e => Throw e
             | Unmodelled => Unmodelled
             end) existingNews with
  | Normal (JArr l) => Normal (List.length l)
  | Normal _ => Throw TypeError
  | Throw e => Throw e
  | Unmodelled => Unmodelled
  end.

Definition string_of_nat (n : nat) : string := string_of_Z (Z.of_nat n).

Definition quota_message (userPosts : nat) : string :=
  "User limit reached! You have already published " ++ string_of_nat userPosts
  ++ "/5 items.".

(** [handleAddNews] from the line [// Disable button] on: the uploads, the
    item, [saveNews], and the form put back in order. *)
Definition publish (role authorName title content link_url : string) : M unit :=
  let* pg := get_page in
  let* originalText := button_text in
  set_button (Some "Publishing...") (Some true) ;;
  let imgFile := first_file (news_image pg) in
  let vidFile := first_file (news_video pg) in
  let* image_url :=
    match imgFile with
    | Some f =>
        set_button (Some "Uploading Image...") None ;;
        let* uploadedUrl := uploadFile f in
        ret (match present uploadedUrl with Some u => u | None => "" end)
    | None => ret ""
    end in
  let* video_url :=
    match vidFile with
    | Some f =>
        set_button (Some "Uploading Video...") None ;;
        let* uploadedUrl := uploadFile f in
        ret (match present uploadedUrl with Some u => u | None => "" end)
    | None => ret ""
    end in
  set_button (Some "Saving News...") None ;;
  let* now := (fun w => (Normal (clock w), w)) in
  let newItem :=
    JObj [("title", JStr title); ("content", JStr content);
          ("author", JStr authorName); ("date", JStr now);
          ("image_url", JStr image_url); ("video_url", JStr video_url);
          ("link_url", JStr link_url); ("publisher_role", JStr role)] in
  let* success := saveNews newItem in
  (if success then
     clear_form ;;
     renderNewsAdmin ;;
     alert "News item published!"
   else ret tt) ;;
  set_button (Some originalText) (Some false).

(** The block [// AUTH CHECK]: the role and the author name the digest of
    the PIN gives, the administrator's digest being tried first. *)
Definition auth_check (win : Window) (hashedPin : string) : option (string * string) :=
  if strict_eq_str hashedPin (ADMIN_PASSWORD_HASH win) then Some ("admin", "Admin")
  else if strict_eq_str hashedPin (USER_PASSWORD_HASH win) then Some ("user", "User")
  else None.

(** The block [// LIMIT CHECK FOR USER]: [true] when the handler returns
    from inside it. *)
Definition limit_check (role : string) : M bool :=
  if String.eqb role "user" then
    try_catch
      (let* existingNews := getNews in
       let* userPosts := lift (count_user_posts existingNews) in
       if (5 <=? userPosts)%nat then
         alert (quota_message userPosts) ;;
         ret true
       else ret false)
      (fun _ => ret false)
  else ret false.

(** [// Auto-fix link if it doesn't start with http/https] *)
Definition auto_fix_link (link_url : string) : string :=
  if negb (String.eqb link_url "") && negb (has_http_scheme link_url)
  then "https://" ++ link_url else link_url.

(** [handleAddNews(e)], the handler of the button of the form
    ([e.preventDefault()] has no part in what follows). *)
Definition handleAddNews : M unit :=
  let* pg := get_page in
  match news_title pg, news_content pg, publish_pin pg with
  | Some titleValue, Some contentValue, Some pinValue =>
      let title := trim titleValue in
      let content := trim contentValue in
      let link_url := match news_link pg with Some l => trim l | None => "" end in
      let link_url := auto_fix_link link_url in
      let pin := trim pinValue in
      if String.eqb title "" || String.eqb content "" then
        alert "Please fill in title and content."
      else if String.eqb pin "" then
        alert "Please enter a Publish PIN."
      else
        let* win := get_window in
        let hashedPin := hashPassword win pin in
        match auth_check win hashedPin with
        | None => alert "Incorrect PIN. Please try again."
        | Some (role, authorName) =>
            let* stop := limit_check role in
            if stop then ret tt
            else publish role authorName title content link_url
        end
  | _, _, _ => ret tt
  end.

(** [handleClearAllNews()], the handler of the button that empties the
    list. *)
Definition handleClearAllNews : M unit :=
  let* sure := confirm in
  if negb sure then ret tt
  else
    let* pin := prompt in
    match present pin with
    | None => ret tt
    | Some pin =>
        let* win := get_window in
        let hashedPin := hashPassword win pin in
        if negb (strict_eq_str hashedPin (ADMIN_PASSWORD_HASH win)) then
          alert "❌ Access Denied: Incorrect PIN. Only Admin can clear all news."
        else
          let* creds := getSupabaseCredentials in
          let '(url, key) := creds in
          if local_mode creds then ret tt
          else
            try_catch
              (let* base := lift (replace_trailing_slash url) in
               let* headers := lift (auth_headers key) in
               let* response := fetch (delete_request base "id=neq.0" headers) in
               let '(ok, text) := response in
               if ok then
                 alert "✅ All news items have been deleted." ;;
                 detached renderNewsAdmin
               else alert ("Error clearing news: " ++ text))
              (fun e =>
                 console_log [LExn e] ;;
                 alert "Network Error")
    end.

(* ===================================================================== *)
(** ** news.js: the markup of a card *)
(* ===================================================================== *)

(** [s.replace(/c/g, r)] for a pattern that is the one character [c]:
    every [c] of [s], from left to right, gives way to [r]. *)
Fixpoint replace_all (c : ascii) (r : string) (s : string) : string :=
  match s with
  | EmptyString => EmptyString
  | String x s' =>
      (if Ascii.eqb x c then r else String x EmptyString) ++ replace_all c r s'
  end.

(** [escapeHtml(text)]: five replacements in a row, the one of [&] first. *)
Definition escapeHtml (text : value) : completion string :=
  if negb (truthy text) then Normal ""
  else
    match call_toString text with
    | Normal s =>
        Normal (replace_all "'" "&#039;"
                  (replace_all "034" "&quot;"
                     (replace_all ">" "&gt;"
                        (replace_all "<" "&lt;"
                           (replace_all "&" "&amp;" s)))))
    | Throw e => Throw e
    | Unmodelled => Unmodelled
    end.

(** [formatContent(text)] *)
Definition formatContent (text : value) : completion string :=
  if negb (truthy text) then Normal ""
  else
    match escapeHtml text with
    | Normal s => Normal (replace_all "010" "<br>" s)
    | Throw e => Throw e
    | Unmodelled => Unmodelled
    end.

(** The literal part of a template: its lines, with a backquote standing
    for each double quote of the script. *)
Definition markup (lines : list string) : string :=
  string_of_list_ascii
    (map (fun c => if Ascii.eqb c "`" then "034"%char else c)
       (list_ascii_of_string (String.concat (String "010" "") lines))).

(** One step after another, the first that throws ending them. *)
Definition and_then {A B} (c : completion A) (k : A -> completion B) : completion B :=
  match c with
  | Normal a => k a
  | Throw e => Throw e
  | Unmodelled => Unmodelled
  end.

Section Card.

(** [new Date(v).toLocaleDateString('en-US', options)] for a primitive [v]:
    the text depends on the time zone of the browser, and is whatever the
    browser makes of [v]. *)
Variable date_text : value -> string.

(** [formatDate(dateString)].  [new Date] of an array or of an object
    first takes its text, of which there may be none. *)
Definition formatDate (dateString : value) : completion string :=
  if negb (truthy dateString) then Normal ""
  else
    match dateString with
    | JArr _ | JObj _ =>
        and_then (to_string dateString) (fun s => Normal (date_text (JStr s)))
    | _ => Normal (date_text dateString)
    end.

(** [createNewsCardHtml(item, isAdmin)] *)
Definition createNewsCardHtml (item : value) (isAdmin : bool) : completion string :=
  let mediaHtml := "" in
  and_then (get_prop item "video_url") (fun video_url =>
  and_then
    (if truthy video_url then
       and_then (escapeHtml video_url) (fun src =>
       and_then (escapeHtml video_url) (fun opened =>
       Normal
         (mediaHtml
          ++ markup [""; "            <video class=`news-video` ";
                     "                   src=`"]
          ++ src
          ++ markup ["` "; "                   controlsList=`nodownload` ";
                     "                   oncontextmenu=`return false;`";
                     "                   onclick=`openLightbox('"]
          ++ opened
          ++ markup ["', 'video')`"; "                   preload=`metadata`>";
                     "            </video>";
                     "            <div style=`text-align:center; margin-top:-10px; margin-bottom:15px; font-size:0.8rem; color:#aaa;`>(Click to Watch)</div>";
                     "        "])))
     else Normal mediaHtml) (fun mediaHtml =>
  and_then (get_prop item "image_url") (fun image_url =>
  and_then
    (if truthy image_url then
       and_then (escapeHtml image_url) (fun src =>
       and_then (escapeHtml image_url) (fun opened =>
       Normal
         (mediaHtml
          ++ markup ["<img src=`"]
          ++ src
          ++ markup ["` "; "                           alt=`News Image` ";
                     "                           class=`news-image` ";
                     "                           onerror=`this.style.display='none'`";
                     "                           onclick=`openLightbox('"]
          ++ opened
          ++ markup ["', 'image')`>"])))
     else Normal mediaHtml) (fun mediaHtml =>
  and_then (get_prop item "link_url") (fun link_url =>
  and_then
    (if truthy link_url then
       and_then (to_string link_url) (fun tested =>
       let url :=
         if negb (has_http_scheme tested) then JStr ("https://" ++ tested)
         else link_url in
       and_then (escapeHtml url) (fun href =>
       Normal
         (markup [""; "            <div style=`margin-top: 10px;`>";
                  "                <a href=`"]
          ++ href
          ++ markup ["` target=`_blank` class=`news-link-btn`>Read More &rarr;</a>";
                     "            </div>"; "        "])))
     else Normal "") (fun linkHtml =>
  and_then
    (if isAdmin then
       and_then (get_prop item "id") (fun id =>
       and_then (to_string id) (fun id =>
       Normal
         (markup ["<button class=`btn-danger` onclick=`deleteNews('"]
          ++ id
          ++ markup ["')` style=`margin-left: auto;`>Delete</button>"])))
     else Normal "") (fun deleteBtnHtml =>
  and_then (get_prop item "title") (fun title =>
  and_then (escapeHtml title) (fun title =>
  and_then (get_prop item "date") (fun date =>
  and_then (formatDate date) (fun date =>
  and_then (get_prop item "content") (fun content =>
  and_then (formatContent content) (fun content =>
  and_then (get_prop item "author") (fun author =>
  and_then (escapeHtml (if truthy author then author else JStr "Admin")) (fun author =>
  Normal
    (markup [""; "        <div class=`news-header`>";
             "            <h3 class=`news-title`>"]
     ++ title
     ++ markup ["</h3>"; "            <span class=`news-date`>"]
     ++ date
     ++ markup ["</span>"; "            "]
     ++ (if isAdmin then deleteBtnHtml else "")
     ++ markup [""; "        </div>"; "        "]
     ++ mediaHtml
     ++ markup [""; "        <div class=`news-content`>"]
     ++ content
     ++ markup ["</div>"; "        "]
     ++ linkHtml
     ++ markup [""; "        <div class=`news-footer`>";
                "            <span class=`news-author`>By "]
     ++ author
     ++ markup ["</span>"; "        </div>"; "    "])))))))))))))))).

End Card.

(* ===================================================================== *)
(** ** news.js: the lightbox *)
(* ===================================================================== *)

(** What the lightbox shows: a [video] or an [img] element and its
    [src]. *)
Inductive Media : Type :=
| Video (src : string)
| Image (src : string).

(** The two elements the functions of the lightbox look up by their id:
    [mh-lightbox], with whether its classes include [active], and
    [lightbox-container], with its children.  [None] where the document
    has no such element. *)
Record Lightbox : Type := {
  overlay : option bool;
  container : option (list Media)
}.

(** [setupLightbox()]: the overlay is made once; its markup brings a
    container, which a look-up by id finds unless the document had one
    already. *)
Definition setupLightbox (d : Lightbox) : Lightbox :=
  match overlay d with
  | Some _ => d
  | None =>
      {| overlay := Some false;
         container := match container d with Some held => Some held | None => Some [] end |}
  end.

(** [openLightbox(src, type)] *)
Definition openLightbox (src type : string) (d : Lightbox) : Lightbox :=
  match overlay d, container d with
  | Some _, Some _ =>
      {| overlay := Some true;
         container := Some [if String.eqb type "video" then Video src else Image src] |}
  | _, _ => d
  end.

(** [closeLightbox()] *)
Definition closeLightbox (d : Lightbox) : Lightbox :=
  match overlay d with
  | Some _ =>
      {| overlay := Some false;
         container := match container d with Some _ => Some [] | None => None end |}
  | None => d
  end.

(* ===================================================================== *)
(** ** news.js: the public page *)
(* ===================================================================== *)

(** What the element [news-list-public] holds: the notice that the news
    are loading, the notice that there are none, or the markup of the
    cards appended so far. *)
Inductive PublicList : Type :=
| ListLoading
| ListEmpty
| ListCards (cards : list string).

Section Public.

Variable date_text : value -> string.

(** [newsItems.forEach(item => ...)] on the public page: the cards in
    front of the first item whose card cannot be made, and whether there
    is such an item. *)
Fixpoint public_cards (items : list value) : list string * bool :=
  match items with
  | [] => ([], false)
  | item :: rest =>
      match createNewsCardHtml date_text item false with
      | Normal html =>
          let '(shown, failed) := public_cards rest in (html :: shown, failed)
      | _ => ([], true)
      end
  end.

(** [renderNewsPublic()].  The element is handed in as the page has it,
    [None] for a page without one, and handed back as the call leaves it,
    also when the call throws. *)
Definition renderNewsPublic (listContainer : option PublicList) (w : World)
  : completion unit * option PublicList * World :=
  match listContainer with
  | None => (Normal tt, None, w)
  | Some _ =>
      match getNews w with
      | (Normal newsItems, w') =>
          match get_prop newsItems "length" with
          | Normal (JNum 0) => (Normal tt, Some ListEmpty, w')
          | Normal _ =>
              match newsItems with
              | JArr items =>
                  let '(shown, failed) := public_cards items in
                  (if failed then Throw TypeError else Normal tt,
                   Some (ListCards shown), w')
              | _ => (Throw TypeError, Some (ListCards []), w')
              end
          | Throw e => (Throw e, Some (ListCards []), w')
          | Unmodelled => (Unmodelled, Some (ListCards []), w')
          end
      | (Throw e, w') => (Throw e, Some ListLoading, w')
      | (Unmodelled, w') => (Unmodelled, Some ListLoading, w')
      end
  end.

End Public.

(* ===================================================================== *)
(** ** Worlds for the examples *)
(* ===================================================================== *)

Module Demo.

(** A digest that tells the two PINs of the demonstration apart. *)
Definition digest (pin : string) : string := "sha256:" ++ pin.

Definition no_window : Window :=
  {| SB_URL := JUndefined; SB_KEY := JUndefined; SUPABASE_PUBLIC_CONFIG := JUndefined;
     ADMIN_PASSWORD_HASH := JStr (digest "1234");
     USER_PASSWORD_HASH := JStr (digest "0000");
     hashPassword := digest |}.

Definition remote_window : Window :=
  {| SB_URL := JStr "https://db.example/"; SB_KEY := JStr "anon";
     SUPABASE_PUBLIC_CONFIG := JUndefined;
     ADMIN_PASSWORD_HASH := JStr (digest "1234");
     USER_PASSWORD_HASH := JStr (digest "0000");
     hashPassword := digest |}.

Definition form (title content link pin : string) : Page :=
  {| news_title := Some title; news_content := Some content;
     news_image := Some []; news_video := Some [];
     news_link := Some link; publish_pin := Some pin;
     btn_add_news := Some {| textContent := "Publish"; disabled := false |};
     news_list_admin := Some (PaneCards []) |}.

Definition world (win : Window) (ls : gmap string string) (pg : Page)
  (net : list Request -> Request -> Reply) : World :=
  {| window := win; localStorage := ls; page := pg;
     confirm_answer := true; prompt_answer := Some "1234";
     remote := net; clock := "2024-05-01T10:00:00.000Z";
     name_stem := fun n => "1714557600000_" ++ string_of_nat n;
     names_made := 0; requests := []; alerts := []; console := [] |}.

(** A remote store that is down. *)
Definition down : list Request -> Request -> Reply := fun _ _ => Response false "500".

(** A remote store that cannot be reached. *)
Definition unreachable : list Request -> Request -> Reply := fun _ _ => Rejected.

(** A remote store that fails every read and takes every write. *)
Definition write_only : list Request -> Request -> Reply :=
  fun _ r => if String.eqb (req_method r) "GET" then Response false "500"
             else Response true "".

Definition post (role title : string) : value :=
  JObj [("id", JStr title); ("title", JStr title); ("content", JStr "text");
        ("publisher_role", JStr role)].

End Demo.

Local Close Scope string_scope.

(* ===================================================================== *)
(** ** Reading the configuration *)
(* ===================================================================== *)

(** The credentials [getSupabaseCredentials] finds in a world. *)
Definition credentials (w : World) : completion (value * value) :=
  fst (getSupabaseCredentials w).

(** The text of the persisted settings. *)
Definition settings_text (w : World) : option string :=
  present (localStorage w !! "supabaseSyncSettings").

(** The sources of the credentials as the documentation lists them, each
    giving an endpoint and a key. *)
Definition source_globals (w : World) : value * value :=
  (SB_URL (window w), SB_KEY (window w)).

Definition source_config (w : World) : value * value :=
  let field k :=
    match get_prop (SUPABASE_PUBLIC_CONFIG (window w)) k with
    | Normal x => x
    | _ => JUndefined
    end in
  (field "URL", field "ANON_KEY").

Definition source_settings (w : World) : value * value :=
  match settings_text w with
  | Some text =>
      match JSON_parse text with
      | Normal settings =>
          match get_prop settings "url", get_prop settings "key" with
          | Normal u, Normal k => (u, k)
          | _, _ => (JUndefined, JUndefined)
          end
      | _ => (JUndefined, JUndefined)
      end
  | None => (JUndefined, JUndefined)
  end.

(** Both the endpoint and the key are present and not empty. *)
Definition qualifies (c : value * value) : bool := truthy (fst c) && truthy (snd c).

(** The resolution as the documentation words it: the first of the three
    sources that qualifies, and empty credentials when none does. *)
Definition resolve_documented (w : World) : value * value :=
  if qualifies (source_globals w) then source_globals w
  else if qualifies (source_config w) then source_config w
  else if qualifies (source_settings w) then source_settings w
  else (JUndefined, JUndefined).

(** The resolution as the script does it: the globals when they qualify;
    failing that the public configuration whenever there is one, as it
    is; and the persisted settings only when there is none. *)
Definition resolve_as_built (w : World) : completion (value * value) :=
  if qualifies (source_globals w) then Normal (source_globals w)
  else if truthy (SUPABASE_PUBLIC_CONFIG (window w)) then Normal (source_config w)
  else
    match settings_text w with
    | None => Normal (source_globals w)
    | Some text =>
        match JSON_parse text with
        | Normal settings =>
            if nullish settings then Normal (source_globals w)
            else Normal (source_settings w)
        | Throw _ => Normal (source_globals w)
        | Unmodelled => Unmodelled
        end
    end.

(* ===================================================================== *)
(** ** What a computation leaves as it was *)
(* ===================================================================== *)

(** [stable R m]: from any world, [m] ends in a world related to it by [R],
    however it completes. *)
Definition stable (R : World -> World -> Prop) {A} (m : M A) : Prop :=
  forall w, R w (snd (m w)).

(** The storage is as it was. *)
Definition keeps_storage (w w' : World) : Prop := localStorage w' = localStorage w.

(** The globals are as they were; the requests sent since all satisfy [Q],
    the messages shown since all satisfy [P]. *)
Definition evolves (Q : Request -> Prop) (P : string -> Prop) (w w' : World) : Prop :=
  window w' = window w
  /\ (exists sent, requests w' = requests w ++ sent /\ Forall Q sent)
  /\ (exists shown, alerts w' = alerts w ++ shown /\ Forall P shown).

Definition is_GET (r : Request) : Prop := req_method r = "GET".
Definition nothing (msg : string) : Prop := False.

(* ===================================================================== *)
(** ** The mode of a world and the news it stores *)
(* ===================================================================== *)

(** The script is in local mode: the credentials are known and one of
    the two is empty.  The answer [false] says less than it seems to: the
    credentials may as well be outside of what is modelled, where the
    script itself may be in local mode.  A statement about remote mode
    therefore names the credentials, [credentials w = Normal creds] with
    [local_mode creds = false]. *)
Definition in_local_mode (w : World) : bool :=
  match credentials w with
  | Normal creds => local_mode creds
  | _ => false
  end.

(** The text in the slot of the news, [None] when there is none or it is
    empty. *)
Definition news_text (w : World) : option string :=
  present (localStorage w !! "mh_news_data").

(** The sequence the slot of the news holds. *)
Definition stored_news (w : World) : completion value :=
  match news_text w with
  | Some text => JSON_parse text
  | None => Normal (JArr [])
  end.

(* ===================================================================== *)
(** ** Resolution of the credentials *)
(* ===================================================================== *)

Module Resolution.

(** A page whose public configuration is there with nothing filled in,
    and a browser that has settings saved. *)
Definition placeholder_window : Window :=
  {| SB_URL := JUndefined; SB_KEY := JUndefined;
     SUPABASE_PUBLIC_CONFIG := JObj [("URL", JStr ""); ("ANON_KEY", JStr "")];
     ADMIN_PASSWORD_HASH := JStr (Demo.digest "1234");
     USER_PASSWORD_HASH := JStr (Demo.digest "0000");
     hashPassword := Demo.digest |}.

Definition saved_settings : gmap string string :=
  {[ "supabaseSyncSettings" := json_text "{'url':'https://db.example','key':'anon'}" ]}.

Definition w : World :=
  Demo.world placeholder_window saved_settings (Demo.form "" "" "" "") Demo.down.

End Resolution.

(* ===================================================================== *)
(** ** Listing *)
(* ===================================================================== *)

Module Malformed.

Definition w : World :=
  Demo.world Demo.no_window {[ "mh_news_data" := "{oops" ]}
    (Demo.form "Hi" "World" "" "0000") Demo.down.

(** The same text in the slot of the settings. *)
Definition settings : World :=
  Demo.world Demo.no_window {[ "supabaseSyncSettings" := "{oops" ]}
    (Demo.form "Hi" "World" "" "0000") Demo.down.

End Malformed.

(** What the remote store answers to the request of [getNews]. *)
Definition failed (r : Reply) : Prop :=
  match r with
  | Rejected => True
  | Response ok _ => ok = false
  end.

Module Fallback.

Definition kept : value := JArr [Demo.post "admin" "kept"].

Definition w : World :=
  Demo.world Demo.remote_window {[ "mh_news_data" := JSON_stringify kept ]}
    (Demo.form "" "" "" "") Demo.down.

End Fallback.

Module Corrupted.

(** Remote mode, and a slot of the news that holds no JSON; the remote
    store answers every request with a 500, or cannot be reached. *)
Definition down : World :=
  Demo.world Demo.remote_window {[ "mh_news_data" := "{oops" ]}
    (Demo.form "" "" "" "") Demo.down.

Definition unreachable : World :=
  Demo.world Demo.remote_window {[ "mh_news_data" := "{oops" ]}
    (Demo.form "" "" "" "") Demo.unreachable.

Definition request : Request :=
  list_request "https://db.example"
    [("apikey", JStr "anon"); ("Authorization", JStr "Bearer anon")].

End Corrupted.

(* ===================================================================== *)
(** ** Saving *)
(* ===================================================================== *)

Module SaveDown.

Definition kept : value := JArr [Demo.post "admin" "kept"].

Definition w : World :=
  Demo.world Demo.remote_window {[ "mh_news_data" := JSON_stringify kept ]}
    (Demo.form "" "" "" "") Demo.unreachable.

Definition item : value := JObj [("title", JStr "Hi"); ("content", JStr "World")].

End SaveDown.

(* ===================================================================== *)
(** ** Clearing all the news *)
(* ===================================================================== *)



Module ClearLocal.

Definition kept : value := JArr [Demo.post "user" "a"; Demo.post "admin" "b"].

Definition w : World :=
  Demo.world Demo.no_window {[ "mh_news_data" := JSON_stringify kept ]}
    (Demo.form "" "" "" "") Demo.down.

End ClearLocal.

Module ClearRemote.

Definition w : World :=
  Demo.world Demo.remote_window ∅ (Demo.form "" "" "" "") Demo.write_only.

End ClearRemote.

Module ClearRefused.

(** A remote store that lists one item and refuses everything else. *)
Definition listing : string :=
  json_text "[{'id':1,'title':'kept','news_date':'2024-01-01'}]".

Definition w : World :=
  Demo.world Demo.remote_window ∅ (Demo.form "" "" "" "")
    (fun _ r => if String.eqb (req_method r) "GET" then Response true listing
                else Response false "denied").

Definition kept : value :=
  JObj [("id", JNum 1); ("title", JStr "kept"); ("content", JUndefined);
        ("author", JUndefined); ("date", JStr "2024-01-01"); ("image_url", JUndefined);
        ("video_url", JUndefined); ("link_url", JUndefined);
        ("publisher_role", JUndefined)]%string.

End ClearRefused.

(* ===================================================================== *)
(** ** Publishing *)
(* ===================================================================== *)

(** The link of the draft as the handler saves it. *)
Definition draft_link (pg : Page) : string :=
  auto_fix_link (match news_link pg with Some l => trim l | None => "" end).

(** [n.publisher_role === 'user'] on an entry that has properties. *)
Definition is_user_post (item : value) : bool :=
  match get_prop item "publisher_role" with
  | Normal role => strict_eq_str "user" role
  | _ => false
  end.

(** The message of the handler to a visitor whose PIN gives no role. *)
Definition rejection_message (tv cv pv : string) : string :=
  if String.eqb (trim tv) "" || String.eqb (trim cv) "" then
    "Please fill in title and content."
  else if String.eqb (trim pv) "" then "Please enter a Publish PIN."
  else "Incorrect PIN. Please try again.".

Module WrongPin.

(** An empty title, a content, and a PIN that is neither of the two. *)
Definition w : World :=
  Demo.world Demo.no_window ∅ (Demo.form "  " "World" "" "9999") Demo.down.

End WrongPin.

Module WrongPinValid.

Definition w : World :=
  Demo.world Demo.no_window ∅ (Demo.form "Hi" "World" "" " 9999 ") Demo.down.

End WrongPinValid.

Module SamePin.

(** A browser whose two reference digests are the same. *)
Definition win : Window :=
  {| SB_URL := JUndefined; SB_KEY := JUndefined; SUPABASE_PUBLIC_CONFIG := JUndefined;
     ADMIN_PASSWORD_HASH := JStr (Demo.digest "1234");
     USER_PASSWORD_HASH := JStr (Demo.digest "1234");
     hashPassword := Demo.digest |}.

Definition w : World :=
  Demo.world win ∅ (Demo.form "Hi" "World" "" " 1234 ") Demo.down.

End SamePin.

Definition any_request (r : Request) : Prop := True.

(** A message that is not the one of the quota. *)
Definition not_quota (msg : string) : Prop := forall n, msg <> quota_message n.

Module Quota.

Definition five : value :=
  JArr [Demo.post "user" "a"; Demo.post "user" "b"; Demo.post "admin" "c";
        Demo.post "user" "d"; Demo.post "user" "e"; Demo.post "user" "f"].

Definition storage : gmap string string := {[ "mh_news_data" := JSON_stringify five ]}.

Definition user_world : World :=
  Demo.world Demo.no_window storage (Demo.form "Hi" "World" "" "0000") Demo.down.

Definition admin_world : World :=
  Demo.world Demo.no_window storage (Demo.form "Hi" "World" "" "1234") Demo.down.

Definition listed : World :=
  with_console [[LText "News: Supabase not configured. Using local storage."]] user_world.

End Quota.

Module Swallowed.

(** Reads fail, writes succeed, and what is stored locally is not JSON:
    the listing throws. *)
Definition w : World :=
  Demo.world Demo.remote_window {[ "mh_news_data" := "{oops" ]}
    (Demo.form "Hi" "World" "" "0000") Demo.write_only.


End Swallowed.

Module SwallowedLocal.

(** Local mode, and a slot of the news that holds no JSON. *)
Definition w : World :=
  Demo.world Demo.no_window {[ "mh_news_data" := "{oops" ]}
    (Demo.form "Hi" "World" "" "0000") Demo.down.

End SwallowedLocal.

(* ===================================================================== *)
(** ** JSON.parse after JSON.stringify *)
(* ===================================================================== *)

(** What follows a value in a text [stringify] makes: nothing, a comma or
    a closing bracket. *)
Definition ends_value (rest : list ascii) : bool :=
  match rest with
  | [] => true
  | c :: _ => Ascii.eqb c "," || Ascii.eqb c "]" || Ascii.eqb c "}"
  end.

Definition safe (z : Z) : bool := (Z.abs_N z <=? max_safe)%N.

(** The values whose text [to_chars] gives as JavaScript does: no number
    that is turned into text is beyond 2^53 in size. *)
Fixpoint exact_text (v : value) : bool :=
  match v with
  | JNum z => safe z
  | JArr items =>
      (fix all (l : list value) : bool :=
         match l with
         | [] => true
         | x :: l' => exact_text x && all l'
         end) items
  | _ => true
  end.

(** The values [JSON.parse] makes and [JSON.stringify] writes back as they
    are: no [undefined], numbers within the safe integers, and in an
    object names that differ from one another and are no array index. *)
Fixpoint distinct_keys (fields : list (string * value)) : bool :=
  match fields with
  | [] => true
  | (k, _) :: rest =>
      match assoc k rest with
      | None => distinct_keys rest
      | Some _ => false
      end
  end.

Fixpoint clean (v : value) : bool :=
  match v with
  | JUndefined => false
  | JNull | JBool _ | JStr _ => true
  | JNum z => safe z
  | JArr items =>
      (fix all (l : list value) : bool :=
         match l with
         | [] => true
         | x :: l' => clean x && all l'
         end) items
  | JObj fields =>
      distinct_keys fields
      && (fix all (l : list (string * value)) : bool :=
            match l with
            | [] => true
            | (k, x) :: l' => negb (is_array_index k) && clean x && all l'
            end) fields
  end.

Definition clean_field (kv : string * value) : bool :=
  negb (is_array_index (fst kv)) && clean (snd kv).

Definition entry_text (x : value) : list ascii :=
  match stringify x with
  | Some t => t
  | None => list_ascii_of_string "null"
  end.

Fixpoint member_texts (fields : list (string * value)) : list (list ascii) :=
  match fields with
  | [] => []
  | (k, x) :: rest =>
      match stringify x with
      | Some t => (quote k ++ ":"%char :: t) :: member_texts rest
      | None => member_texts rest
      end
  end.

(** The first character of the text of a value. *)
Definition starts_value (c : ascii) : bool :=
  is_digit c
  || existsb (Ascii.eqb c) ["-"; "n"; "t"; "f"; "034"; "["; "{"]%char.

(** [v] is read back from its text, whatever follows the text. *)
Definition reads_back (v : value) : Prop :=
  clean v = true ->
  forall t rest fuel,
    stringify v = Some t ->
    ends_value rest = true ->
    (List.length t < fuel)%nat ->
    parse_value fuel (t ++ rest) = POk v rest.

(* ===================================================================== *)
(** ** Deleting one item, and reading back what was saved *)
(* ===================================================================== *)

(** The text of the id of a stored item, [item.id.toString()]. *)
Definition id_text (item : value) : completion string :=
  match get_prop item "id" with
  | Normal i => call_toString i
  | Throw e => Throw e
  | Unmodelled => Unmodelled
  end.

Definition has_id (item : value) : bool :=
  match id_text item with Normal _ => true | _ => false end.

(** The id of [item], as text, is [t]. *)
Definition id_is (t : string) (item : value) : bool :=
  match id_text item with Normal s => String.eqb s t | _ => false end.

Module Delete.

(** Three stored items: ids kept as the text 7, as the text 8 and as the
    number 7. *)
Definition seven : value := JObj [("id", JStr "7"); ("title", JStr "a")].
Definition eight : value := JObj [("id", JStr "8"); ("title", JStr "b")].
Definition seven_number : value := JObj [("id", JNum 7); ("title", JStr "c")].

Definition w : World :=
  Demo.world Demo.no_window
    {[ "mh_news_data" := JSON_stringify (JArr [seven; eight; seven_number]) ]}
    (Demo.form "" "" "" "") Demo.down.

End Delete.

Module DeleteAfterPublish.

(** Local mode, one stored item whose id is the text 7, and a draft with
    the administrator's PIN. *)
Definition w : World :=
  Demo.world Demo.no_window {[ "mh_news_data" := JSON_stringify (JArr [Delete.seven]) ]}
    (Demo.form "Hi" "World" "" "1234") Demo.down.

Definition published : World := snd (handleAddNews w).

Definition item : value :=
  JObj [("title", JStr "Hi"); ("content", JStr "World"); ("author", JStr "Admin");
        ("date", JStr "2024-05-01T10:00:00.000Z"); ("image_url", JStr "");
        ("video_url", JStr ""); ("link_url", JStr "");
        ("publisher_role", JStr "admin")].

End DeleteAfterPublish.

Module RoundTrip.

(** Scenario A of the documentation: no credentials, an empty store, the
    administrator's PIN. *)
Definition w : World :=
  Demo.world Demo.no_window ∅ (Demo.form "Hi" "World" "example.com" "1234") Demo.down.

Definition published : World := snd (handleAddNews w).

Definition item : value :=
  JObj [("title", JStr "Hi"); ("content", JStr "World"); ("author", JStr "Admin");
        ("date", JStr "2024-05-01T10:00:00.000Z"); ("image_url", JStr "");
        ("video_url", JStr ""); ("link_url", JStr "https://example.com");
        ("publisher_role", JStr "admin")].

End RoundTrip.

(* ===================================================================== *)
(** ** What the markup of a card may hold *)
(* ===================================================================== *)

(** What [escapeHtml] makes of one character. *)
Definition entity (c : ascii) : string :=
  if Ascii.eqb c "&" then "&amp;"
  else if Ascii.eqb c "<" then "&lt;"
  else if Ascii.eqb c ">" then "&gt;"
  else if Ascii.eqb c "034" then "&quot;"
  else if Ascii.eqb c "'" then "&#039;"
  else String c EmptyString.

(** What [formatContent] makes of one character. *)
Definition entity_or_break (c : ascii) : string :=
  if Ascii.eqb c "010" then "<br>" else entity c.

(** A text rewritten one character at a time. *)
Fixpoint translate (f : ascii -> string) (s : string) : string :=
  match s with
  | EmptyString => EmptyString
  | String c r => f c +:+ translate f r
  end.

(** A character that neither opens nor closes a tag or a quoted
    attribute. *)
Definition inert (c : ascii) : bool :=
  negb (Ascii.eqb c "<" || Ascii.eqb c ">" || Ascii.eqb c "034" || Ascii.eqb c "'").

(** A text whose only tags are line breaks: each [<] opens a [<br>], and
    no [>], quote or line feed stands anywhere else. *)
Fixpoint only_breaks (s : string) : bool :=
  match s with
  | EmptyString => true
  | String c r =>
      if Ascii.eqb c "<" then
        match r with
        | String "b" (String "r" (String ">" r')) => only_breaks r'
        | _ => false
        end
      else inert c && negb (Ascii.eqb c "010") && only_breaks r
  end.

(** The entries of a stored sequence in front of the first that has no
    card for the public page. *)
Definition no_text (x : value) : bool :=
  match to_chars x with Some _ => false | None => true end.

(* ===================================================================== *)
(** ** What the script does, one call after another *)
(* ===================================================================== *)

(** The calls a page makes of the script. *)
Inductive Operation : Type :=
| List_news
| Save (item : value)
| Delete (id : value)
| Upload (file : File)
| Render_admin
| Publish
| Clear_all.

(** The world a call leaves, however it completes. *)
Definition perform (w : World) (op : Operation) : World :=
  match op with
  | List_news => snd (getNews w)
  | Save item => snd (saveNews item w)
  | Delete id => snd (deleteNews id w)
  | Upload file => snd (uploadFile file w)
  | Render_admin => snd (renderNewsAdmin w)
  | Publish => snd (handleAddNews w)
  | Clear_all => snd (handleClearAllNews w)
  end.

Definition perform_all (ops : list Operation) (w : World) : World :=
  fold_left perform ops w.

(** From a world in local mode: the mode is still local and no request
    has gone out. *)
Definition offline (w w' : World) : Prop :=
  in_local_mode w = true ->
  in_local_mode w' = true /\ requests w' = requests w.

(** From a world in remote mode, with an endpoint and a key: the
    credentials are the same, and the storage is as it was. *)
Definition online (w w' : World) : Prop :=
  forall creds,
    credentials w = Normal creds -> local_mode creds = false ->
    credentials w' = Normal creds /\ localStorage w' = localStorage w.

(** The globals are as they were, and so is every slot of the storage but
    the one of the news. *)
Definition keeps_settings (w w' : World) : Prop :=
  window w' = window w
  /\ forall k, k <> "mh_news_data"%string -> localStorage w' !! k = localStorage w !! k.

(** [getNews] asks the remote store for the list, the one request it
    makes. *)
Definition is_listing (r : Request) : Prop :=
  req_method r = "GET"%string /\ req_body r = None.

Module Listing.

(** A remote store that answers the request for the list with two rows,
    and a browser whose own slot of the news holds no JSON. *)
Definition reply : string :=
  json_text "[{'id':2,'title':'b','news_date':'2024-02-01','extra':true},{'id':1,'title':'a','news_date':'2024-01-01'}]".

Definition w : World :=
  Demo.world Demo.remote_window {[ "mh_news_data"%string := "{oops"%string ]}
    (Demo.form "" "" "" "") (fun _ _ => Response true reply).

Definition rows : list value :=
  [JObj [("id", JNum 2); ("title", JStr "b"); ("news_date", JStr "2024-02-01");
         ("extra", JBool true)]%string;
   JObj [("id", JNum 1); ("title", JStr "a"); ("news_date", JStr "2024-01-01")]%string].

End Listing.

(** The fields of an item that [saveNews] sends to the remote store. *)
Definition item_fields : list string :=
  ["title"; "content"; "author"; "date"; "image_url"; "video_url"; "link_url";
   "publisher_role"]%string.

Module NoArray.

(** The slot of the news holds JSON, an object, where the script expects
    an array. *)
Definition w : World :=
  Demo.world Demo.no_window {[ "mh_news_data"%string := "{}"%string ]}
    (Demo.form "Hi" "World" "" "1234") Demo.down.

End NoArray.

(** The visitor answers [confirm] and [prompt] as before. *)
Definition answers_as_before (w w' : World) : Prop :=
  confirm_answer w' = confirm_answer w /\ prompt_answer w' = prompt_answer w.


Module DeleteRemote.

(** A remote store that takes every request. *)
Definition w : World :=
  Demo.world Demo.remote_window ∅ (Demo.form "" "" "" "")
    (fun _ r => if String.eqb (req_method r) "GET" then Response true "[]"
                else Response true "").

End DeleteRemote.

(** The name [uploadFile] gives to the next file it sends. *)
Definition upload_name (w : World) (file : File) : string :=
  name_stem w (names_made w) +:+ "." +:+ extension (file_name file).

(** [request] has sent [file] under [name] to the store at [base], and
    the store has accepted it. *)
Definition uploaded (w : World) (file : File) (base name : string) (request : Request)
  : Prop :=
  req_method request = "POST"%string
  /\ req_url request = base +:+ "/storage/v1/object/news-images/" +:+ name
  /\ req_body request = Some (FileBody file)
  /\ exists text, remote w (requests w) request = Response true text.

(** The item [handleAddNews] makes of a draft in local mode, where no file
    is uploaded. *)
Definition local_item (w : World) (role authorName tv cv : string) : value :=
  JObj [("title", JStr (trim tv)); ("content", JStr (trim cv));
        ("author", JStr authorName); ("date", JStr (clock w));
        ("image_url", JStr ""); ("video_url", JStr "");
        ("link_url", JStr (draft_link (page w)));
        ("publisher_role", JStr role)]%string.



(** The page and the clock are as they were. *)
Definition same_form (w w' : World) : Prop := page w' = page w /\ clock w' = clock w.


Module LocalPublish.

(** A draft with a picture attached, in a browser without credentials. *)
Definition w : World :=
  Demo.world Demo.no_window ∅
    {| news_title := Some " Hi "%string; news_content := Some "World"%string;
       news_image := Some [{| file_name := "a.png"; file_type := "image/png" |}]%string;
       news_video := Some []; news_link := Some "example.com"%string;
       publish_pin := Some "0000"%string;
       btn_add_news := Some {| textContent := "Publish"; disabled := false |};
       news_list_admin := Some (PaneCards []) |}
    Demo.down.

(** The same page without its button. *)
Definition no_button : World :=
  Demo.world Demo.no_window ∅
    {| news_title := Some "Hi"%string; news_content := Some "World"%string;
       news_image := Some []; news_video := Some [];
       news_link := Some ""%string; publish_pin := Some "1234"%string;
       btn_add_news := None; news_list_admin := Some (PaneCards []) |}
    Demo.down.

End LocalPublish.

Module NullEntry.

(** Five items of users and an entry that is [null], stored locally, and
    the PIN of a user. *)
Definition users : list value :=
  [Demo.post "user" "a"; Demo.post "user" "b"; Demo.post "user" "c";
   Demo.post "user" "d"; Demo.post "user" "e"]%string.

Definition w : World :=
  Demo.world Demo.no_window
    {[ "mh_news_data"%string := JSON_stringify (JArr (users ++ [JNull])) ]}
    (Demo.form "Hi" "World" "" "0000") Demo.down.

End NullEntry.

(** What the admin list holds once every stored item has its card. *)
Definition pane_of (items : list value) : Pane :=
  match items with
  | [] => PaneNoNews
  | _ => PaneCards items
  end.

(** One call of [openLightbox] after another. *)
Definition open_each (calls : list (string * string)) (d : Lightbox) : Lightbox :=
  fold_left (fun d call => openLightbox (fst call) (snd call) d) calls d.

(** The element [openLightbox(src, type)] makes. *)
Definition medium (src type : string) : Media :=
  if String.eqb type "video" then Video src else Image src.

Module ClearDenied.

(** The visitor confirms and gives the PIN of a user. *)
Definition w : World :=
  {| window := Demo.remote_window; localStorage := ∅; page := Demo.form "" "" "" "";
     confirm_answer := true; prompt_answer := Some "0000"%string;
     remote := Demo.write_only; clock := "2024-05-01T10:00:00.000Z"%string;
     name_stem := fun n => string_of_nat n;
     names_made := 0; requests := []; alerts := []; console := [] |}.

End ClearDenied.

(* ===================================================================== *)
(** * Properties *)
(* ===================================================================== *)

(* ===================================================================== *)
(** ** Strings: the methods the script calls *)
(* ===================================================================== *)

Example to_string_number : call_toString (JNum 42) = Normal "42"%string.
Proof. reflexivity. Qed.

Example to_string_array :
  to_string (JArr [JNum (-1); JNull; JArr [JStr "a"; JBool true]])
  = Normal "-1,,a,true"%string.
Proof. reflexivity. Qed.

Example trim_example : trim "  a b  " = "a b"%string.
Proof. reflexivity. Qed.

Example scheme_example :
  has_http_scheme "HTTPS://x" = true /\ has_http_scheme "example.com" = false.
Proof. split; reflexivity. Qed.

Example strip_example :
  strip_trailing_slash "https://db.example/" = "https://db.example"%string
  /\ strip_trailing_slash "a//" = "a/"%string.
Proof. split; reflexivity. Qed.

Example extension_example :
  extension "photo.final.png" = "png"%string /\ extension "README" = "README"%string.
Proof. split; reflexivity. Qed.

(* ===================================================================== *)
(** ** JSON.parse *)
(* ===================================================================== *)

Example parse_item :
  JSON_parse (json_text "[ {'id': 7, 'title':'a\nA'}, null, [true,-12] ]")
  = Normal (JArr [JObj [("id", JNum 7); ("title", JStr (String "a" (String "010" "A")))];
                  JNull; JArr [JBool true; JNum (-12)]]).
Proof. vm_compute. reflexivity. Qed.

Example parse_duplicate_key :
  JSON_parse (json_text "{'a':1,'b':2,'a':3}") = Normal (JObj [("a", JNum 3); ("b", JNum 2)]).
Proof. vm_compute. reflexivity. Qed.

Example parse_malformed :
  JSON_parse "{oops" = Throw SyntaxError /\ JSON_parse "" = Throw SyntaxError
  /\ JSON_parse "[1,]" = Throw SyntaxError /\ JSON_parse "01" = Throw SyntaxError
  /\ JSON_parse "[1 2]" = Throw SyntaxError /\ JSON_parse "1." = Throw SyntaxError.
Proof. vm_compute. repeat split. Qed.

Example parse_outside :
  JSON_parse "1.5" = Unmodelled /\ JSON_parse (json_text "{'0':1}") = Unmodelled
  /\ JSON_parse (json_text "'\u4e2d'") = Unmodelled
  /\ JSON_parse "9007199254740993" = Unmodelled.
Proof. vm_compute. repeat split. Qed.

Example stringify_item :
  JSON_stringify (JArr [JObj [("title", JStr "a\b"); ("id", JUndefined); ("n", JNum (-3))];
                        JUndefined])
  = json_text "[{'title':'a\\b','n':-3},null]".
Proof. vm_compute. reflexivity. Qed.

(* ===================================================================== *)
(** ** Worlds for the examples *)
(* ===================================================================== *)

Example scenario_A :
  let w := Demo.world Demo.no_window ∅ (Demo.form "Hi" "World" "example.com" "1234")
             Demo.down in
  let w' := snd (handleAddNews w) in
  fst (handleAddNews w) = Normal tt
  /\ alerts w' = ["News item published!"]
  /\ fst (getNews w')
     = Normal (JArr [JObj [("title", JStr "Hi"); ("content", JStr "World");
                           ("author", JStr "Admin");
                           ("date", JStr "2024-05-01T10:00:00.000Z");
                           ("image_url", JStr ""); ("video_url", JStr "");
                           ("link_url", JStr "https://example.com");
                           ("publisher_role", JStr "admin")]]).
Proof. vm_compute. repeat split. Qed.

(* ===================================================================== *)
(** ** Reading the configuration *)
(* ===================================================================== *)

Lemma getSupabaseCredentials_pure (w : World) :
  getSupabaseCredentials w = (credentials w, w).
Proof.
  unfold credentials, getSupabaseCredentials, bind, get_window, try_catch,
    getItem, lift, ret.
  destruct (negb (truthy (SB_URL (window w))) || negb (truthy (SB_KEY (window w))));
    [|reflexivity].
  destruct (truthy (SUPABASE_PUBLIC_CONFIG (window w))).
  - destruct (get_prop _ "URL"); try reflexivity.
    destruct (get_prop _ "ANON_KEY"); reflexivity.
  - destruct (present _); [|reflexivity].
    destruct (JSON_parse _) as [settings| |]; try reflexivity.
    destruct (get_prop settings "url"); try reflexivity.
    destruct (get_prop settings "key"); reflexivity.
Qed.

(** The credentials depend on the globals and on the persisted settings,
    on nothing else. *)
Lemma credentials_ext (w1 w2 : World) :
  window w1 = window w2 ->
  localStorage w1 !! "supabaseSyncSettings" = localStorage w2 !! "supabaseSyncSettings" ->
  credentials w1 = credentials w2.
Proof.
  intros Hwin Hls.
  unfold credentials, getSupabaseCredentials, bind, get_window, try_catch,
    getItem, lift, ret.
  cbv beta iota. rewrite Hwin.
  destruct (negb (truthy (SB_URL (window w2))) || negb (truthy (SB_KEY (window w2))));
    [|reflexivity].
  destruct (truthy (SUPABASE_PUBLIC_CONFIG (window w2))).
  - destruct (get_prop _ "URL"); try reflexivity.
    destruct (get_prop _ "ANON_KEY"); reflexivity.
  - cbv beta iota. rewrite Hls.
    destruct (present _); [|reflexivity].
    destruct (JSON_parse _) as [settings| |]; try reflexivity.
    destruct (get_prop settings "url"); try reflexivity.
    destruct (get_prop settings "key"); reflexivity.
Qed.

Lemma get_prop_truthy (v : value) (k : string) :
  truthy v = true -> exists x, get_prop v k = Normal x.
Proof. destruct v; simpl; try discriminate; eauto. Qed.

Lemma credentials_as_built (w : World) : credentials w = resolve_as_built w.
Proof.
  unfold credentials, resolve_as_built, getSupabaseCredentials, bind, get_window,
    try_catch, getItem, lift, ret, qualifies, source_globals, source_config,
    source_settings, settings_text.
  cbn [fst snd].
  destruct (truthy (SB_URL (window w))), (truthy (SB_KEY (window w))); cbn [negb orb andb];
    try reflexivity.
  all: destruct (truthy (SUPABASE_PUBLIC_CONFIG (window w))) eqn:Hcfg.
  all: try (destruct (get_prop_truthy _ "URL" Hcfg) as [u ->];
            destruct (get_prop_truthy _ "ANON_KEY" Hcfg) as [k ->]; reflexivity).
  all: destruct (present _) as [text|]; [|reflexivity].
  all: destruct (JSON_parse text) as [settings|e|]; try reflexivity.
  all: destruct settings; reflexivity.
Qed.

(* ===================================================================== *)
(** ** What a computation leaves as it was *)
(* ===================================================================== *)

Section Stable.
Variable R : World -> World -> Prop.
Hypothesis R_refl : forall w, R w w.
Hypothesis R_trans : forall w1 w2 w3, R w1 w2 -> R w2 w3 -> R w1 w3.

Lemma stable_ret {A} (a : A) : stable R (ret a).
Proof using R_refl. intros w. apply R_refl. Qed.

Lemma stable_lift {A} (c : completion A) : stable R (lift c).
Proof using R_refl. intros w. apply R_refl. Qed.

Lemma stable_throw {A} (e : exn) : stable R (@throw A e).
Proof using R_refl. intros w. apply R_refl. Qed.

Lemma stable_read {A} (f : World -> A) : stable R (fun w => (Normal (f w), w)).
Proof using R_refl. intros w. apply R_refl. Qed.

Lemma stable_bind {A B} (m : M A) (k : A -> M B) :
  stable R m -> (forall a, stable R (k a)) -> stable R (bind m k).
Proof using R_trans.
  intros Hm Hk w. unfold bind. specialize (Hm w).
  destruct (m w) as [[a|e|] w1]; simpl in *; try assumption.
  eapply R_trans; [exact Hm|apply Hk].
Qed.

Lemma stable_try_catch {A} (m : M A) (h : exn -> M A) :
  stable R m -> (forall e, stable R (h e)) -> stable R (try_catch m h).
Proof using R_trans.
  intros Hm Hh w. unfold try_catch. specialize (Hm w).
  destruct (m w) as [[a|e|] w1]; simpl in *; try assumption.
  eapply R_trans; [exact Hm|apply Hh].
Qed.

Lemma stable_detached {A} (m : M A) : stable R m -> stable R (detached m).
Proof.
  intros Hm w. unfold detached. specialize (Hm w).
  destruct (m w) as [[a|e|] w1]; simpl in *; assumption.
Qed.

End Stable.

Lemma keeps_storage_refl w : keeps_storage w w.
Proof. reflexivity. Qed.

Lemma keeps_storage_trans w1 w2 w3 :
  keeps_storage w1 w2 -> keeps_storage w2 w3 -> keeps_storage w1 w3.
Proof. unfold keeps_storage. congruence. Qed.

Lemma evolves_refl Q P w : evolves Q P w w.
Proof.
  repeat split; exists []; rewrite app_nil_r; split; auto.
Qed.

Lemma evolves_trans Q P w1 w2 w3 :
  evolves Q P w1 w2 -> evolves Q P w2 w3 -> evolves Q P w1 w3.
Proof.
  intros (Hw & (s1 & Hs1 & Hq1) & (a1 & Ha1 & Hp1))
         (Hw' & (s2 & Hs2 & Hq2) & (a2 & Ha2 & Hp2)).
  split; [congruence|]. split.
  - exists (s1 ++ s2). split.
    + rewrite Hs2, Hs1, app_assoc. reflexivity.
    + apply Forall_app; auto.
  - exists (a1 ++ a2). split.
    + rewrite Ha2, Ha1, app_assoc. reflexivity.
    + apply Forall_app; auto.
Qed.

Lemma evolves_weaken (Q Q' : Request -> Prop) (P P' : string -> Prop) w w' :
  (forall r, Q r -> Q' r) -> (forall m, P m -> P' m) ->
  evolves Q P w w' -> evolves Q' P' w w'.
Proof.
  intros HQ HP (Hw & (s & Hs & Hq) & (a & Ha & Hp)).
  split; [assumption|]. split.
  - exists s. split; [assumption|]. eapply Forall_impl; eauto.
  - exists a. split; [assumption|]. eapply Forall_impl; eauto.
Qed.

Create HintDb stable.

Lemma keeps_alert msg : stable keeps_storage (alert msg).
Proof. intros w. reflexivity. Qed.

Lemma keeps_console args : stable keeps_storage (console_log args).
Proof. intros w. reflexivity. Qed.

Lemma keeps_getItem k : stable keeps_storage (getItem k).
Proof. intros w. reflexivity. Qed.

Lemma keeps_fetch r : stable keeps_storage (fetch r).
Proof. intros w. unfold fetch. destruct (remote _ _ _); reflexivity. Qed.

Lemma keeps_set_admin_list p : stable keeps_storage (set_admin_list p).
Proof. intros w. reflexivity. Qed.

Lemma keeps_set_button t d : stable keeps_storage (set_button t d).
Proof. intros w. unfold set_button. destruct (btn_add_news _); reflexivity. Qed.

Lemma keeps_button_text : stable keeps_storage button_text.
Proof. intros w. unfold button_text. destruct (btn_add_news _); reflexivity. Qed.

Lemma keeps_clear_form : stable keeps_storage clear_form.
Proof. intros w. reflexivity. Qed.

Lemma keeps_credentials : stable keeps_storage getSupabaseCredentials.
Proof. intros w. rewrite getSupabaseCredentials_pure. reflexivity. Qed.

(** For a step that sends nothing and shows nothing. *)
Ltac evolves_silently :=
  split; [reflexivity | split; exists []; simpl; rewrite app_nil_r; auto].

Lemma evolves_alert Q (P : string -> Prop) msg : P msg -> stable (evolves Q P) (alert msg).
Proof.
  intros HP w. split; [reflexivity|]. split.
  - exists []. simpl. rewrite app_nil_r. auto.
  - exists [msg]. simpl. auto.
Qed.

Lemma evolves_fetch (Q : Request -> Prop) P r : Q r -> stable (evolves Q P) (fetch r).
Proof.
  intros HQ w. unfold fetch. split; [destruct (remote _ _ _); reflexivity|]. split.
  - exists [r]. destruct (remote _ _ _); simpl; auto.
  - exists []. destruct (remote _ _ _); simpl; rewrite app_nil_r; auto.
Qed.

Lemma evolves_console Q P args : stable (evolves Q P) (console_log args).
Proof. intros w. evolves_silently. Qed.

Lemma evolves_getItem Q P k : stable (evolves Q P) (getItem k).
Proof. intros w. evolves_silently. Qed.

Lemma evolves_setItem Q P k t : stable (evolves Q P) (setItem k t).
Proof. intros w. evolves_silently. Qed.

Lemma evolves_set_admin_list Q P p : stable (evolves Q P) (set_admin_list p).
Proof. intros w. evolves_silently. Qed.

Lemma evolves_set_button Q P t d : stable (evolves Q P) (set_button t d).
Proof. intros w. unfold set_button. destruct (btn_add_news _); evolves_silently. Qed.

Lemma evolves_button_text Q P : stable (evolves Q P) button_text.
Proof. intros w. unfold button_text. destruct (btn_add_news _); evolves_silently. Qed.

Lemma evolves_clear_form Q P : stable (evolves Q P) clear_form.
Proof. intros w. evolves_silently. Qed.

Lemma evolves_credentials Q P : stable (evolves Q P) getSupabaseCredentials.
Proof. intros w. rewrite getSupabaseCredentials_pure. apply evolves_refl. Qed.

#[local] Hint Resolve keeps_storage_refl keeps_storage_trans evolves_refl
  evolves_trans : stable.
#[local] Hint Resolve keeps_alert keeps_console keeps_getItem keeps_fetch
  keeps_set_admin_list keeps_set_button keeps_button_text keeps_clear_form
  keeps_credentials evolves_console evolves_getItem evolves_setItem
  evolves_set_admin_list evolves_set_button evolves_button_text evolves_clear_form
  evolves_credentials : stable.

(** One step of a proof of [stable R m], by the shape of [m]. *)
Ltac stable_step :=
  lazymatch goal with
  | |- stable _ (bind _ _) =>
      apply stable_bind; [eauto with stable | | intros ?]
  | |- stable _ (try_catch _ _) =>
      apply stable_try_catch; [eauto with stable | | intros ?]
  | |- stable _ (detached _) => apply stable_detached
  | |- stable _ (ret _) => apply stable_ret; eauto with stable
  | |- stable _ (lift _) => apply stable_lift; eauto with stable
  | |- stable _ (throw _) => apply stable_throw; eauto with stable
  | |- stable _ (fun w => (Normal (@?f w), w)) => apply stable_read; eauto with stable
  | |- stable _ (match ?x with _ => _ end) => destruct x
  | |- stable _ _ => solve [eauto with stable]
  end.

Ltac stable_auto := repeat stable_step.

Lemma getNews_keeps_storage : stable keeps_storage getNews.
Proof. unfold getNews, read_local_news. stable_auto. Qed.

Lemma getNews_evolves P : stable (evolves is_GET P) getNews.
Proof.
  unfold getNews, read_local_news. stable_auto.
  apply evolves_fetch. reflexivity.
Qed.

Lemma renderNewsAdmin_keeps_storage : stable keeps_storage renderNewsAdmin.
Proof.
  pose proof getNews_keeps_storage.
  unfold renderNewsAdmin. stable_auto.
Qed.

Lemma renderNewsAdmin_evolves P : stable (evolves is_GET P) renderNewsAdmin.
Proof.
  pose proof (getNews_evolves P).
  unfold renderNewsAdmin. stable_auto.
Qed.

(* ===================================================================== *)
(** ** The mode of a world and the news it stores *)
(* ===================================================================== *)

Lemma read_local_news_spec (w : World) : read_local_news w = (stored_news w, w).
Proof.
  unfold read_local_news, stored_news, news_text, bind, getItem, lift, ret.
  destruct (present _); reflexivity.
Qed.

Lemma parse_local_news_spec (w : World) : parse_local_news w = (stored_news w, w).
Proof.
  unfold parse_local_news, stored_news, news_text, bind, getItem, lift, ret.
  destruct (present _); reflexivity.
Qed.

Lemma in_local_mode_credentials (w : World) :
  in_local_mode w = true ->
  exists creds, credentials w = Normal creds /\ local_mode creds = true.
Proof.
  unfold in_local_mode. destruct (credentials w) as [creds| |]; try discriminate.
  eauto.
Qed.

(** In local mode [getNews] warns on the console and answers with the
    stored sequence. *)
Lemma getNews_local (w : World) :
  in_local_mode w = true ->
  getNews w
  = (stored_news w,
     with_console
       (console w ++ [[LText "News: Supabase not configured. Using local storage."]]) w).
Proof.
  intros (creds & Hc & Hl)%in_local_mode_credentials.
  unfold getNews, bind at 1. rewrite getSupabaseCredentials_pure, Hc.
  destruct creds as [url key]. rewrite Hl.
  unfold bind, console_log. rewrite read_local_news_spec. reflexivity.
Qed.

Lemma saveNews_local (item : value) (w : World) :
  in_local_mode w = true ->
  saveNews item w
  = match stored_news w with
    | Normal current =>
        match array_push current item with
        | Normal current' =>
            (Normal true,
             with_localStorage
               (<["mh_news_data" := JSON_stringify current']> (localStorage w)) w)
        | Throw e => (Throw e, w)
        | Unmodelled => (Unmodelled, w)
        end
    | Throw e => (Throw e, w)
    | Unmodelled => (Unmodelled, w)
    end.
Proof.
  intros (creds & Hc & Hl)%in_local_mode_credentials.
  unfold saveNews, bind at 1. rewrite getSupabaseCredentials_pure, Hc.
  destruct creds as [url key]. rewrite Hl.
  unfold bind at 1. rewrite parse_local_news_spec.
  destruct (stored_news w) as [current| |]; reflexivity.
Qed.

(* ===================================================================== *)
(** ** Resolution of the credentials *)
(* ===================================================================== *)



(** Where the script and the documentation agree: whenever the public
    configuration is absent or complete, or the globals are complete, the
    credentials returned qualify exactly when the documented ones do, and
    are then the documented ones. *)
Lemma resolve_agrees_with_documentation (w : World) (c : value * value) :
  (qualifies (source_globals w) = true
   \/ truthy (SUPABASE_PUBLIC_CONFIG (window w)) = false
   \/ qualifies (source_config w) = true) ->
  credentials w = Normal c ->
  qualifies c = qualifies (resolve_documented w)
  /\ (qualifies c = true -> c = resolve_documented w).
Proof.
  intros Hside. rewrite credentials_as_built.
  unfold resolve_as_built, resolve_documented.
  destruct (qualifies (source_globals w)) eqn:Hg.
  { intros [= <-]. rewrite Hg. split; auto. }
  destruct (truthy (SUPABASE_PUBLIC_CONFIG (window w))) eqn:Hcfg.
  { destruct Hside as [?|[?|Hc]]; try discriminate.
    intros [= <-]. rewrite Hc. split; auto. }
  assert (qualifies (source_config w) = false) as ->.
  { unfold source_config, qualifies.
    destruct (SUPABASE_PUBLIC_CONFIG (window w)); try discriminate; reflexivity. }
  unfold source_settings.
  destruct (settings_text w) as [text|].
  - destruct (JSON_parse text) as [settings|e|]; try discriminate.
    + destruct (nullish settings) eqn:Hn.
      * intros [= <-]. rewrite Hg.
        destruct settings; try discriminate; (split; [reflexivity|discriminate]).
      * intros [= <-].
        destruct (get_prop settings "url") as [u| |] eqn:Hu;
          try (destruct settings; simpl in *; congruence).
        destruct (get_prop settings "key") as [k| |] eqn:Hk;
          try (destruct settings; simpl in *; congruence).
        destruct (qualifies (u, k)) eqn:Hq; rewrite ?Hq; split; auto; discriminate.
    + intros [= <-]. rewrite Hg. simpl. split; [reflexivity|discriminate].
  - intros [= <-]. rewrite Hg. simpl. split; [reflexivity|discriminate].
Qed.

(* ===================================================================== *)
(** ** Listing *)
(* ===================================================================== *)

Lemma deleteNews_local (id : value) (w : World) :
  in_local_mode w = true ->
  confirm_answer w = true ->
  deleteNews id w
  = match stored_news w with
    | Normal current =>
        match array_filter (differs_from id) current with
        | Normal current' =>
            detached renderNewsAdmin
              (with_localStorage
                 (<["mh_news_data" := JSON_stringify current']> (localStorage w)) w)
        | Throw e => (Throw e, w)
        | Unmodelled => (Unmodelled, w)
        end
    | Throw e => (Throw e, w)
    | Unmodelled => (Unmodelled, w)
    end.
Proof.
  intros (creds & Hc & Hl)%in_local_mode_credentials Hsure.
  unfold deleteNews, bind at 1. unfold confirm. rewrite Hsure. cbn [negb].
  unfold bind at 1. rewrite getSupabaseCredentials_pure, Hc.
  destruct creds as [url key]. rewrite Hl.
  unfold bind at 1. rewrite parse_local_news_spec.
  destruct (stored_news w) as [current| |]; reflexivity.
Qed.

(** C2 at the input where the script goes wrong: with no credentials and a
    slot that holds a text that is not JSON, [getNews] does not answer with
    an empty list, it throws the error of [JSON.parse]; the same text in
    the slot of the settings is caught by [getSupabaseCredentials] and
    counts for nothing. *)
Theorem getNews_raises_on_malformed_slot :
  in_local_mode Malformed.w = true
  /\ localStorage Malformed.w !! "mh_news_data" = Some "{oops"
  /\ JSON_parse "{oops" = Throw SyntaxError
  /\ fst (getNews Malformed.w) = Throw SyntaxError
  /\ getSupabaseCredentials Malformed.settings
     = (Normal (JUndefined, JUndefined), Malformed.settings)
  /\ fst (getNews Malformed.settings) = Normal (JArr []).
Proof. vm_compute. repeat split. Qed.

(** In local mode a slot that is absent or holds the empty text reads as
    the empty sequence; any other text that [JSON.parse] rejects makes
    [getNews] throw that error, and [saveNews] and a confirmed [deleteNews]
    throw it as well and leave the world as it was. *)
Lemma local_slot_text_is_parsed (w : World) (item id : value) :
  in_local_mode w = true ->
  (news_text w = None -> fst (getNews w) = Normal (JArr []))
  /\ (forall text e,
        news_text w = Some text -> JSON_parse text = Throw e ->
        fst (getNews w) = Throw e
        /\ saveNews item w = (Throw e, w)
        /\ (confirm_answer w = true -> deleteNews id w = (Throw e, w))).
Proof.
  intros Hmode. split.
  - intros Hnone. rewrite getNews_local by assumption.
    unfold stored_news. rewrite Hnone. reflexivity.
  - intros text e Htext Hparse.
    assert (stored_news w = Throw e) as Hs.
    { unfold stored_news. rewrite Htext. exact Hparse. }
    split; [|split].
    + rewrite getNews_local by assumption. rewrite Hs. reflexivity.
    + rewrite saveNews_local by assumption. rewrite Hs. reflexivity.
    + intros Hsure. rewrite deleteNews_local by assumption. rewrite Hs. reflexivity.
Qed.

Example malformed_slot_stops_every_local_operation :
  fst (getNews Malformed.w) = Throw SyntaxError
  /\ saveNews (Demo.post "user" "a") Malformed.w = (Throw SyntaxError, Malformed.w)
  /\ (confirm_answer Malformed.w = true ->
      deleteNews (JStr "a") Malformed.w = (Throw SyntaxError, Malformed.w)).
Proof.
  apply (proj2 (local_slot_text_is_parsed Malformed.w (Demo.post "user" "a") (JStr "a")
                  eq_refl) "{oops" SyntaxError).
  - reflexivity.
  - vm_compute. reflexivity.
Qed.

(** In remote mode, when the request of [getNews] is rejected or is
    answered with a status that is not a success, and the slot of the
    news holds a sequence, [getNews] returns that sequence and changes
    nothing in the storage. *)
Lemma getNews_falls_back_to_local (w : World) (url key : value) (base : string)
  (headers : list (string * value)) (local : value) :
  credentials w = Normal (url, key) ->
  local_mode (url, key) = false ->
  replace_trailing_slash url = Normal base ->
  auth_headers key = Normal headers ->
  failed (remote w (requests w) (list_request base headers)) ->
  stored_news w = Normal local ->
  fst (getNews w) = Normal local
  /\ localStorage (snd (getNews w)) = localStorage w
  /\ requests (snd (getNews w)) = requests w ++ [list_request base headers].
Proof.
  intros Hc Hl Hbase Hh Hfail Hlocal.
  assert (exists w', getNews w = (Normal local, w')
                     /\ localStorage w' = localStorage w
                     /\ requests w' = requests w ++ [list_request base headers])
    as (w' & -> & Hls & Hreq); [|auto].
  unfold getNews, bind at 1. rewrite getSupabaseCredentials_pure, Hc, Hl.
  unfold try_catch, bind at 1. unfold lift at 1. rewrite Hbase.
  unfold bind at 1. unfold lift at 1. rewrite Hh.
  unfold bind at 1. unfold fetch.
  destruct (remote w (requests w) (list_request base headers)) as [|ok text].
  - unfold bind, console_log. rewrite read_local_news_spec.
    change (stored_news _) with (stored_news w). rewrite Hlocal.
    eexists. split; [reflexivity|]. split; reflexivity.
  - simpl in Hfail. subst ok.
    unfold bind, console_log, throw. rewrite read_local_news_spec.
    change (stored_news _) with (stored_news w). rewrite Hlocal.
    eexists. split; [reflexivity|]. split; reflexivity.
Qed.

(** So it is on a store that answers every request with a 500. *)
Lemma getNews_falls_back_to_local_witness :
  fst (getNews Fallback.w) = Normal Fallback.kept
  /\ localStorage (snd (getNews Fallback.w)) = localStorage Fallback.w
  /\ requests (snd (getNews Fallback.w))
     = requests Fallback.w
       ++ [list_request "https://db.example"
             [("apikey", JStr "anon"); ("Authorization", JStr "Bearer anon")]].
Proof.
  apply (getNews_falls_back_to_local Fallback.w (JStr "https://db.example/") (JStr "anon")).
  - vm_compute. reflexivity.
  - reflexivity.
  - reflexivity.
  - reflexivity.
  - reflexivity.
  - vm_compute. reflexivity.
Defined.

(** C7: the fallback of [getNews] is the same unguarded reading of the
    slot as in local mode.  In remote mode, with a slot that holds no
    JSON, a request for the list that is answered with a 500, or that is
    rejected, ends in the SyntaxError of [JSON.parse], thrown to the
    caller; the one request has been sent. *)
Theorem getNews_remote_failure_reads_malformed_slot :
  (credentials Corrupted.down = Normal (JStr "https://db.example/", JStr "anon")
   /\ remote Corrupted.down [] Corrupted.request = Response false "500"
   /\ localStorage Corrupted.down !! "mh_news_data" = Some "{oops"
   /\ fst (getNews Corrupted.down) = Throw SyntaxError
   /\ requests (snd (getNews Corrupted.down)) = [Corrupted.request])
  /\ (credentials Corrupted.unreachable
      = Normal (JStr "https://db.example/", JStr "anon")
      /\ remote Corrupted.unreachable [] Corrupted.request = Rejected
      /\ localStorage Corrupted.unreachable !! "mh_news_data" = Some "{oops"
      /\ fst (getNews Corrupted.unreachable) = Throw SyntaxError
      /\ requests (snd (getNews Corrupted.unreachable)) = [Corrupted.request]).
Proof. vm_compute. repeat split. Qed.

(* ===================================================================== *)
(** ** Saving *)
(* ===================================================================== *)

(** In remote mode [saveNews] never throws and never touches the storage:
    it returns [true], or shows one message and returns [false]. *)
Lemma saveNews_remote_cases (w : World) (item url key : value) :
  credentials w = Normal (url, key) ->
  local_mode (url, key) = false ->
  exists b w',
    saveNews item w = (Normal b, w')
    /\ localStorage w' = localStorage w
    /\ (if b then alerts w' = alerts w
        else exists msg, alerts w' = alerts w ++ [msg]).
Proof.
  intros Hc Hl.
  unfold saveNews, bind at 1. rewrite getSupabaseCredentials_pure, Hc, Hl.
  unfold try_catch, bind at 1. unfold lift at 1.
  destruct (replace_trailing_slash url) as [base|e|] eqn:Hbase;
    [|exists false; eexists; split; [reflexivity|]; split; [reflexivity|];
      eexists; reflexivity
     |destruct url; discriminate].
  unfold bind at 1. unfold lift at 1.
  destruct (payload_of item) as [payload|e|] eqn:Hp;
    [|exists false; eexists; split; [reflexivity|]; split; [reflexivity|];
      eexists; reflexivity
     |destruct item; discriminate].
  unfold bind at 1. unfold lift at 1.
  destruct (auth_headers key) as [headers|e|] eqn:Hh;
    [|exists false; eexists; split; [reflexivity|]; split; [reflexivity|];
      eexists; reflexivity
     |unfold auth_headers, to_string in Hh; destruct (to_chars key); discriminate].
  unfold bind at 1. unfold fetch.
  destruct (remote w (requests w) (save_request base headers payload)) as [|[|] text].
  - exists false. eexists. split; [reflexivity|]. split; [reflexivity|].
    eexists. reflexivity.
  - exists true. eexists. split; [reflexivity|]. split; reflexivity.
  - exists false. eexists. split; [reflexivity|]. split; [reflexivity|].
    eexists. reflexivity.
Qed.

(** C8: in remote mode, when the request of [saveNews] is rejected or is
    answered with a status that is not a success, [saveNews] shows a
    message, returns [false] and leaves the storage as it was. *)
Theorem saveNews_remote_failure (w : World) (item url key : value) (base : string)
  (headers : list (string * value)) (payload : value) :
  credentials w = Normal (url, key) ->
  local_mode (url, key) = false ->
  replace_trailing_slash url = Normal base ->
  payload_of item = Normal payload ->
  auth_headers key = Normal headers ->
  failed (remote w (requests w) (save_request base headers payload)) ->
  exists msg w',
    saveNews item w = (Normal false, w')
    /\ alerts w' = alerts w ++ [msg]
    /\ localStorage w' = localStorage w.
Proof.
  intros Hc Hl Hbase Hp Hh Hfail.
  unfold saveNews, bind at 1. rewrite getSupabaseCredentials_pure, Hc, Hl.
  unfold try_catch, bind at 1. unfold lift at 1. rewrite Hbase.
  unfold bind at 1. unfold lift at 1. rewrite Hp.
  unfold bind at 1. unfold lift at 1. rewrite Hh.
  unfold bind at 1. unfold fetch.
  destruct (remote w (requests w) (save_request base headers payload)) as [|ok text].
  - exists "Network error: Could not save news.". eexists.
    split; [reflexivity|]. split; reflexivity.
  - simpl in Hfail. subst ok.
    exists ("Error saving to cloud: " +:+ text). eexists.
    split; [reflexivity|]. split; reflexivity.
Qed.

(** C8 on a store that cannot be reached. *)
Lemma saveNews_remote_failure_witness :
  exists msg w',
    saveNews SaveDown.item SaveDown.w = (Normal false, w')
    /\ alerts w' = alerts SaveDown.w ++ [msg]
    /\ localStorage w' = localStorage SaveDown.w.
Proof.
  apply (saveNews_remote_failure SaveDown.w SaveDown.item
           (JStr "https://db.example/") (JStr "anon") "https://db.example"
           [("apikey", JStr "anon"); ("Authorization", JStr "Bearer anon")]
           (JObj [("title", JStr "Hi"); ("content", JStr "World");
                  ("author", JUndefined); ("news_date", JUndefined);
                  ("image_url", JUndefined); ("video_url", JUndefined);
                  ("link_url", JUndefined); ("publisher_role", JUndefined)])).
  - vm_compute. reflexivity.
  - reflexivity.
  - reflexivity.
  - reflexivity.
  - reflexivity.
  - exact I.
Defined.

(* ===================================================================== *)
(** ** Clearing all the news *)
(* ===================================================================== *)










(* ===================================================================== *)
(** ** Publishing *)
(* ===================================================================== *)

Lemma eqb_empty_false (s : string) : s <> "" -> String.eqb s "" = false.
Proof. intros Hne. destruct (String.eqb_spec s ""); congruence. Qed.

(** The handler once the form is there and filled in. *)
Lemma handleAddNews_checked (w : World) (tv cv pv : string) :
  news_title (page w) = Some tv ->
  news_content (page w) = Some cv ->
  publish_pin (page w) = Some pv ->
  trim tv <> "" -> trim cv <> "" -> trim pv <> "" ->
  handleAddNews w
  = match auth_check (window w) (hashPassword (window w) (trim pv)) with
    | None => alert "Incorrect PIN. Please try again." w
    | Some (role, authorName) =>
        (let* stop := limit_check role in
         if stop then ret tt
         else publish role authorName (trim tv) (trim cv) (draft_link (page w))) w
    end.
Proof.
  intros Ht Hc Hp Htv Hcv Hpv.
  unfold handleAddNews, bind at 1. unfold get_page. rewrite Ht, Hc, Hp.
  rewrite (eqb_empty_false _ Htv), (eqb_empty_false _ Hcv), (eqb_empty_false _ Hpv).
  cbn [orb]. unfold bind at 1. unfold get_window.
  destruct (auth_check _ _) as [[role authorName]|]; reflexivity.
Qed.

Lemma limit_check_other (role : string) (w : World) :
  role <> "user" -> limit_check role w = (Normal false, w).
Proof.
  intros Hne. unfold limit_check.
  destruct (String.eqb_spec role "user"); [congruence|reflexivity].
Qed.

Lemma limit_check_listing (w w1 : World) (listing : value) (n : nat) :
  getNews w = (Normal listing, w1) ->
  count_user_posts listing = Normal n ->
  limit_check "user" w
  = if (5 <=? n)%nat
    then (Normal true, with_alerts (alerts w1 ++ [quota_message n]) w1)
    else (Normal false, w1).
Proof.
  intros Hget Hcount. unfold limit_check. cbn [String.eqb Ascii.eqb Bool.eqb].
  unfold try_catch, bind at 1. rewrite Hget.
  unfold bind at 1. unfold lift. rewrite Hcount.
  destruct (5 <=? n)%nat; reflexivity.
Qed.


Lemma limit_check_count_throws (w w1 : World) (listing : value) (e : exn) :
  getNews w = (Normal listing, w1) ->
  count_user_posts listing = Throw e ->
  limit_check "user" w = (Normal false, w1).
Proof.
  intros Hget Hcount. unfold limit_check. cbn [String.eqb Ascii.eqb Bool.eqb].
  unfold try_catch, bind at 1. rewrite Hget.
  unfold bind at 1. unfold lift. rewrite Hcount. reflexivity.
Qed.

Lemma count_user_posts_items (items : list value) :
  Forall (fun item => nullish item = false) items ->
  count_user_posts (JArr items) = Normal (List.length (List.filter is_user_post items)).
Proof.
  intros Hitems. unfold count_user_posts, array_filter.
  assert (filter_completion
            (fun n =>
               match get_prop n "publisher_role" with
               | Normal r => Normal (strict_eq_str "user" r)
               | Throw e => Throw e
               | Unmodelled => Unmodelled
               end) items
          = Normal (List.filter is_user_post items)) as ->; [|reflexivity].
  induction Hitems as [|item items Hitem _ IH]; [reflexivity|].
  cbn [filter_completion List.filter]. rewrite IH. unfold is_user_post.
  destruct item; try discriminate; cbn [get_prop];
    match goal with |- context [if ?b then _ else _] => destruct b end; reflexivity.
Qed.

Lemma auth_check_admin_first (win : Window) (digest : string) :
  (strict_eq_str digest (ADMIN_PASSWORD_HASH win) = true ->
   auth_check win digest = Some ("admin", "Admin"))
  /\ (strict_eq_str digest (ADMIN_PASSWORD_HASH win) = false ->
      strict_eq_str digest (USER_PASSWORD_HASH win) = true ->
      auth_check win digest = Some ("user", "User"))
  /\ (strict_eq_str digest (ADMIN_PASSWORD_HASH win) = false ->
      strict_eq_str digest (USER_PASSWORD_HASH win) = false ->
      auth_check win digest = None).
Proof.
  unfold auth_check. split; [|split].
  - intros ->. reflexivity.
  - intros -> ->. reflexivity.
  - intros -> ->. reflexivity.
Qed.

(** C6, as the documentation has it, fails: a PIN whose digest is neither
    reference digest, on a draft with an empty title, is answered with the
    request to fill in the draft, not with the rejection of the PIN. *)
Lemma empty_draft_is_not_an_authentication_rejection :
  strict_eq_str (hashPassword (window WrongPin.w) (trim "9999"))
    (ADMIN_PASSWORD_HASH (window WrongPin.w)) = false
  /\ strict_eq_str (hashPassword (window WrongPin.w) (trim "9999"))
       (USER_PASSWORD_HASH (window WrongPin.w)) = false
  /\ handleAddNews WrongPin.w
     = (Normal tt, with_alerts ["Please fill in title and content."] WrongPin.w)
  /\ ~ In "Incorrect PIN. Please try again." (alerts (snd (handleAddNews WrongPin.w))).
Proof.
  split; [reflexivity|]. split; [reflexivity|]. split; [reflexivity|].
  vm_compute. intros [H|[]]. discriminate H.
Qed.

(** C6, amended: the digest of the trimmed PIN is compared first with the
    administrator's digest, where a match gives the role [admin] and the
    author name [Admin] whatever the user's digest is, and then with the
    user's, where a match gives the role [user] and the author name
    [User]: it is under that role that the handler goes on, straight to
    the publication for the administrator, through the check of the quota
    for a user.  When the digest equals neither, the handler shows one
    message and does nothing else (no request, no write): the rejection of
    the PIN when the title, the content and the PIN are not empty, and
    otherwise the request to fill in what is missing, which comes
    first. *)
Theorem pin_gives_a_role_admin_first (w : World) (tv cv pv : string) :
  news_title (page w) = Some tv ->
  news_content (page w) = Some cv ->
  publish_pin (page w) = Some pv ->
  let digest := hashPassword (window w) (trim pv) in
  let is_admin := strict_eq_str digest (ADMIN_PASSWORD_HASH (window w)) in
  let is_user := strict_eq_str digest (USER_PASSWORD_HASH (window w)) in
  (trim tv <> "" -> trim cv <> "" -> trim pv <> "" ->
   (is_admin = true ->
    auth_check (window w) digest = Some ("admin", "Admin")
    /\ handleAddNews w
       = publish "admin" "Admin" (trim tv) (trim cv) (draft_link (page w)) w)
   /\ (is_admin = false -> is_user = true ->
       auth_check (window w) digest = Some ("user", "User")
       /\ handleAddNews w
          = (let* stop := limit_check "user" in
             if stop then ret tt
             else publish "user" "User" (trim tv) (trim cv) (draft_link (page w))) w))
  /\ (is_admin = false -> is_user = false ->
      auth_check (window w) digest = None
      /\ handleAddNews w
         = (Normal tt, with_alerts (alerts w ++ [rejection_message tv cv pv]) w)).
Proof.
  intros Ht Hc Hp digest is_admin is_user.
  destruct (auth_check_admin_first (window w) digest) as (Hfirst & Hsecond & Hnone).
  split.
  - intros Htv Hcv Hpv.
    rewrite (handleAddNews_checked w tv cv pv) by assumption. fold digest.
    split.
    + intros Hadmin. rewrite (Hfirst Hadmin). split; [reflexivity|].
      unfold bind. rewrite limit_check_other by discriminate. reflexivity.
    + intros Hadmin Huser. rewrite (Hsecond Hadmin Huser). split; reflexivity.
  - intros Hadmin Huser. specialize (Hnone Hadmin Huser). split; [exact Hnone|].
    unfold handleAddNews, bind at 1. unfold get_page. rewrite Ht, Hc, Hp.
    unfold rejection_message.
    destruct (String.eqb (trim tv) "" || String.eqb (trim cv) ""); [reflexivity|].
    destruct (String.eqb (trim pv) ""); [reflexivity|].
    unfold bind at 1. unfold get_window. fold digest. rewrite Hnone. reflexivity.
Qed.

(** C6, amended: on a filled-in draft, with a PIN that both reference
    digests match, with the PIN of the user, and with a PIN that is
    neither of the two. *)
Lemma pin_gives_a_role_admin_first_witness :
  (strict_eq_str (hashPassword (window SamePin.w) (trim " 1234 "))
     (USER_PASSWORD_HASH (window SamePin.w)) = true
   /\ auth_check (window SamePin.w) (hashPassword (window SamePin.w) (trim " 1234 "))
      = Some ("admin", "Admin")%string
   /\ handleAddNews SamePin.w
      = publish "admin" "Admin" (trim "Hi") (trim "World") (draft_link (page SamePin.w))
          SamePin.w)
  /\ (auth_check (window Quota.user_world)
        (hashPassword (window Quota.user_world) (trim "0000"))
      = Some ("user", "User")%string
      /\ handleAddNews Quota.user_world
         = (let* stop := limit_check "user" in
            if stop then ret tt
            else publish "user" "User" (trim "Hi") (trim "World")
                   (draft_link (page Quota.user_world))) Quota.user_world)
  /\ (auth_check (window WrongPinValid.w)
        (hashPassword (window WrongPinValid.w) (trim " 9999 ")) = None
      /\ handleAddNews WrongPinValid.w
         = (Normal tt,
            with_alerts (alerts WrongPinValid.w ++ ["Incorrect PIN. Please try again."%string])
              WrongPinValid.w)).
Proof.
  split; [split; [reflexivity|]|split].
  - apply (proj1 (proj1 (pin_gives_a_role_admin_first SamePin.w "Hi" "World" " 1234 "
                           eq_refl eq_refl eq_refl)
                    ltac:(discriminate) ltac:(discriminate) ltac:(discriminate))).
    reflexivity.
  - apply (proj2 (proj1 (pin_gives_a_role_admin_first Quota.user_world "Hi" "World" "0000"
                           eq_refl eq_refl eq_refl)
                    ltac:(discriminate) ltac:(discriminate) ltac:(discriminate)));
      reflexivity.
  - apply (proj2 (pin_gives_a_role_admin_first WrongPinValid.w "Hi" "World" " 9999 "
                    eq_refl eq_refl eq_refl)); reflexivity.
Defined.

Lemma stable_weaken (Q Q' : Request -> Prop) (P P' : string -> Prop) {A} (m : M A) :
  (forall r, Q r -> Q' r) -> (forall msg, P msg -> P' msg) ->
  stable (evolves Q P) m -> stable (evolves Q' P') m.
Proof. intros HQ HP Hm w. eapply evolves_weaken; eauto. Qed.

Lemma uploadFile_evolves P (f : File) : stable (evolves any_request P) (uploadFile f).
Proof.
  unfold uploadFile. stable_auto.
  all: try (apply evolves_fetch; exact I).
  all: intros w; evolves_silently.
Qed.

Lemma saveNews_evolves (item : value) :
  stable (evolves any_request not_quota) (saveNews item).
Proof.
  unfold saveNews, parse_local_news. stable_auto.
  - apply evolves_fetch. exact I.
  - apply evolves_alert. intros n. discriminate.
  - apply evolves_alert. intros n. discriminate.
Qed.

Lemma publish_evolves (role authorName title content link_url : string) :
  stable (evolves any_request not_quota)
    (publish role authorName title content link_url).
Proof.
  pose proof (fun f => uploadFile_evolves not_quota f).
  pose proof saveNews_evolves.
  assert (stable (evolves any_request not_quota) renderNewsAdmin).
  { eapply stable_weaken; [| |apply (renderNewsAdmin_evolves not_quota)]; auto.
    intros r _. exact I. }
  unfold publish. stable_auto.
  all: try (apply evolves_alert; intros n; discriminate).
  all: intros w0; apply evolves_refl.
Qed.

Lemma getNews_frame (w : World) :
  let w' := snd (getNews w) in
  localStorage w' = localStorage w
  /\ alerts w' = alerts w
  /\ exists reads, requests w' = requests w ++ reads /\ Forall is_GET reads.
Proof.
  pose proof (getNews_keeps_storage w) as Hk.
  pose proof (getNews_evolves nothing w) as (_ & Hreq & (shown & Hal & Hno)).
  split; [exact Hk|]. split; [|exact Hreq].
  destruct shown as [|msg shown].
  - rewrite Hal, app_nil_r. reflexivity.
  - inversion Hno as [|? ? []].
Qed.

(** C5, as the documentation has it, fails: the stored sequence holds
    five items of users and one entry that is [null]; the listing returns
    them, five of its entries have the role [user], and yet the draft of
    a user is not refused: no message of the quota is shown, and the
    draft is stored as a sixth item. *)
Lemma null_entry_defeats_the_quota :
  let w := NullEntry.w in
  let w' := snd (handleAddNews w) in
  let listing := NullEntry.users ++ [JNull] in
  strict_eq_str (hashPassword (window w) (trim "0000")) (USER_PASSWORD_HASH (window w))
  = true
  /\ strict_eq_str (hashPassword (window w) (trim "0000")) (ADMIN_PASSWORD_HASH (window w))
     = false
  /\ fst (getNews w) = Normal (JArr listing)
  /\ List.length (List.filter is_user_post listing) = 5%nat
  /\ alerts w' = []
  /\ stored_news w'
     = Normal (JArr (listing ++ [local_item w "user" "User" "Hi" "World"])).
Proof. vm_compute. repeat split. Qed.

(** C5, amended: a publication under the user role, when the listing is a
    sequence of items (no entry of it is [null] or [undefined]) of which
    five or more have the role [user], ends with the message of the
    quota, which carries their number and the limit 5; nothing was asked
    of the store but the listing, and nothing was written.  A publication
    under the admin role goes straight to [publish], without a listing,
    and never shows the message of the quota. *)
Theorem quota_for_user_only (w : World) (tv cv pv : string) :
  news_title (page w) = Some tv ->
  news_content (page w) = Some cv ->
  publish_pin (page w) = Some pv ->
  trim tv <> "" -> trim cv <> "" -> trim pv <> "" ->
  let digest := hashPassword (window w) (trim pv) in
  (strict_eq_str digest (ADMIN_PASSWORD_HASH (window w)) = false ->
   strict_eq_str digest (USER_PASSWORD_HASH (window w)) = true ->
   forall items w1,
     getNews w = (Normal (JArr items), w1) ->
     Forall (fun item => nullish item = false) items ->
     let n := List.length (List.filter is_user_post items) in
     (5 <= n)%nat ->
     handleAddNews w
     = (Normal tt,
        with_alerts
          (alerts w1
           ++ ["User limit reached! You have already published " +:+ string_of_nat n
               +:+ "/5 items."]) w1)
     /\ localStorage w1 = localStorage w
     /\ alerts w1 = alerts w
     /\ exists reads, requests w1 = requests w ++ reads /\ Forall is_GET reads)
  /\ (strict_eq_str digest (ADMIN_PASSWORD_HASH (window w)) = true ->
      handleAddNews w
      = publish "admin" "Admin" (trim tv) (trim cv) (draft_link (page w)) w
      /\ exists shown,
           alerts (snd (handleAddNews w)) = alerts w ++ shown
           /\ Forall
                (fun msg =>
                   forall n,
                     msg <> "User limit reached! You have already published "
                            +:+ string_of_nat n +:+ "/5 items.") shown).
Proof.
  intros Ht Hc Hp Htv Hcv Hpv digest.
  rewrite (handleAddNews_checked w tv cv pv) by assumption.
  destruct (auth_check_admin_first (window w) digest) as (Hfirst & Hsecond & _).
  fold digest. split.
  - intros Hadmin Huser items w1 Hget Hitems n Hn.
    rewrite (Hsecond Hadmin Huser).
    unfold bind.
    rewrite (limit_check_listing w w1 (JArr items) n Hget (count_user_posts_items _ Hitems)).
    apply Nat.leb_le in Hn. rewrite Hn.
    split; [reflexivity|].
    pose proof (getNews_frame w) as Hframe. rewrite Hget in Hframe. exact Hframe.
  - intros Hadmin. rewrite (Hfirst Hadmin).
    unfold bind. rewrite limit_check_other by discriminate.
    split; [reflexivity|].
    pose proof (publish_evolves "admin" "Admin" (trim tv) (trim cv)
                  (draft_link (page w)) w) as (_ & _ & Hshown).
    exact Hshown.
Qed.

(** C5, amended, with five items of the user role stored, under the PIN of
    the user and under the PIN of the administrator. *)
Lemma quota_for_user_only_witness :
  (handleAddNews Quota.user_world
   = (Normal tt,
      with_alerts
        (alerts Quota.listed
         ++ ["User limit reached! You have already published 5/5 items."])
        Quota.listed)
   /\ localStorage Quota.listed = localStorage Quota.user_world
   /\ alerts Quota.listed = alerts Quota.user_world
   /\ exists reads,
        requests Quota.listed = requests Quota.user_world ++ reads
        /\ Forall is_GET reads)
  /\ (handleAddNews Quota.admin_world
      = publish "admin" "Admin" (trim "Hi") (trim "World")
          (draft_link (page Quota.admin_world)) Quota.admin_world
      /\ exists shown,
           alerts (snd (handleAddNews Quota.admin_world))
           = alerts Quota.admin_world ++ shown
           /\ Forall
                (fun msg =>
                   forall n,
                     msg <> "User limit reached! You have already published "
                            +:+ string_of_nat n +:+ "/5 items.") shown).
Proof.
  split.
  - apply (proj1 (quota_for_user_only Quota.user_world "Hi" "World" "0000"
                    eq_refl eq_refl eq_refl ltac:(discriminate) ltac:(discriminate)
                    ltac:(discriminate)) eq_refl eq_refl
             [Demo.post "user" "a"; Demo.post "user" "b"; Demo.post "admin" "c";
              Demo.post "user" "d"; Demo.post "user" "e"; Demo.post "user" "f"]
             Quota.listed).
    + vm_compute. reflexivity.
    + repeat constructor.
    + vm_compute. lia.
  - apply (proj2 (quota_for_user_only Quota.admin_world "Hi" "World" "1234"
                    eq_refl eq_refl eq_refl ltac:(discriminate) ltac:(discriminate)
                    ltac:(discriminate)) eq_refl).
Defined.

Example quota_message_cites_count :
  quota_message 5 = "User limit reached! You have already published 5/5 items.".
Proof. reflexivity. Qed.

(** The handler when the listing shows fewer than five items of the user
    role: it goes on to [publish]. *)
Lemma listing_below_quota_proceeds (w w1 : World) (tv cv pv : string)
  (listing : value) (n : nat) :
  news_title (page w) = Some tv ->
  news_content (page w) = Some cv ->
  publish_pin (page w) = Some pv ->
  trim tv <> "" -> trim cv <> "" -> trim pv <> "" ->
  strict_eq_str (hashPassword (window w) (trim pv)) (ADMIN_PASSWORD_HASH (window w))
  = false ->
  strict_eq_str (hashPassword (window w) (trim pv)) (USER_PASSWORD_HASH (window w))
  = true ->
  getNews w = (Normal listing, w1) ->
  count_user_posts listing = Normal n ->
  (n < 5)%nat ->
  handleAddNews w
  = publish "user" "User" (trim tv) (trim cv) (draft_link (page w)) w1.
Proof.
  intros Ht Hc Hp Htv Hcv Hpv Hadmin Huser Hget Hcount Hn.
  pose proof (proj1 (proj2 (auth_check_admin_first (window w) _)) Hadmin Huser) as Hrole.
  rewrite (handleAddNews_checked w tv cv pv) by assumption. rewrite Hrole.
  unfold bind. rewrite (limit_check_listing w w1 listing n Hget Hcount).
  apply Nat.leb_gt in Hn. rewrite Hn. reflexivity.
Qed.

(** Where reads fail, writes succeed and what is stored locally is not
    JSON, the item is posted although the count of the user's items could
    not be computed; the list is then read again to be shown, and that
    reading throws once more, out of the handler. *)
Example swallowed_listing_publishes :
  let w' := snd (handleAddNews Swallowed.w) in
  fst (getNews Swallowed.w) = Throw SyntaxError
  /\ fst (handleAddNews Swallowed.w) = Throw SyntaxError
  /\ alerts w' = []
  /\ map req_method (requests w') = ["GET"; "POST"; "GET"].
Proof. vm_compute. repeat split. Qed.

(* ===================================================================== *)
(** ** JSON.parse after JSON.stringify *)
(* ===================================================================== *)

(** Every case of a character; [tac] is run on each. *)
Ltac each_char c tac :=
  destruct c as [[] [] [] [] [] [] [] []]; tac.

Lemma read_uint_stops (rest : list ascii) :
  ends_value rest = true -> read_uint rest = (Decimal.Nil, rest).
Proof.
  destruct rest as [|c r]; [reflexivity|].
  each_char c ltac:(try discriminate; reflexivity).
Qed.

Lemma read_uint_chars (u : Decimal.uint) (rest : list ascii) :
  ends_value rest = true -> read_uint (chars_of_uint u ++ rest) = (u, rest).
Proof.
  intros Hrest. induction u; cbn [chars_of_uint app];
    [apply read_uint_stops; assumption|..];
    cbn [read_uint digit_cons]; rewrite IHu; reflexivity.
Qed.

Lemma after_integer_plain (negative : bool) (n : N) (rest : list ascii) :
  ends_value rest = true ->
  (n <= max_safe)%N ->
  after_integer negative n rest
  = POk (JNum (if negative then - Z.of_N n else Z.of_N n)) rest.
Proof.
  intros Hrest Hn. apply N.ltb_ge in Hn.
  destruct rest as [|c r]; [unfold after_integer; rewrite Hn; reflexivity|].
  each_char c ltac:(try discriminate; unfold after_integer; rewrite Hn; reflexivity).
Qed.

(** The decimal digits of a positive number do not start with a zero. *)
Lemma to_uint_head (p : positive) :
  match Pos.to_uint p with
  | Decimal.Nil | Decimal.D0 _ => False
  | _ => True
  end.
Proof.
  pose proof (DecimalPos.Unsigned.to_uint_nonnil p) as Hnil.
  pose proof (DecimalPos.Unsigned.to_uint_nonzero p) as Hzero.
  pose proof (DecimalPos.Unsigned.to_of (Pos.to_uint p)) as Hnorm.
  rewrite DecimalPos.Unsigned.of_to in Hnorm. cbn [N.to_uint] in Hnorm.
  unfold Decimal.unorm in Hnorm.
  destruct (Decimal.nzhead (Pos.to_uint p)) eqn:Hhead.
  - congruence.
  - exfalso. eapply DecimalFacts.nzhead_nonzero. exact Hhead.
  - rewrite Hnorm. exact I.
  - rewrite Hnorm. exact I.
  - rewrite Hnorm. exact I.
  - rewrite Hnorm. exact I.
  - rewrite Hnorm. exact I.
  - rewrite Hnorm. exact I.
  - rewrite Hnorm. exact I.
  - rewrite Hnorm. exact I.
  - rewrite Hnorm. exact I.
Qed.

Lemma read_positive (negative : bool) (p : positive) (rest : list ascii) :
  ends_value rest = true ->
  (Npos p <= max_safe)%N ->
  let s := chars_of_N (Npos p) ++ rest in
  match s with
  | "0"%char :: _ => False
  | c :: _ =>
      is_digit c = true
      /\ after_integer negative (N.of_uint (fst (read_uint s))) (snd (read_uint s))
         = POk (JNum (if negative then Zneg p else Zpos p)) rest
  | [] => False
  end.
Proof.
  intros Hrest Hn. unfold chars_of_N. cbn [N.to_uint].
  pose proof (to_uint_head p) as Hhead.
  pose proof (DecimalPos.Unsigned.of_to p) as Hof.
  assert (forall u, Pos.to_uint p = u ->
            after_integer negative (N.of_uint (fst (read_uint (chars_of_uint u ++ rest))))
              (snd (read_uint (chars_of_uint u ++ rest)))
            = POk (JNum (if negative then Zneg p else Zpos p)) rest) as Hread.
  { intros u Hu. rewrite read_uint_chars by assumption. cbn [fst snd].
    unfold N.of_uint. rewrite <- Hu, Hof.
    rewrite after_integer_plain by assumption. destruct negative; reflexivity. }
  specialize (Hread _ eq_refl).
  destruct (Pos.to_uint p); try contradiction; cbn [chars_of_uint app] in *;
    (split; [reflexivity|exact Hread]).
Qed.

(** A text that starts like a number is read as a number. *)
Lemma parse_value_number (fuel : nat) (c : ascii) (tl : list ascii) :
  is_digit c || Ascii.eqb c "-" = true ->
  parse_value (S fuel) (c :: tl) = read_number (c :: tl).
Proof.
  each_char c ltac:(try discriminate; intros _; reflexivity).
Qed.

Lemma parse_number (fuel : nat) (z : Z) (rest : list ascii) :
  safe z = true ->
  ends_value rest = true ->
  parse_value (S fuel) (chars_of_Z z ++ rest) = POk (JNum z) rest.
Proof.
  intros Hsafe Hrest. unfold safe in Hsafe. apply N.leb_le in Hsafe.
  destruct z as [|p|p]; cbn [chars_of_Z Z.abs_N] in *.
  - cbn [app]. rewrite parse_value_number by reflexivity.
    unfold read_number. rewrite after_integer_plain by (assumption || discriminate).
    reflexivity.
  - pose proof (read_positive false p rest Hrest Hsafe) as Hp. cbn zeta in Hp.
    destruct (chars_of_N (N.pos p) ++ rest) as [|c tl] eqn:Hs; [contradiction|].
    assert (is_digit c = true) as Hc.
    { revert Hp. each_char c ltac:(try contradiction; intros [? _]; assumption). }
    rewrite parse_value_number by (rewrite Hc; reflexivity).
    unfold read_number.
    assert (c <> "-"%char /\ c <> "0"%char) as [Hminus Hzero].
    { revert Hp Hc. each_char c ltac:(try contradiction; try discriminate;
                                      intros _ _; split; discriminate). }
    revert Hp Hc Hminus Hzero.
    each_char c ltac:(try discriminate; try congruence;
                      intros [_ Hp] _ _ _; rewrite Hc || idtac;
                      cbv beta iota; destruct (read_uint _); exact Hp).
  - pose proof (read_positive true p rest Hrest Hsafe) as Hp. cbn zeta in Hp.
    cbn [app]. rewrite parse_value_number by reflexivity.
    unfold read_number.
    destruct (chars_of_N (N.pos p) ++ rest) as [|c tl] eqn:Hs; [contradiction|].
    revert Hp.
    each_char c ltac:(try contradiction; intros [Hc Hp]; try discriminate Hc;
                      cbv beta iota; destruct (read_uint _); exact Hp).
Qed.

Lemma read_string_quoted (l rest : list ascii) :
  read_string (quote_chars l ++ "034"%char :: rest) = POk l rest.
Proof.
  induction l as [|c l IH]; [reflexivity|].
  cbn [quote_chars]. rewrite <- app_assoc.
  each_char c ltac:(simpl; rewrite IH; reflexivity).
Qed.

Lemma clean_array (items : list value) : clean (JArr items) = forallb clean items.
Proof. induction items as [|x l IH]; [reflexivity|]. cbn in *. rewrite IH. reflexivity. Qed.

Lemma clean_object (fields : list (string * value)) :
  clean (JObj fields) = distinct_keys fields && forallb clean_field fields.
Proof.
  cbn [clean]. f_equal.
  induction fields as [|[k x] l IH]; [reflexivity|].
  cbn [forallb]. rewrite IH. reflexivity.
Qed.

Lemma stringify_array (items : list value) :
  stringify (JArr items)
  = Some ("["%char :: join_comma (map entry_text items) ++ ["]"%char]).
Proof. reflexivity. Qed.

Lemma stringify_object (fields : list (string * value)) :
  stringify (JObj fields)
  = Some ("{"%char :: join_comma (member_texts fields) ++ ["}"%char]).
Proof. reflexivity. Qed.

Lemma chars_of_Z_head (z : Z) :
  exists c tl, chars_of_Z z = c :: tl /\ is_digit c || Ascii.eqb c "-" = true.
Proof.
  destruct z as [|p|p]; cbn [chars_of_Z]; [eexists; eexists; split; reflexivity| |].
  - unfold chars_of_N. cbn [N.to_uint]. pose proof (to_uint_head p) as Hhead.
    destruct (Pos.to_uint p); try contradiction; cbn [chars_of_uint];
      eexists; eexists; split; reflexivity.
  - eexists; eexists; split; reflexivity.
Qed.

Lemma stringify_head (v : value) (t : list ascii) :
  stringify v = Some t -> exists c tl, t = c :: tl /\ starts_value c = true.
Proof.
  destruct v as [| |[]|z|s|items|fields]; try discriminate.
  1-3: intros [= <-]; eexists; eexists; split; reflexivity.
  - intros [= <-]. destruct (chars_of_Z_head z) as (c & tl & -> & Hc).
    exists c, tl. split; [reflexivity|]. unfold starts_value.
    apply orb_true_iff in Hc as [->|Hc]; [reflexivity|].
    apply Ascii.eqb_eq in Hc. subst c. reflexivity.
  - intros [= <-]. eexists; eexists; split; reflexivity.
  - rewrite stringify_array. intros [= <-]. eexists; eexists; split; reflexivity.
  - rewrite stringify_object. intros [= <-]. eexists; eexists; split; reflexivity.
Qed.

Lemma clean_has_text (v : value) : clean v = true -> exists t, stringify v = Some t.
Proof.
  destruct v as [| |[]|z|s|items|fields]; try discriminate; intros _; eexists;
    reflexivity.
Qed.

Lemma obj_set_new (k : string) (v : value) (fields : list (string * value)) :
  assoc k fields = None -> obj_set k v fields = fields ++ [(k, v)].
Proof.
  induction fields as [|[k' v'] rest IH]; [reflexivity|].
  cbn [assoc obj_set app]. destruct (String.eqb k k'); [discriminate|].
  intros Hnone. rewrite IH by assumption. reflexivity.
Qed.

Lemma assoc_app (k : string) (l1 l2 : list (string * value)) :
  assoc k (l1 ++ l2) = match assoc k l1 with Some v => Some v | None => assoc k l2 end.
Proof.
  induction l1 as [|[k' v'] rest IH]; [reflexivity|].
  cbn [assoc app]. destruct (String.eqb k k'); [reflexivity|exact IH].
Qed.

Lemma fold_obj_set_distinct (fields acc : list (string * value)) :
  distinct_keys fields = true ->
  (forall k v, In (k, v) fields -> assoc k acc = None) ->
  fold_left (fun o kv => obj_set (fst kv) (snd kv) o) fields acc = acc ++ fields.
Proof.
  revert acc. induction fields as [|[k v] rest IH]; intros acc Hd Hfresh.
  - rewrite app_nil_r. reflexivity.
  - cbn [distinct_keys] in Hd. destruct (assoc k rest) eqn:Hk; [discriminate|].
    cbn [fold_left fst snd].
    rewrite obj_set_new by (eapply Hfresh; left; reflexivity).
    rewrite IH; [rewrite <- app_assoc; reflexivity|assumption|].
    intros k' v' Hin. rewrite assoc_app.
    rewrite (Hfresh k' v') by (right; assumption).
    cbn [assoc]. destruct (String.eqb_spec k' k) as [->|]; [|reflexivity].
    exfalso. clear - Hk Hin.
    induction rest as [|[k2 v2] rest IH]; [contradiction|].
    cbn [assoc] in Hk. destruct (String.eqb_spec k k2) as [|Hne]; [discriminate|].
    destruct Hin as [[= -> ->]|Hin]; [congruence|auto].
Qed.

Lemma build_object_distinct (fields : list (string * value)) :
  distinct_keys fields = true -> build_object fields = fields.
Proof.
  intros Hd. unfold build_object. rewrite fold_obj_set_distinct; auto.
Qed.

Lemma parse_elements_texts (items : list value) :
  Forall reads_back items ->
  forallb clean items = true ->
  items <> [] ->
  forall rest fuel,
    (S (List.length (join_comma (map entry_text items))) < fuel)%nat ->
    parse_elements fuel (join_comma (map entry_text items) ++ "]"%char :: rest)
    = POk items rest.
Proof.
  intros Hall. induction Hall as [|x l Hx Hl IH]; [congruence|].
  intros Hclean _ rest fuel Hfuel.
  cbn [forallb] in Hclean. apply andb_true_iff in Hclean as [Hcx Hcl].
  destruct (clean_has_text x Hcx) as [tx Htx].
  assert (entry_text x = tx) as Hentry by (unfold entry_text; rewrite Htx; reflexivity).
  destruct fuel as [|fuel]; [lia|].
  destruct l as [|y l'].
  - cbn [map join_comma] in *. rewrite Hentry in *.
    cbn [parse_elements].
    rewrite (Hx Hcx tx ("]"%char :: rest) fuel Htx eq_refl) by lia.
    reflexivity.
  - cbn [map] in *. rewrite Hentry in *.
    change (join_comma (tx :: entry_text y :: map entry_text l'))
      with (tx ++ ","%char :: join_comma (entry_text y :: map entry_text l')) in *.
    rewrite <- app_assoc. cbn [app].
    cbn [parse_elements].
    rewrite length_app in Hfuel. cbn [List.length] in Hfuel.
    rewrite (Hx Hcx tx
               (","%char :: join_comma (entry_text y :: map entry_text l')
                  ++ "]"%char :: rest) fuel Htx eq_refl) by lia.
    cbn [skip_ws is_json_space]. cbv beta iota.
    rewrite IH; [reflexivity|assumption|discriminate|lia].
Qed.

Lemma member_text_shape (k : string) (tx tail : list ascii) :
  (quote k ++ ":"%char :: tx) ++ tail
  = "034"%char :: quote_chars (list_ascii_of_string k)
      ++ "034"%char :: ":"%char :: tx ++ tail.
Proof.
  unfold quote. cbn [app]. rewrite <- !app_assoc. reflexivity.
Qed.

Lemma parse_member (fuel : nat) (k : string) (x : value) (tx tail : list ascii) :
  is_array_index k = false ->
  parse_value fuel (tx ++ tail) = POk x tail ->
  parse_members (S fuel) ((quote k ++ ":"%char :: tx) ++ tail)
  = match skip_ws tail with
    | ","%char :: r => pmap (cons (k, x)) (parse_members fuel r)
    | "}"%char :: r => POk [(k, x)] r
    | _ => PSyntax
    end.
Proof.
  intros Hindex Hvalue. rewrite member_text_shape.
  cbn [parse_members skip_ws is_json_space]. cbv beta iota.
  rewrite read_string_quoted. cbv beta iota zeta.
  rewrite string_of_list_ascii_of_string, Hindex.
  cbn [skip_ws is_json_space]. cbv beta iota.
  rewrite Hvalue. reflexivity.
Qed.

Lemma parse_members_texts (fields : list (string * value)) :
  Forall (fun kv => reads_back (snd kv)) fields ->
  forallb clean_field fields = true ->
  fields <> [] ->
  forall rest fuel,
    (S (List.length (join_comma (member_texts fields))) < fuel)%nat ->
    parse_members fuel (join_comma (member_texts fields) ++ "}"%char :: rest)
    = POk fields rest.
Proof.
  intros Hall. induction Hall as [|[k x] l Hx Hl IH]; [congruence|].
  intros Hclean _ rest fuel Hfuel.
  cbn [forallb] in Hclean. apply andb_true_iff in Hclean as [Hcx Hcl].
  unfold clean_field in Hcx. cbn [fst snd] in Hcx, Hx.
  apply andb_true_iff in Hcx as [Hk Hcx]. apply negb_true_iff in Hk.
  destruct (clean_has_text x Hcx) as [tx Htx].
  destruct fuel as [|fuel]; [lia|].
  cbn [member_texts] in *. rewrite Htx in *.
  destruct l as [|[k' y] l'].
  - cbn [member_texts join_comma] in *.
    rewrite length_app in Hfuel. cbn [List.length] in Hfuel.
    rewrite (parse_member fuel k x tx ("}"%char :: rest) Hk); [reflexivity|].
    apply Hx; [assumption|assumption|reflexivity|lia].
  - assert (exists ty, stringify y = Some ty) as [ty Hty].
    { cbn [forallb] in Hcl. apply andb_true_iff in Hcl as [Hcy _].
      unfold clean_field in Hcy. apply andb_true_iff in Hcy as [_ Hcy].
      apply clean_has_text. exact Hcy. }
    cbn [member_texts] in *. rewrite Hty in *.
    set (more := (quote k' ++ ":"%char :: ty) :: member_texts l') in *.
    change (join_comma ((quote k ++ ":"%char :: tx) :: more))
      with ((quote k ++ ":"%char :: tx) ++ ","%char :: join_comma more) in *.
    rewrite <- app_assoc. cbn [app].
    rewrite !length_app in Hfuel. cbn [List.length] in Hfuel.
    rewrite (parse_member fuel k x tx
               (","%char :: join_comma more ++ "}"%char :: rest) Hk).
    + cbn [skip_ws is_json_space]. cbv beta iota.
      rewrite IH; [reflexivity|assumption|discriminate|lia].
    + apply Hx; [assumption|assumption|reflexivity|lia].
Qed.

Lemma reads_back_all (v : value) : reads_back v.
Proof.
  induction v as [| |b|z|s|items IH|fields IH] using value_nested_ind;
    intros Hclean t rest fuel Htext Hrest Hfuel;
    (destruct fuel as [|fuel]; [lia|]).
  - discriminate.
  - injection Htext as <-. reflexivity.
  - destruct b; injection Htext as <-; reflexivity.
  - injection Htext as <-. apply parse_number; assumption.
  - injection Htext as <-. unfold quote. cbn [app]. rewrite <- app_assoc.
    cbn [parse_value skip_ws is_json_space app]. cbv beta iota.
    rewrite read_string_quoted. cbn [pmap].
    rewrite string_of_list_ascii_of_string. reflexivity.
  - rewrite stringify_array in Htext. injection Htext as <-.
    rewrite clean_array in Hclean.
    destruct items as [|x l]; [reflexivity|].
    cbn [List.length app] in Hfuel. rewrite length_app in Hfuel.
    cbn [List.length] in Hfuel.
    cbn [app]. rewrite <- app_assoc. cbn [app].
    pose proof (parse_elements_texts (x :: l) IH Hclean ltac:(discriminate) rest fuel
                  ltac:(lia)) as Hparse.
    assert (exists c tl, join_comma (map entry_text (x :: l)) = c :: tl
                         /\ starts_value c = true) as (c & tl & Hshape & Hc).
    { cbn [forallb] in Hclean. apply andb_true_iff in Hclean as [Hcx _].
      destruct (clean_has_text x Hcx) as [tx Htx].
      destruct (stringify_head x tx Htx) as (c & tl & -> & Hc).
      cbn [map]. unfold entry_text at 1. rewrite Htx.
      destruct (map entry_text l); cbn [join_comma app]; eauto. }
    rewrite Hshape in *.
    revert Hc Hparse.
    each_char c ltac:(try discriminate; intros _ Hparse; cbn [app] in Hparse;
                      cbn [parse_value skip_ws is_json_space app]; cbv beta iota;
                      rewrite Hparse; reflexivity).
  - rewrite stringify_object in Htext. injection Htext as <-.
    rewrite clean_object in Hclean. apply andb_true_iff in Hclean as [Hd Hclean].
    destruct fields as [|[k x] l]; [reflexivity|].
    cbn [List.length app] in Hfuel. rewrite length_app in Hfuel.
    cbn [List.length] in Hfuel.
    cbn [app]. rewrite <- app_assoc. cbn [app].
    pose proof (parse_members_texts ((k, x) :: l) IH Hclean ltac:(discriminate) rest fuel
                  ltac:(lia)) as Hparse.
    assert (exists tl, join_comma (member_texts ((k, x) :: l)) = "034"%char :: tl)
      as (tl & Hshape).
    { cbn [forallb] in Hclean. apply andb_true_iff in Hclean as [Hcx _].
      unfold clean_field in Hcx. apply andb_true_iff in Hcx as [_ Hcx].
      destruct (clean_has_text x Hcx) as [tx Htx].
      cbn [member_texts]. cbn [snd] in Htx. rewrite Htx.
      destruct (member_texts l); unfold quote; cbn [join_comma app]; eauto. }
    rewrite Hshape in *. cbn [app] in Hparse.
    cbn [parse_value skip_ws is_json_space app]. cbv beta iota.
    rewrite Hparse. cbn [pmap]. rewrite build_object_distinct by assumption.
    reflexivity.
Qed.

(** [JSON.parse(JSON.stringify(v))] is [v], for a clean [v]. *)
Lemma JSON_parse_stringify (v : value) :
  clean v = true -> JSON_parse (JSON_stringify v) = Normal v.
Proof.
  intros Hclean. destruct (clean_has_text v Hclean) as [t Ht].
  unfold JSON_parse, JSON_stringify. rewrite Ht.
  rewrite list_ascii_of_string_of_list_ascii.
  pose proof (reads_back_all v Hclean t [] (S (List.length t)) Ht eq_refl ltac:(lia))
    as Hparse.
  rewrite app_nil_r in Hparse. rewrite Hparse. reflexivity.
Qed.

(* ===================================================================== *)
(** ** What JSON.parse returns is clean *)
(* ===================================================================== *)

(** Case analysis on whatever the left-hand side of [H] inspects first,
    for as long as it inspects something. *)
Ltac head_cases H :=
  repeat (cbv beta iota zeta in H;
          match type of H with
          | (match ?x with _ => _ end) = _ => destruct x eqn:?; try discriminate H
          end).

Lemma after_integer_clean (negative : bool) (n : N) (rest r : list ascii) (v : value) :
  after_integer negative n rest = POk v r -> clean v = true.
Proof.
  intros H. unfold after_integer in H. head_cases H.
  all: injection H as <- <-; cbn [clean]; unfold safe; apply N.leb_le;
    match goal with Hn : (max_safe <? _)%N = false |- _ => apply N.ltb_ge in Hn end;
    destruct negative; rewrite ?Zabs2N.inj_opp, ?Zabs2N.id; assumption.
Qed.

Lemma read_number_clean (s r : list ascii) (v : value) :
  read_number s = POk v r -> clean v = true.
Proof.
  intros H. unfold read_number in H. head_cases H.
  all: try (eapply after_integer_clean; exact H).
  all: cbv beta iota zeta in H;
    repeat match type of H with
           | (if ?b then _ else _) = _ => destruct b; try discriminate H
           | (let '(_, _) := ?x in _) = _ => destruct x
           end;
    eapply after_integer_clean; exact H.
Qed.

Lemma assoc_obj_set (k' k : string) (v : value) (fields : list (string * value)) :
  assoc k' (obj_set k v fields)
  = if String.eqb k' k then Some v else assoc k' fields.
Proof.
  induction fields as [|[k1 v1] rest IH]; [reflexivity|].
  cbn [obj_set assoc].
  destruct (String.eqb_spec k k1) as [->|Hne]; cbn [assoc].
  - destruct (String.eqb k' k1); reflexivity.
  - rewrite IH. destruct (String.eqb_spec k' k1) as [->|]; [|reflexivity].
    destruct (String.eqb_spec k1 k); congruence.
Qed.

Lemma obj_set_distinct (k : string) (v : value) (fields : list (string * value)) :
  distinct_keys fields = true -> distinct_keys (obj_set k v fields) = true.
Proof.
  induction fields as [|[k1 v1] rest IH]; [reflexivity|].
  cbn [distinct_keys obj_set]. destruct (assoc k1 rest) eqn:Hk1; [discriminate|].
  intros Hd. destruct (String.eqb_spec k k1) as [->|Hne]; cbn [distinct_keys].
  - rewrite Hk1. assumption.
  - rewrite assoc_obj_set, Hk1.
    destruct (String.eqb_spec k1 k); [congruence|auto].
Qed.

Lemma obj_set_clean (k : string) (v : value) (fields : list (string * value)) :
  clean_field (k, v) = true ->
  forallb clean_field fields = true ->
  forallb clean_field (obj_set k v fields) = true.
Proof.
  intros Hkv. induction fields as [|[k1 v1] rest IH]; cbn [obj_set forallb].
  - rewrite Hkv. reflexivity.
  - intros [H1 Hrest]%andb_true_iff.
    destruct (String.eqb k k1); cbn [forallb].
    + rewrite Hkv, Hrest. reflexivity.
    + rewrite H1, IH by assumption. reflexivity.
Qed.

Lemma build_object_clean (pairs : list (string * value)) :
  forallb clean_field pairs = true -> clean (JObj (build_object pairs)) = true.
Proof.
  intros Hpairs. rewrite clean_object. unfold build_object.
  assert (forall acc,
            distinct_keys acc = true -> forallb clean_field acc = true ->
            distinct_keys (fold_left (fun o kv => obj_set (fst kv) (snd kv) o) pairs acc)
            && forallb clean_field
                 (fold_left (fun o kv => obj_set (fst kv) (snd kv) o) pairs acc)
            = true) as Hfold; [|apply Hfold; reflexivity].
  induction pairs as [|[k v] rest IH]; intros acc Hd Hc; cbn [fold_left fst snd].
  - rewrite Hd, Hc. reflexivity.
  - cbn [forallb] in Hpairs. apply andb_true_iff in Hpairs as [Hkv Hrest].
    apply IH; [assumption|apply obj_set_distinct; assumption|].
    apply obj_set_clean; assumption.
Qed.

Lemma parse_clean_fuel (fuel : nat) :
  (forall s v r, parse_value fuel s = POk v r -> clean v = true)
  /\ (forall s l r, parse_elements fuel s = POk l r -> forallb clean l = true)
  /\ (forall s l r, parse_members fuel s = POk l r -> forallb clean_field l = true).
Proof.
  induction fuel as [|fuel (IHv & IHe & IHm)]; [repeat split; discriminate|].
  split; [|split].
  - intros s v r H. cbn [parse_value] in H. head_cases H.
    all: try (injection H as <- <-; reflexivity).
    all: try (eapply read_number_clean; exact H).
    all: try (destruct (read_string _); try discriminate H;
              injection H as <- <-; reflexivity).
    all: try (destruct (parse_elements fuel _) eqn:He; try discriminate H;
              injection H as <- <-; rewrite clean_array; eapply IHe; exact He).
    all: destruct (parse_members fuel _) eqn:Hm; try discriminate H;
      injection H as <- <-; apply build_object_clean; eapply IHm; exact Hm.
  - intros s l r H. cbn [parse_elements] in H. head_cases H.
    all: try (injection H as <- <-; cbn [forallb]; erewrite IHv by eassumption;
              reflexivity).
    all: destruct (parse_elements fuel _) eqn:He; try discriminate H;
      injection H as <- <-; cbn [forallb];
      erewrite IHv, IHe by eassumption; reflexivity.
  - intros s l r H. cbn [parse_members] in H. head_cases H.
    all: try (injection H as <- <-; cbn [forallb]; unfold clean_field; cbn [fst snd];
              match goal with Hi : is_array_index _ = false |- _ => rewrite Hi end;
              erewrite IHv by eassumption; reflexivity).
    all: destruct (parse_members fuel _) eqn:Hm; try discriminate H;
      injection H as <- <-; cbn [forallb]; unfold clean_field at 1; cbn [fst snd];
      match goal with Hi : is_array_index _ = false |- _ => rewrite Hi end;
      erewrite IHv, IHm by eassumption; reflexivity.
Qed.

Lemma JSON_parse_clean (text : string) (v : value) :
  JSON_parse text = Normal v -> clean v = true.
Proof.
  unfold JSON_parse. intros H.
  destruct (parse_value _ _) as [v' rest| |] eqn:Hp; try discriminate.
  destruct (skip_ws rest); [|discriminate]. injection H as <-.
  eapply (proj1 (parse_clean_fuel _)). exact Hp.
Qed.

(** A text that parses is read back, once written again, as the same
    value. *)
Lemma JSON_parse_idempotent (text : string) (v : value) :
  JSON_parse text = Normal v -> JSON_parse (JSON_stringify v) = Normal v.
Proof. intros H. apply JSON_parse_stringify. eapply JSON_parse_clean. exact H. Qed.

(* ===================================================================== *)
(** ** Deleting one item, and reading back what was saved *)
(* ===================================================================== *)

Lemma stored_news_ext (w1 w2 : World) :
  localStorage w1 = localStorage w2 -> stored_news w1 = stored_news w2.
Proof. intros H. unfold stored_news, news_text. rewrite H. reflexivity. Qed.

Lemma stored_news_clean (w : World) (v : value) :
  stored_news w = Normal v -> clean v = true.
Proof.
  unfold stored_news. destruct (news_text w) as [text|].
  - apply JSON_parse_clean.
  - intros [= <-]. reflexivity.
Qed.

Lemma JSON_stringify_array_present (items : list value) :
  present (Some (JSON_stringify (JArr items))) = Some (JSON_stringify (JArr items)).
Proof. unfold JSON_stringify. rewrite stringify_array. reflexivity. Qed.

(** The slot of the news after [setItem] with the text of a clean array. *)
Lemma stored_news_written (w : World) (items : list value) :
  clean (JArr items) = true ->
  stored_news
    (with_localStorage
       (<["mh_news_data" := JSON_stringify (JArr items)]> (localStorage w)) w)
  = Normal (JArr items).
Proof.
  intros Hclean. unfold stored_news, news_text. cbn [localStorage with_localStorage].
  rewrite lookup_insert_eq, JSON_stringify_array_present.
  apply JSON_parse_stringify. exact Hclean.
Qed.

Lemma in_local_mode_ext (w1 w2 : World) :
  window w1 = window w2 ->
  localStorage w1 !! "supabaseSyncSettings" = localStorage w2 !! "supabaseSyncSettings" ->
  in_local_mode w1 = in_local_mode w2.
Proof.
  intros Hw Hs. unfold in_local_mode. rewrite (credentials_ext w1 w2 Hw Hs). reflexivity.
Qed.

Lemma in_local_mode_written (w : World) (text : string) :
  in_local_mode
    (with_localStorage (<["mh_news_data" := text]> (localStorage w)) w)
  = in_local_mode w.
Proof.
  apply in_local_mode_ext; [reflexivity|].
  cbn [localStorage with_localStorage]. apply lookup_insert_ne. discriminate.
Qed.

(** In local mode, with a slot that parses, showing the list again ends;
    what it throws, if it throws, reaches nobody. *)
Lemma detached_renderNewsAdmin_local (w : World) (v : value) :
  in_local_mode w = true ->
  stored_news w = Normal v ->
  fst (detached renderNewsAdmin w) = Normal tt.
Proof.
  intros Hmode Hstored. unfold detached, renderNewsAdmin, bind at 1. unfold get_page.
  destruct (news_list_admin (page w)); [|reflexivity].
  unfold bind at 1. unfold set_admin_list at 1.
  unfold bind at 1.
  rewrite getNews_local by (rewrite <- Hmode; apply in_local_mode_ext; reflexivity).
  match goal with
  | |- context [stored_news ?w'] => change (stored_news w') with (stored_news w)
  end.
  rewrite Hstored. unfold bind at 1. unfold set_admin_list at 1.
  unfold bind at 1. unfold lift.
  destruct (get_prop v "length") as [len|e|] eqn:Hlen;
    [|reflexivity|destruct v; discriminate].
  unfold set_admin_list, bind, throw, ret.
  destruct len as [| | |[| |]| | |]; try reflexivity;
    destruct v as [| | | | |listed|]; try reflexivity;
    destruct (cards_until_failure listed) as [shown []]; reflexivity.
Qed.

Lemma filter_by_id (id : value) (t : string) (items : list value) :
  call_toString id = Normal t ->
  forallb has_id items = true ->
  filter_completion (differs_from id) items
  = Normal (List.filter (fun item => negb (id_is t item)) items).
Proof.
  intros Hid. induction items as [|item items IH]; [reflexivity|].
  cbn [forallb]. intros [Hitem Hitems]%andb_true_iff.
  cbn [filter_completion List.filter]. rewrite IH by assumption.
  unfold has_id, id_is, id_text in *. unfold differs_from. rewrite Hid.
  destruct (get_prop item "id") as [i| |]; try discriminate.
  destruct (call_toString i); try discriminate. reflexivity.
Qed.

Lemma forallb_filter {A} (p q : A -> bool) (l : list A) :
  forallb p l = true -> forallb p (List.filter q l) = true.
Proof.
  induction l as [|x l IH]; [reflexivity|]. cbn [forallb List.filter].
  intros [Hx Hl]%andb_true_iff. destruct (q x); cbn [forallb]; rewrite ?Hx; auto.
Qed.

(** In local mode, once the visitor has confirmed, and on a store where
    every item has an id, [deleteNews(id)] keeps of the stored items, in
    their order and as they are, exactly those whose id, as text, is not
    the text of [id]: the slot holds them afterwards and reads back as
    them.  [id] is a value that has a text, the one JavaScript gives. *)
Lemma deleteNews_local_removes_by_text (w : World) (id : value) (t : string)
  (items : list value) :
  in_local_mode w = true ->
  confirm_answer w = true ->
  stored_news w = Normal (JArr items) ->
  forallb has_id items = true ->
  exact_text id = true ->
  call_toString id = Normal t ->
  let kept := List.filter (fun item => negb (id_is t item)) items in
  exists w',
    deleteNews id w = (Normal tt, w')
    /\ localStorage w'
       = <["mh_news_data" := JSON_stringify (JArr kept)]> (localStorage w)
    /\ stored_news w' = Normal (JArr kept).
Proof.
  intros Hmode Hsure Hstored Hids _ Hid kept.
  assert (clean (JArr kept) = true) as Hclean.
  { apply stored_news_clean in Hstored. rewrite clean_array in *.
    apply forallb_filter. exact Hstored. }
  rewrite deleteNews_local by assumption. rewrite Hstored.
  unfold array_filter. rewrite (filter_by_id id t items Hid Hids). fold kept.
  set (w1 := with_localStorage _ w).
  pose proof (detached_renderNewsAdmin_local w1 (JArr kept)) as Hshown.
  pose proof (stable_detached keeps_storage _ renderNewsAdmin_keeps_storage w1) as Hkeep.
  unfold keeps_storage in Hkeep.
  destruct (detached renderNewsAdmin w1) as [r w'].
  cbn [fst snd] in *. exists w'.
  rewrite Hshown.
  - split; [reflexivity|]. split; [exact Hkeep|].
    rewrite (stored_news_ext w' w1 Hkeep). apply stored_news_written. exact Hclean.
  - subst w1. rewrite in_local_mode_written. exact Hmode.
  - apply stored_news_written. exact Hclean.
Qed.

(** With the number 7 for an id: the items whose id is the text 7 or the
    number 7 go, the other stays. *)
Lemma deleteNews_local_removes_by_text_witness :
  exists w',
    deleteNews (JNum 7) Delete.w = (Normal tt, w')
    /\ localStorage w'
       = <["mh_news_data" := JSON_stringify (JArr [Delete.eight])]>
           (localStorage Delete.w)
    /\ stored_news w' = Normal (JArr [Delete.eight]).
Proof.
  apply (deleteNews_local_removes_by_text Delete.w (JNum 7) "7"
           [Delete.seven; Delete.eight; Delete.seven_number]).
  - reflexivity.
  - reflexivity.
  - vm_compute. reflexivity.
  - reflexivity.
  - reflexivity.
  - reflexivity.
Defined.

(** Saving in local mode and listing: the stored sequence with the item at
    its end, exactly as it was handed to [saveNews]. *)
Lemma saveNews_then_getNews (w : World) (item : value) (items : list value) :
  in_local_mode w = true ->
  stored_news w = Normal (JArr items) ->
  clean item = true ->
  exists w1,
    saveNews item w = (Normal true, w1)
    /\ fst (getNews w1) = Normal (JArr (items ++ [item])).
Proof.
  intros Hmode Hstored Hitem.
  rewrite saveNews_local by assumption. rewrite Hstored. cbn [array_push].
  eexists. split; [reflexivity|].
  rewrite getNews_local by (rewrite in_local_mode_written; exact Hmode).
  cbn [fst].
  erewrite stored_news_ext; [apply stored_news_written|reflexivity].
  apply stored_news_clean in Hstored. rewrite clean_array in *.
  rewrite forallb_app, Hstored. cbn [forallb]. rewrite Hitem. reflexivity.
Qed.

(** The item [publish] hands to [saveNews] has no property [id]. *)
Lemma published_item_has_no_id (role authorName title content now image video link : string) :
  get_prop
    (JObj [("title", JStr title); ("content", JStr content); ("author", JStr authorName);
           ("date", JStr now); ("image_url", JStr image); ("video_url", JStr video);
           ("link_url", JStr link); ("publisher_role", JStr role)]) "id"
  = Normal JUndefined.
Proof. reflexivity. Qed.

(** C3 at the input where the script goes wrong: an item published in
    local mode is listed with its title, its content and its completed
    link, and with no id at all; so the button that is to delete it calls
    [deleteNews('undefined')], which throws on [item.id.toString()] and
    removes nothing. *)
Theorem local_save_assigns_no_id :
  in_local_mode RoundTrip.w = true
  /\ fst (handleAddNews RoundTrip.w) = Normal tt
  /\ fst (getNews RoundTrip.published) = Normal (JArr [RoundTrip.item])
  /\ get_prop RoundTrip.item "title" = Normal (JStr "Hi")
  /\ get_prop RoundTrip.item "content" = Normal (JStr "World")
  /\ get_prop RoundTrip.item "link_url" = Normal (JStr "https://example.com")
  /\ get_prop RoundTrip.item "id" = Normal JUndefined
  /\ to_string JUndefined = Normal "undefined"
  /\ deleteNews (JStr "undefined") RoundTrip.published
     = (Throw TypeError, RoundTrip.published).
Proof. vm_compute. repeat split. Qed.

(** One stored item without an id is enough for [deleteNews] to throw in
    local mode, whatever the id asked for, and to remove nothing. *)
Lemma deleteNews_local_throws_without_id (w : World) (id : value)
  (before after : list value) (item : value) :
  in_local_mode w = true ->
  confirm_answer w = true ->
  stored_news w = Normal (JArr (before ++ item :: after)) ->
  forallb has_id before = true ->
  get_prop item "id" = Normal JUndefined ->
  deleteNews id w = (Throw TypeError, w).
Proof.
  intros Hmode Hsure Hstored Hbefore Hnoid.
  rewrite deleteNews_local by assumption. rewrite Hstored.
  assert (filter_completion (differs_from id) (before ++ item :: after)
          = Throw TypeError) as Hthrow.
  { clear Hstored. induction before as [|x l IH].
    - cbn [app filter_completion]. unfold differs_from. rewrite Hnoid. reflexivity.
    - cbn [forallb] in Hbefore. apply andb_true_iff in Hbefore as [Hx Hl].
      cbn [app filter_completion]. rewrite (IH Hl).
      unfold has_id, id_text in Hx. unfold differs_from.
      destruct (get_prop x "id") as [i| |]; try discriminate.
      destruct (call_toString i); try discriminate.
      unfold call_toString, to_string.
      destruct (nullish id), (to_chars id); reflexivity. }
  unfold array_filter. rewrite Hthrow. reflexivity.
Qed.

(** C9: the page itself makes [deleteNews] fail in local mode.  The store
    holds one item whose id is the text 7; the page publishes a draft,
    which the local save stores without an id; [deleteNews(7)], confirmed,
    then throws a TypeError on the item without an id, and removes
    nothing: the item whose id is the text 7 is still stored. *)
Theorem deleteNews_local_throws_after_publish :
  in_local_mode DeleteAfterPublish.w = true
  /\ stored_news DeleteAfterPublish.w = Normal (JArr [Delete.seven])
  /\ fst (handleAddNews DeleteAfterPublish.w) = Normal tt
  /\ stored_news DeleteAfterPublish.published
     = Normal (JArr [Delete.seven; DeleteAfterPublish.item])
  /\ id_text Delete.seven = Normal "7"
  /\ call_toString (JNum 7) = Normal "7"
  /\ confirm_answer DeleteAfterPublish.published = true
  /\ deleteNews (JNum 7) DeleteAfterPublish.published
     = (Throw TypeError, DeleteAfterPublish.published).
Proof. vm_compute. repeat split. Qed.

(* ===================================================================== *)
(** ** The quota and a listing that cannot be counted *)
(* ===================================================================== *)

Lemma count_user_posts_null (before after : list value) :
  count_user_posts (JArr (before ++ JNull :: after)) = Throw TypeError.
Proof.
  unfold count_user_posts, array_filter.
  assert (filter_completion
            (fun n =>
               match get_prop n "publisher_role" with
               | Normal r => Normal (strict_eq_str "user" r)
               | Throw e => Throw e
               | Unmodelled => Unmodelled
               end) (before ++ JNull :: after)
          = Throw TypeError) as ->; [|reflexivity].
  induction before as [|x l IH]; [reflexivity|].
  cbn [app filter_completion]. rewrite IH.
  destruct x; reflexivity.
Qed.

(** A listing with a [null] among its entries cannot be counted: the
    handler goes on to [publish], however many items of the user role the
    listing has. *)
Lemma null_entry_skips_quota (w w1 : World) (tv cv pv : string)
  (before after : list value) :
  news_title (page w) = Some tv ->
  news_content (page w) = Some cv ->
  publish_pin (page w) = Some pv ->
  trim tv <> "" -> trim cv <> "" -> trim pv <> "" ->
  strict_eq_str (hashPassword (window w) (trim pv)) (ADMIN_PASSWORD_HASH (window w))
  = false ->
  strict_eq_str (hashPassword (window w) (trim pv)) (USER_PASSWORD_HASH (window w))
  = true ->
  getNews w = (Normal (JArr (before ++ JNull :: after)), w1) ->
  handleAddNews w
  = publish "user" "User" (trim tv) (trim cv) (draft_link (page w)) w1.
Proof.
  intros Ht Hc Hp Htv Hcv Hpv Hadmin Huser Hget.
  pose proof (proj1 (proj2 (auth_check_admin_first (window w) _)) Hadmin Huser) as Hrole.
  rewrite (handleAddNews_checked w tv cv pv) by assumption. rewrite Hrole.
  unfold bind.
  rewrite (limit_check_count_throws w w1 _ TypeError Hget (count_user_posts_null _ _)).
  reflexivity.
Qed.

Lemma append_cons (x : ascii) (a b : string) : String x a +:+ b = String x (a +:+ b).
Proof. reflexivity. Qed.

Lemma append_assoc (a b c : string) : (a +:+ b) +:+ c = a +:+ (b +:+ c).
Proof.
  induction a as [|x a IH]; [reflexivity|].
  rewrite !append_cons, IH. reflexivity.
Qed.

Lemma replace_all_translate (c : ascii) (r s : string) :
  replace_all c r s = translate (fun x => if Ascii.eqb x c then r else String x "") s.
Proof. induction s as [|x s IH]; simpl; [reflexivity|]. rewrite IH. reflexivity. Qed.

Lemma translate_append (f : ascii -> string) (a b : string) :
  translate f (a +:+ b) = translate f a +:+ translate f b.
Proof.
  induction a as [|x a IH]; [reflexivity|].
  rewrite append_cons. simpl. rewrite IH, append_assoc. reflexivity.
Qed.

Lemma translate_translate (f g : ascii -> string) (s : string) :
  translate g (translate f s) = translate (fun c => translate g (f c)) s.
Proof.
  induction s as [|x s IH]; simpl; [reflexivity|].
  rewrite translate_append, IH. reflexivity.
Qed.

Lemma translate_ext (f g : ascii -> string) (s : string) :
  (forall c, f c = g c) -> translate f s = translate g s.
Proof.
  intros H. induction s as [|x s IH]; simpl; [reflexivity|].
  rewrite H, IH. reflexivity.
Qed.

Lemma escapeHtml_text (text : value) (s : string) :
  truthy text = true ->
  to_string text = Normal s ->
  escapeHtml text = Normal (translate entity s).
Proof.
  intros Ht Hs. unfold escapeHtml, call_toString. rewrite Ht.
  replace (nullish text) with false by (destruct text; try reflexivity; discriminate).
  cbn [negb]. rewrite Hs. f_equal.
  rewrite !replace_all_translate, !translate_translate.
  apply translate_ext. intros c. each_char c ltac:(reflexivity).
Qed.

Lemma escapeHtml_string (s : string) :
  escapeHtml (JStr s) = Normal (translate entity s).
Proof.
  destruct (String.eqb s "") eqn:He.
  - apply String.eqb_eq in He. subst s. reflexivity.
  - apply escapeHtml_text.
    + simpl. rewrite He. reflexivity.
    + unfold to_string. simpl. rewrite string_of_list_ascii_of_string. reflexivity.
Qed.


Lemma chars_append (a b : string) :
  list_ascii_of_string (a +:+ b) = list_ascii_of_string a ++ list_ascii_of_string b.
Proof.
  induction a as [|x a IH]; [reflexivity|].
  rewrite append_cons. simpl. rewrite IH. reflexivity.
Qed.

Lemma translate_entity_inert (s : string) :
  forallb inert (list_ascii_of_string (translate entity s)) = true.
Proof.
  induction s as [|c s IH]; [reflexivity|].
  simpl. rewrite chars_append, forallb_app, IH, andb_true_r.
  each_char c ltac:(reflexivity).
Qed.

Lemma truthy_not_nullish (v : value) : truthy v = true -> nullish v = false.
Proof. destruct v; try reflexivity; discriminate. Qed.

(** What [escapeHtml] returns is the text of its argument, escaped; it
    throws for what has no text, and for nothing else. *)
Lemma escapeHtml_cases (v : value) :
  escapeHtml v
  = if truthy v then
      match to_string v with
      | Normal s => Normal (translate entity s)
      | Throw e => Throw e
      | Unmodelled => Unmodelled
      end
    else Normal ""%string.
Proof.
  destruct (truthy v) eqn:Ht.
  - destruct (to_string v) as [s|e|] eqn:Hs.
    + apply escapeHtml_text; assumption.
    + unfold escapeHtml, call_toString.
      rewrite Ht, (truthy_not_nullish v Ht), Hs. reflexivity.
    + unfold escapeHtml, call_toString.
      rewrite Ht, (truthy_not_nullish v Ht), Hs. reflexivity.
  - unfold escapeHtml. rewrite Ht. reflexivity.
Qed.

(** X1: the five replacements of [escapeHtml], made one after another on
    the whole text, come to rewriting the text one character at a time:
    the [&] of an entity that an earlier replacement has put is not escaped
    again, and no character is escaped twice. *)
Theorem escapeHtml_by_character (s : string) :
  escapeHtml (JStr s) = Normal (translate entity s).
Proof.
  rewrite escapeHtml_cases.
  destruct s as [|c s]; [reflexivity|].
  cbn [truthy String.eqb negb]. unfold to_string. cbn [to_chars].
  rewrite string_of_list_ascii_of_string. reflexivity.
Qed.

(** X2: nothing [escapeHtml] returns can open or close a tag or a quoted
    attribute. *)
Theorem escapeHtml_output_is_inert (text : value) (out : string) :
  escapeHtml text = Normal out ->
  forallb inert (list_ascii_of_string out) = true.
Proof.
  rewrite escapeHtml_cases. destruct (truthy text).
  - destruct (to_string text) as [s|e|]; try discriminate.
    intros [= <-]. apply translate_entity_inert.
  - intros [= <-]. reflexivity.
Qed.

Lemma escapeHtml_output_is_inert_witness :
  escapeHtml (JStr "<a href='x'>") = Normal "&lt;a href=&#039;x&#039;&gt;"%string
  /\ forallb inert (list_ascii_of_string "&lt;a href=&#039;x&#039;&gt;") = true.
Proof.
  split; [reflexivity|].
  apply (escapeHtml_output_is_inert (JStr "<a href='x'>")). reflexivity.
Defined.

Ltac ascii_facts :=
  repeat match goal with
         | H : Ascii.eqb _ _ = true |- _ => apply Ascii.eqb_eq in H
         | H : Ascii.eqb _ _ = false |- _ => apply Ascii.eqb_neq in H
         end.

Lemma translate_entity_injective (a b : string) :
  translate entity a = translate entity b -> a = b.
Proof.
  revert b. induction a as [|x a IH]; intros [|y b] H.
  - reflexivity.
  - exfalso. simpl in H. unfold entity in H.
    destruct (Ascii.eqb y "&"), (Ascii.eqb y "<"), (Ascii.eqb y ">"),
      (Ascii.eqb y "034"), (Ascii.eqb y "'"); discriminate H.
  - exfalso. simpl in H. unfold entity in H.
    destruct (Ascii.eqb x "&"), (Ascii.eqb x "<"), (Ascii.eqb x ">"),
      (Ascii.eqb x "034"), (Ascii.eqb x "'"); discriminate H.
  - simpl in H. unfold entity in H.
    destruct (Ascii.eqb x "&") eqn:Xa, (Ascii.eqb x "<") eqn:Xl,
      (Ascii.eqb x ">") eqn:Xg, (Ascii.eqb x "034") eqn:Xq, (Ascii.eqb x "'") eqn:Xp;
      destruct (Ascii.eqb y "&") eqn:Ya, (Ascii.eqb y "<") eqn:Yl,
        (Ascii.eqb y ">") eqn:Yg, (Ascii.eqb y "034") eqn:Yq, (Ascii.eqb y "'") eqn:Yp;
      cbv [append] in H; ascii_facts;
      try discriminate H; try congruence;
      inversion H; subst; try congruence;
      try (f_equal; try congruence; apply IH; assumption).
Qed.

(** X3: escaping keeps apart what was apart. *)
Theorem escapeHtml_injective (a b : string) :
  a <> b -> escapeHtml (JStr a) <> escapeHtml (JStr b).
Proof.
  intros Hab. rewrite !escapeHtml_string. intros [= H].
  apply Hab, translate_entity_injective. exact H.
Qed.

Lemma escapeHtml_injective_witness :
  escapeHtml (JStr "<") <> escapeHtml (JStr "&lt;").
Proof. apply (escapeHtml_injective "<" "&lt;"). discriminate. Defined.

Lemma formatContent_cases (v : value) :
  formatContent v
  = if truthy v then
      match to_string v with
      | Normal s => Normal (translate entity_or_break s)
      | Throw e => Throw e
      | Unmodelled => Unmodelled
      end
    else Normal ""%string.
Proof.
  unfold formatContent. rewrite escapeHtml_cases.
  destruct (truthy v); [|reflexivity].
  destruct (to_string v) as [s|e|]; try reflexivity.
  cbn [negb]. f_equal.
  rewrite replace_all_translate, translate_translate.
  apply translate_ext. intros c. each_char c ltac:(reflexivity).
Qed.

Lemma only_breaks_translate (s : string) :
  only_breaks (translate entity_or_break s) = true.
Proof.
  induction s as [|c s IH]; [reflexivity|].
  simpl. rewrite <- IH.
  generalize (translate entity_or_break s). intros rest.
  each_char c ltac:(reflexivity).
Qed.

(** X4: the only tags in what [formatContent] returns are line breaks. *)
Theorem formatContent_only_breaks (text : value) (out : string) :
  formatContent text = Normal out -> only_breaks out = true.
Proof.
  rewrite formatContent_cases. destruct (truthy text).
  - destruct (to_string text) as [s|e|]; try discriminate.
    intros [= <-]. apply only_breaks_translate.
  - intros [= <-]. reflexivity.
Qed.

Lemma formatContent_only_breaks_witness :
  formatContent (JStr (String "a" (String "010" "<b>")))
  = Normal "a<br>&lt;b&gt;"%string
  /\ only_breaks "a<br>&lt;b&gt;" = true.
Proof.
  split; [reflexivity|].
  apply (formatContent_only_breaks (JStr (String "a" (String "010" "<b>")))).
  reflexivity.
Defined.

Lemma formatDate_cases (date_text : value -> string) (v : value) :
  formatDate date_text v
  = if truthy v && no_text v then Throw TypeError
    else Normal (match formatDate date_text v with Normal s => s | _ => ""%string end).
Proof.
  unfold formatDate, no_text, to_string, and_then.
  destruct v; try reflexivity.
  - destruct b; reflexivity.
  - simpl. destruct (negb (z =? 0)); reflexivity.
  - simpl. destruct (negb (s =? "")%string); reflexivity.
  - cbn [truthy negb andb]. destruct (to_chars (JArr items)); reflexivity.
  - cbn [truthy negb andb]. destruct (to_chars (JObj fields)); reflexivity.
Qed.

Lemma escapeHtml_outcome (v : value) :
  escapeHtml v
  = if truthy v && no_text v then Throw TypeError
    else Normal (match escapeHtml v with Normal s => s | _ => ""%string end).
Proof.
  rewrite escapeHtml_cases. unfold no_text, to_string.
  destruct (truthy v); [|reflexivity].
  destruct (to_chars v); reflexivity.
Qed.

Lemma formatContent_outcome (v : value) :
  formatContent v
  = if truthy v && no_text v then Throw TypeError
    else Normal (match formatContent v with Normal s => s | _ => ""%string end).
Proof.
  rewrite formatContent_cases. unfold no_text, to_string.
  destruct (truthy v); [|reflexivity].
  destruct (to_chars v); reflexivity.
Qed.

Lemma to_string_outcome (v : value) :
  to_string v
  = if no_text v then Throw TypeError
    else Normal (match to_string v with Normal s => s | _ => ""%string end).
Proof. unfold no_text, to_string. destruct (to_chars v); reflexivity. Qed.

(** A step that stops the card or gives a text, and the steps after it. *)
Lemma and_then_outcome {A} (x : completion A) (k : A -> completion string)
  (a b : bool) :
  (if a then x = Throw TypeError else exists m, x = Normal m) ->
  (forall m, if b then k m = Throw TypeError else exists html, k m = Normal html) ->
  if a || b then and_then x k = Throw TypeError
  else exists html, and_then x k = Normal html.
Proof.
  destruct a; cbn [orb].
  - intros -> _. reflexivity.
  - intros [m ->] H. apply H.
Qed.

Lemma card_of_fields (date_text : value -> string) (item : value) (isAdmin : bool) :
  nullish item = false ->
  let field k := match get_prop item k with Normal x => x | _ => JUndefined end in
  let stops k := truthy (field k) && no_text (field k) in
  if stops "video_url" || stops "image_url" || stops "link_url"
     || (isAdmin && no_text (field "id"))
     || stops "title" || stops "date" || stops "content" || stops "author"
  then createNewsCardHtml date_text item isAdmin = Throw TypeError
  else exists html, createNewsCardHtml date_text item isAdmin = Normal html.
Proof.
  intros Hn field stops.
  assert (Hget : forall k, get_prop item k = Normal (field k)).
  { intros k. unfold field. destruct item; try discriminate Hn; reflexivity. }
  unfold createNewsCardHtml. rewrite !Hget. cbn [and_then].
  subst stops. cbv beta.
  generalize (field "video_url") (field "image_url") (field "link_url") (field "id")
    (field "title") (field "date") (field "content") (field "author").
  clear. intros video image link id title date content author.
  rewrite <- !orb_assoc.
  rewrite <- (orb_false_r (truthy author && no_text author)).
  apply and_then_outcome.
  { rewrite (escapeHtml_outcome video).
    destruct (truthy video); cbn [andb]; [|eexists; reflexivity].
    destruct (no_text video); cbn [and_then]; [reflexivity|eexists; reflexivity]. }
  intros mediaHtml. apply and_then_outcome.
  { rewrite (escapeHtml_outcome image).
    destruct (truthy image); cbn [andb]; [|eexists; reflexivity].
    destruct (no_text image); cbn [and_then]; [reflexivity|eexists; reflexivity]. }
  clear mediaHtml. intros mediaHtml. apply and_then_outcome.
  { rewrite (to_string_outcome link).
    destruct (truthy link) eqn:Tl; cbn [andb]; [|eexists; reflexivity].
    destruct (no_text link) eqn:Nl; cbn [and_then]; [reflexivity|].
    destruct (has_http_scheme _); cbn [negb].
    - rewrite (escapeHtml_outcome link), Tl, Nl. eexists. reflexivity.
    - rewrite escapeHtml_string. eexists. reflexivity. }
  intros linkHtml. apply and_then_outcome.
  { rewrite (to_string_outcome id).
    destruct isAdmin; cbn [andb]; [|eexists; reflexivity].
    destruct (no_text id); cbn [and_then]; [reflexivity|eexists; reflexivity]. }
  intros deleteBtnHtml. apply and_then_outcome.
  { rewrite (escapeHtml_outcome title).
    destruct (truthy title && no_text title); [reflexivity|eexists; reflexivity]. }
  intros title'. apply and_then_outcome.
  { rewrite (formatDate_cases date_text date).
    destruct (truthy date && no_text date); [reflexivity|eexists; reflexivity]. }
  intros date'. apply and_then_outcome.
  { rewrite (formatContent_outcome content).
    destruct (truthy content && no_text content); [reflexivity|eexists; reflexivity]. }
  intros content'. apply and_then_outcome.
  { destruct (truthy author) eqn:Ta; cbn [andb].
    - rewrite (escapeHtml_outcome author), Ta. cbn [andb].
      destruct (no_text author); [reflexivity|eexists; reflexivity].
    - rewrite escapeHtml_string. eexists. reflexivity. }
  intros author'. eexists. reflexivity.
Qed.

Lemma stops_in_any_order (a b c d e f g h : bool) :
  a || b || c || (true && h) || d || e || f || g
  = a || (b || (c || (d || (e || (f || (g || false)))))) || h.
Proof. destruct a, b, c, d, e, f, g, h; reflexivity. Qed.

(** X5: the markup of a card for the admin page is made exactly for the items
    [card_fails] lets through; for the others the call throws. *)
Theorem createNewsCardHtml_stops_as_card_fails (date_text : value -> string)
  (item : value) :
  if card_fails item
  then createNewsCardHtml date_text item true = Throw TypeError
  else exists html, createNewsCardHtml date_text item true = Normal html.
Proof.
  destruct (nullish item) eqn:Hn.
  - destruct item; try discriminate Hn; reflexivity.
  - pose proof (card_of_fields date_text item true Hn) as H.
    cbv beta zeta in H.
    match type of H with
    | if ?c then _ else _ => replace (card_fails item) with c; [exact H|]
    end.
    clear H. destruct item; try discriminate Hn; apply stops_in_any_order.
Qed.

Lemma get_prop_obj_set (k' k : string) (v : value) (fields : list (string * value)) :
  String.eqb k' k = false ->
  get_prop (JObj (obj_set k v fields)) k' = get_prop (JObj fields) k'.
Proof. intros H. unfold get_prop. rewrite assoc_obj_set, H. reflexivity. Qed.

(** X6: the card of the public page does not depend on the id. *)
Theorem public_card_ignores_id (date_text : value -> string)
  (fields : list (string * value)) (id : value) :
  createNewsCardHtml date_text (JObj (obj_set "id" id fields)) false
  = createNewsCardHtml date_text (JObj fields) false.
Proof.
  unfold createNewsCardHtml.
  rewrite !(get_prop_obj_set _ "id" id fields) by reflexivity.
  reflexivity.
Qed.

(* ===================================================================== *)
(** ** The settings are nobody's to change *)
(* ===================================================================== *)

Lemma keeps_settings_refl w : keeps_settings w w.
Proof. split; auto. Qed.

Lemma keeps_settings_trans w1 w2 w3 :
  keeps_settings w1 w2 -> keeps_settings w2 w3 -> keeps_settings w1 w3.
Proof.
  intros [Hw H] [Hw' H']. split; [congruence|].
  intros k Hk. rewrite H', H by assumption. reflexivity.
Qed.

(** A step that leaves the globals and the storage alone. *)
Ltac settings_untouched := intros w; split; [reflexivity | intros ? _; reflexivity].

Lemma settings_alert msg : stable keeps_settings (alert msg).
Proof. settings_untouched. Qed.

Lemma settings_console args : stable keeps_settings (console_log args).
Proof. settings_untouched. Qed.

Lemma settings_getItem k : stable keeps_settings (getItem k).
Proof. settings_untouched. Qed.

Lemma settings_fetch r : stable keeps_settings (fetch r).
Proof.
  intros w. unfold fetch. destruct (remote _ _ _); (split; [reflexivity | intros ? _; reflexivity]).
Qed.

Lemma settings_set_admin_list p : stable keeps_settings (set_admin_list p).
Proof. settings_untouched. Qed.

Lemma settings_set_button t d : stable keeps_settings (set_button t d).
Proof.
  intros w. unfold set_button.
  destruct (btn_add_news _); (split; [reflexivity | intros ? _; reflexivity]).
Qed.

Lemma settings_button_text : stable keeps_settings button_text.
Proof.
  intros w. unfold button_text.
  destruct (btn_add_news _); (split; [reflexivity | intros ? _; reflexivity]).
Qed.

Lemma settings_clear_form : stable keeps_settings clear_form.
Proof. settings_untouched. Qed.

Lemma settings_credentials : stable keeps_settings getSupabaseCredentials.
Proof. intros w. rewrite getSupabaseCredentials_pure. apply keeps_settings_refl. Qed.

Lemma settings_setItem_news text : stable keeps_settings (setItem "mh_news_data" text).
Proof.
  intros w. split; [reflexivity|]. intros k Hk. simpl.
  apply lookup_insert_ne. congruence.
Qed.

Lemma settings_confirm : stable keeps_settings confirm.
Proof. settings_untouched. Qed.

Lemma settings_prompt : stable keeps_settings prompt.
Proof. settings_untouched. Qed.

Lemma settings_get_page : stable keeps_settings get_page.
Proof. settings_untouched. Qed.

Lemma settings_get_window : stable keeps_settings get_window.
Proof. settings_untouched. Qed.

#[local] Hint Resolve keeps_settings_refl keeps_settings_trans settings_alert
  settings_console settings_getItem settings_fetch settings_set_admin_list
  settings_set_button settings_button_text settings_clear_form settings_credentials
  settings_setItem_news settings_confirm settings_prompt settings_get_page
  settings_get_window : stable.

Lemma getNews_keeps_settings : stable keeps_settings getNews.
Proof. unfold getNews, read_local_news. stable_auto. Qed.

Lemma saveNews_keeps_settings item : stable keeps_settings (saveNews item).
Proof. unfold saveNews, parse_local_news. stable_auto. Qed.

Lemma renderNewsAdmin_keeps_settings : stable keeps_settings renderNewsAdmin.
Proof.
  pose proof getNews_keeps_settings.
  unfold renderNewsAdmin. stable_auto.
Qed.

Lemma deleteNews_keeps_settings id : stable keeps_settings (deleteNews id).
Proof.
  pose proof renderNewsAdmin_keeps_settings.
  unfold deleteNews, parse_local_news. stable_auto.
Qed.

Lemma uploadFile_keeps_settings f : stable keeps_settings (uploadFile f).
Proof.
  unfold uploadFile. stable_auto.
Qed.

Lemma handleClearAllNews_keeps_settings : stable keeps_settings handleClearAllNews.
Proof.
  pose proof renderNewsAdmin_keeps_settings.
  unfold handleClearAllNews. stable_auto.
Qed.

Lemma publish_keeps_settings role authorName title content link_url :
  stable keeps_settings (publish role authorName title content link_url).
Proof.
  pose proof renderNewsAdmin_keeps_settings.
  pose proof saveNews_keeps_settings.
  pose proof uploadFile_keeps_settings.
  unfold publish. stable_auto.
Qed.

Lemma handleAddNews_keeps_settings : stable keeps_settings handleAddNews.
Proof.
  pose proof publish_keeps_settings.
  pose proof getNews_keeps_settings.
  unfold handleAddNews, limit_check. stable_auto.
Qed.

Lemma perform_keeps_settings (w : World) (op : Operation) :
  keeps_settings w (perform w op).
Proof.
  destruct op; simpl.
  - apply getNews_keeps_settings.
  - apply saveNews_keeps_settings.
  - apply deleteNews_keeps_settings.
  - apply uploadFile_keeps_settings.
  - apply renderNewsAdmin_keeps_settings.
  - apply handleAddNews_keeps_settings.
  - apply handleClearAllNews_keeps_settings.
Qed.

Lemma keeps_settings_credentials (w w' : World) :
  keeps_settings w w' -> credentials w' = credentials w.
Proof.
  intros [Hw Hk]. apply credentials_ext; [assumption|].
  apply Hk. discriminate.
Qed.

(** X7: whatever the page calls, and however often, the globals and the
    slots of the storage other than the one of the news stay as they
    were, and with them the credentials the script works with. *)
Theorem configuration_is_never_changed (ops : list Operation) (w : World) :
  let w' := perform_all ops w in
  window w' = window w
  /\ (forall k, k <> "mh_news_data"%string -> localStorage w' !! k = localStorage w !! k)
  /\ credentials w' = credentials w.
Proof.
  assert (H : keeps_settings w (perform_all ops w)).
  { revert w. induction ops as [|op ops IH]; intros w.
    - apply keeps_settings_refl.
    - simpl. eapply keeps_settings_trans; [apply perform_keeps_settings|apply IH]. }
  cbv zeta. destruct H as [Hw Hk].
  split; [assumption|]. split; [assumption|].
  apply keeps_settings_credentials. split; assumption.
Qed.

(* ===================================================================== *)
(** ** Local mode is offline, remote mode leaves the storage alone *)
(* ===================================================================== *)

Lemma offline_refl w : offline w w.
Proof. intros H. auto. Qed.

Lemma offline_trans w1 w2 w3 : offline w1 w2 -> offline w2 w3 -> offline w1 w3.
Proof.
  intros H12 H23 H1. destruct (H12 H1) as [H2 R2]. destruct (H23 H2) as [H3 R3].
  split; [assumption|congruence].
Qed.

Lemma online_refl w : online w w.
Proof. intros creds Hc Hl. auto. Qed.

Lemma online_trans w1 w2 w3 : online w1 w2 -> online w2 w3 -> online w1 w3.
Proof.
  intros H12 H23 creds Hc Hl.
  destruct (H12 creds Hc Hl) as [H2 R2]. destruct (H23 creds H2 Hl) as [H3 R3].
  split; [assumption|congruence].
Qed.

Lemma keeps_settings_mode (w w' : World) :
  keeps_settings w w' -> in_local_mode w' = in_local_mode w.
Proof.
  intros H. unfold in_local_mode. rewrite (keeps_settings_credentials w w' H). reflexivity.
Qed.

(** A step that keeps the settings and sends nothing is offline; one that
    keeps the storage is online. *)
Lemma offline_quiet {A} (m : M A) :
  stable keeps_settings m -> (forall w, requests (snd (m w)) = requests w) ->
  stable offline m.
Proof.
  intros Hs Hr w Hin. split; [|apply Hr].
  rewrite (keeps_settings_mode _ _ (Hs w)). exact Hin.
Qed.

Lemma online_quiet {A} (m : M A) :
  stable keeps_settings m -> stable keeps_storage m -> stable online m.
Proof.
  intros Hs Hk w creds Hc Hl. split; [|apply Hk].
  rewrite (keeps_settings_credentials _ _ (Hs w)). exact Hc.
Qed.

Lemma offline_alert msg : stable offline (alert msg).
Proof. apply offline_quiet; [apply settings_alert|reflexivity]. Qed.

Lemma offline_console args : stable offline (console_log args).
Proof. apply offline_quiet; [apply settings_console|reflexivity]. Qed.

Lemma offline_getItem k : stable offline (getItem k).
Proof. apply offline_quiet; [apply settings_getItem|reflexivity]. Qed.

Lemma offline_setItem_news text : stable offline (setItem "mh_news_data" text).
Proof. apply offline_quiet; [apply settings_setItem_news|reflexivity]. Qed.

Lemma offline_set_admin_list p : stable offline (set_admin_list p).
Proof. apply offline_quiet; [apply settings_set_admin_list|reflexivity]. Qed.

Lemma offline_set_button t d : stable offline (set_button t d).
Proof.
  apply offline_quiet; [apply settings_set_button|].
  intros w. unfold set_button. destruct (btn_add_news _); reflexivity.
Qed.

Lemma offline_button_text : stable offline button_text.
Proof.
  apply offline_quiet; [apply settings_button_text|].
  intros w. unfold button_text. destruct (btn_add_news _); reflexivity.
Qed.

Lemma offline_clear_form : stable offline clear_form.
Proof. apply offline_quiet; [apply settings_clear_form|reflexivity]. Qed.

Lemma offline_confirm : stable offline confirm.
Proof. apply offline_quiet; [apply settings_confirm|reflexivity]. Qed.

Lemma offline_prompt : stable offline prompt.
Proof. apply offline_quiet; [apply settings_prompt|reflexivity]. Qed.

Lemma offline_get_page : stable offline get_page.
Proof. apply offline_quiet; [apply settings_get_page|reflexivity]. Qed.

Lemma offline_get_window : stable offline get_window.
Proof. apply offline_quiet; [apply settings_get_window|reflexivity]. Qed.

Lemma online_alert msg : stable online (alert msg).
Proof. apply online_quiet; [apply settings_alert|apply keeps_alert]. Qed.

Lemma online_console args : stable online (console_log args).
Proof. apply online_quiet; [apply settings_console|apply keeps_console]. Qed.

Lemma online_getItem k : stable online (getItem k).
Proof. apply online_quiet; [apply settings_getItem|apply keeps_getItem]. Qed.

Lemma online_fetch r : stable online (fetch r).
Proof. apply online_quiet; [apply settings_fetch|apply keeps_fetch]. Qed.

Lemma online_set_admin_list p : stable online (set_admin_list p).
Proof. apply online_quiet; [apply settings_set_admin_list|apply keeps_set_admin_list]. Qed.

Lemma online_set_button t d : stable online (set_button t d).
Proof. apply online_quiet; [apply settings_set_button|apply keeps_set_button]. Qed.

Lemma online_button_text : stable online button_text.
Proof. apply online_quiet; [apply settings_button_text|apply keeps_button_text]. Qed.

Lemma online_clear_form : stable online clear_form.
Proof. apply online_quiet; [apply settings_clear_form|apply keeps_clear_form]. Qed.

Lemma online_confirm : stable online confirm.
Proof. apply online_quiet; [apply settings_confirm|intros w; reflexivity]. Qed.

Lemma online_prompt : stable online prompt.
Proof. apply online_quiet; [apply settings_prompt|intros w; reflexivity]. Qed.

Lemma online_get_page : stable online get_page.
Proof. apply online_quiet; [apply settings_get_page|intros w; reflexivity]. Qed.

Lemma online_get_window : stable online get_window.
Proof. apply online_quiet; [apply settings_get_window|intros w; reflexivity]. Qed.

#[local] Hint Resolve offline_refl offline_trans online_refl online_trans
  offline_alert offline_console offline_getItem offline_setItem_news
  offline_set_admin_list offline_set_button offline_button_text offline_clear_form
  offline_confirm offline_prompt offline_get_page offline_get_window
  online_alert online_console online_getItem online_fetch online_set_admin_list
  online_set_button online_button_text online_clear_form online_confirm
  online_prompt online_get_page online_get_window : stable.

(** Where the script asks for the credentials, a world in local mode
    takes the local branch, and a world in remote mode the remote one. *)
Lemma offline_with_credentials {A} (k : value * value -> M A) :
  (forall creds, local_mode creds = true -> stable offline (k creds)) ->
  stable offline (bind getSupabaseCredentials k).
Proof.
  intros H w Hin. unfold bind. rewrite getSupabaseCredentials_pure.
  destruct (in_local_mode_credentials w Hin) as (creds & Hc & Hl).
  rewrite Hc. apply H; assumption.
Qed.

Lemma online_with_credentials {A} (k : value * value -> M A) :
  (forall creds, local_mode creds = false -> stable online (k creds)) ->
  stable online (bind getSupabaseCredentials k).
Proof.
  intros H w creds Hc Hl. unfold bind. rewrite getSupabaseCredentials_pure, Hc.
  apply H; assumption.
Qed.

Ltac mode_step :=
  lazymatch goal with
  | |- stable offline (bind getSupabaseCredentials _) =>
      let Hl := fresh "Hl" in
      apply offline_with_credentials; intros [? ?] Hl; cbv beta iota; rewrite Hl
  | |- stable online (bind getSupabaseCredentials _) =>
      let Hl := fresh "Hl" in
      apply online_with_credentials; intros [? ?] Hl; cbv beta iota; rewrite Hl
  | |- _ => stable_step
  end.

Ltac mode_auto := repeat mode_step.

Lemma getNews_offline : stable offline getNews.
Proof. unfold getNews, read_local_news. mode_auto. Qed.

Lemma getNews_online : stable online getNews.
Proof. unfold getNews, read_local_news. mode_auto. Qed.

Lemma saveNews_offline item : stable offline (saveNews item).
Proof. unfold saveNews, parse_local_news. mode_auto. Qed.

Lemma saveNews_online item : stable online (saveNews item).
Proof. unfold saveNews, parse_local_news. mode_auto. Qed.

Lemma renderNewsAdmin_offline : stable offline renderNewsAdmin.
Proof. pose proof getNews_offline. unfold renderNewsAdmin. mode_auto. Qed.

Lemma renderNewsAdmin_online : stable online renderNewsAdmin.
Proof. pose proof getNews_online. unfold renderNewsAdmin. mode_auto. Qed.

Lemma deleteNews_offline id : stable offline (deleteNews id).
Proof.
  pose proof renderNewsAdmin_offline.
  unfold deleteNews, parse_local_news. mode_auto.
Qed.

Lemma deleteNews_online id : stable online (deleteNews id).
Proof.
  pose proof renderNewsAdmin_online.
  unfold deleteNews, parse_local_news. mode_auto.
Qed.

Lemma uploadFile_offline f : stable offline (uploadFile f).
Proof. unfold uploadFile. mode_auto. Qed.

Lemma uploadFile_online f : stable online (uploadFile f).
Proof.
  unfold uploadFile. mode_auto.
  apply online_quiet; intros w;
    [split; [reflexivity | intros ? _; reflexivity] | reflexivity].
Qed.

Lemma handleClearAllNews_offline : stable offline handleClearAllNews.
Proof.
  pose proof renderNewsAdmin_offline.
  unfold handleClearAllNews. mode_auto.
Qed.

Lemma handleClearAllNews_online : stable online handleClearAllNews.
Proof.
  pose proof renderNewsAdmin_online.
  unfold handleClearAllNews. mode_auto.
Qed.

Lemma publish_offline role authorName title content link_url :
  stable offline (publish role authorName title content link_url).
Proof.
  pose proof renderNewsAdmin_offline.
  pose proof saveNews_offline.
  pose proof uploadFile_offline.
  unfold publish. mode_auto.
Qed.

Lemma publish_online role authorName title content link_url :
  stable online (publish role authorName title content link_url).
Proof.
  pose proof renderNewsAdmin_online.
  pose proof saveNews_online.
  pose proof uploadFile_online.
  unfold publish. mode_auto.
Qed.

Lemma handleAddNews_offline : stable offline handleAddNews.
Proof.
  pose proof publish_offline.
  pose proof getNews_offline.
  unfold handleAddNews, limit_check. mode_auto.
Qed.

Lemma handleAddNews_online : stable online handleAddNews.
Proof.
  pose proof publish_online.
  pose proof getNews_online.
  unfold handleAddNews, limit_check. mode_auto.
Qed.

Lemma perform_offline (w : World) (op : Operation) : offline w (perform w op).
Proof.
  destruct op; simpl.
  - apply getNews_offline.
  - apply saveNews_offline.
  - apply deleteNews_offline.
  - apply uploadFile_offline.
  - apply renderNewsAdmin_offline.
  - apply handleAddNews_offline.
  - apply handleClearAllNews_offline.
Qed.

Lemma perform_online (w : World) (op : Operation) : online w (perform w op).
Proof.
  destruct op; simpl.
  - apply getNews_online.
  - apply saveNews_online.
  - apply deleteNews_online.
  - apply uploadFile_online.
  - apply renderNewsAdmin_online.
  - apply handleAddNews_online.
  - apply handleClearAllNews_online.
Qed.

(** X8: from a world in local mode, whatever the page calls, and however
    often, no request goes out and the mode stays local. *)
Theorem local_mode_sends_nothing (ops : list Operation) (w : World) :
  in_local_mode w = true ->
  let w' := perform_all ops w in
  in_local_mode w' = true /\ requests w' = requests w.
Proof.
  assert (H : offline w (perform_all ops w)).
  { revert w. induction ops as [|op ops IH]; intros w.
    - apply offline_refl.
    - simpl. eapply offline_trans; [apply perform_offline|apply IH]. }
  exact H.
Qed.

Lemma local_mode_sends_nothing_witness :
  let w' :=
    perform_all
      [Publish; List_news; Delete (JStr "Hi"); Save (Demo.post "user" "a");
       Upload {| file_name := "a.png"; file_type := "image/png" |}; Clear_all;
       Render_admin]
      RoundTrip.w in
  in_local_mode w' = true /\ requests w' = requests RoundTrip.w.
Proof.
  apply (local_mode_sends_nothing _ RoundTrip.w). vm_compute. reflexivity.
Defined.

(** X9: from a world in remote mode, one whose credentials are an endpoint
    and a key that are both there, whatever the page calls, and however
    often, the credentials stay what they are and the storage of the
    browser is left as it was. *)
Theorem remote_mode_keeps_the_storage (ops : list Operation) (w : World)
  (creds : value * value) :
  credentials w = Normal creds ->
  local_mode creds = false ->
  let w' := perform_all ops w in
  credentials w' = Normal creds /\ localStorage w' = localStorage w.
Proof.
  assert (H : online w (perform_all ops w)).
  { revert w. induction ops as [|op ops IH]; intros w.
    - apply online_refl.
    - simpl. eapply online_trans; [apply perform_online|apply IH]. }
  exact (H creds).
Qed.

Lemma remote_mode_keeps_the_storage_witness :
  let w' :=
    perform_all
      [Publish; List_news; Delete (JStr "kept"); Save (Demo.post "user" "a");
       Upload {| file_name := "a.png"; file_type := "image/png" |}; Clear_all;
       Render_admin]
      SaveDown.w in
  credentials w' = Normal (JStr "https://db.example/", JStr "anon")
  /\ localStorage w' = localStorage SaveDown.w.
Proof.
  apply (remote_mode_keeps_the_storage _ SaveDown.w).
  - vm_compute. reflexivity.
  - reflexivity.
Defined.

(* ===================================================================== *)
(** ** Listing, again *)
(* ===================================================================== *)

Lemma stored_news_throws (w : World) (e : exn) :
  stored_news w = Throw e ->
  exists text, news_text w = Some text /\ JSON_parse text = Throw e.
Proof.
  unfold stored_news. destruct (news_text w) as [text|]; [|discriminate].
  intros H. exists text. auto.
Qed.

Lemma credentials_never_throw (w : World) (e : exn) : credentials w <> Throw e.
Proof.
  rewrite credentials_as_built. unfold resolve_as_built.
  destruct (qualifies _); [discriminate|].
  destruct (truthy _); [discriminate|].
  destruct (settings_text w) as [text|]; [|discriminate].
  destruct (JSON_parse text) as [settings| |]; try discriminate.
  destruct (nullish settings); discriminate.
Qed.

(** Where [getNews] has fallen back on the storage. *)
Ltac fell_back H :=
  solve [discriminate H
        |unfold bind, console_log, throw in H;
         rewrite read_local_news_spec in H; exact H].

(** X10: [getNews] throws for one reason only, a text in the slot of the news
    that [JSON.parse] refuses. *)
Theorem getNews_throws_only_for_stored_text (w : World) (e : exn) :
  fst (getNews w) = Throw e ->
  exists text, news_text w = Some text /\ JSON_parse text = Throw e.
Proof.
  intros H. apply stored_news_throws.
  unfold getNews, bind at 1 in H. rewrite getSupabaseCredentials_pure in H.
  destruct (credentials w) as [[url key]|e'|] eqn:Hc;
    [|destruct (credentials_never_throw w e' Hc)|discriminate H].
  destruct (local_mode (url, key)) eqn:Hl; [fell_back H|].
  unfold try_catch, bind at 1 in H. unfold lift at 1 in H.
  destruct (replace_trailing_slash url) as [base| |] eqn:Hb; try fell_back H.
  unfold bind at 1 in H. unfold lift at 1 in H.
  destruct (auth_headers key) as [headers| |] eqn:Hh; try fell_back H.
  unfold bind at 1 in H. unfold fetch in H.
  destruct (remote w (requests w) (list_request base headers)) as [|[|] text];
    try fell_back H.
  unfold bind at 1 in H. unfold lift at 1 in H.
  destruct (JSON_parse text) as [data| |]; try fell_back H.
  unfold lift in H.
  destruct (array_map news_of_row data) as [rows| |]; try fell_back H.
Qed.

Lemma getNews_throws_only_for_stored_text_witness :
  exists text, news_text Malformed.w = Some text /\ JSON_parse text = Throw SyntaxError.
Proof.
  apply (getNews_throws_only_for_stored_text Malformed.w SyntaxError).
  vm_compute. reflexivity.
Defined.

(** The world [getNews] leaves. *)
Ltac listed :=
  unfold bind, console_log, throw; rewrite ?read_local_news_spec;
  do 2 eexists; split; [reflexivity|];
  cbn [localStorage alerts page requests with_console with_requests];
  repeat split;
  first [left; reflexivity
        |right; eexists; split; [reflexivity | split; reflexivity]].

(** X11: [getNews] writes nothing, shows nothing, leaves the page alone, and
    sends at most one request, which asks for the list. *)
Theorem getNews_asks_at_most_once (w : World) :
  let w' := snd (getNews w) in
  localStorage w' = localStorage w
  /\ alerts w' = alerts w
  /\ page w' = page w
  /\ (requests w' = requests w
      \/ exists r, requests w' = requests w ++ [r] /\ is_listing r).
Proof.
  assert (exists r w', getNews w = (r, w')
            /\ localStorage w' = localStorage w
            /\ alerts w' = alerts w
            /\ page w' = page w
            /\ (requests w' = requests w
                \/ exists r, requests w' = requests w ++ [r] /\ is_listing r))
    as (r & w' & -> & H); [|exact H].
  unfold getNews, bind at 1. rewrite getSupabaseCredentials_pure.
  destruct (credentials w) as [[url key]|e'|] eqn:Hc; try solve [listed].
  destruct (local_mode (url, key)) eqn:Hl; [solve [listed]|].
  unfold try_catch, bind at 1. unfold lift at 1.
  destruct (replace_trailing_slash url) as [base| |] eqn:Hb; try solve [listed].
  unfold bind at 1. unfold lift at 1.
  destruct (auth_headers key) as [headers| |] eqn:Hh; try solve [listed].
  unfold bind at 1. unfold fetch.
  destruct (remote w (requests w) (list_request base headers)) as [|[|] text];
    try solve [listed].
  unfold bind at 1. unfold lift at 1.
  destruct (JSON_parse text) as [data| |]; try solve [listed].
  unfold lift.
  destruct (array_map news_of_row data) as [rows| |]; solve [listed].
Qed.

Lemma map_completion_rows (rows : list value) :
  Forall (fun row => nullish row = false) rows ->
  exists items,
    map_completion news_of_row rows = Normal items
    /\ Forall2 (fun row item => news_of_row row = Normal item) rows items.
Proof.
  induction 1 as [|row rows Hrow _ (items & Hmap & Hall)].
  - exists []. split; [reflexivity|constructor].
  - assert (exists item, news_of_row row = Normal item) as [item Hitem]
      by (destruct row; try discriminate Hrow; eexists; reflexivity).
    exists (item :: items). split.
    + cbn [map_completion]. rewrite Hitem, Hmap. reflexivity.
    + constructor; assumption.
Qed.

(** X12: when the remote store answers the request for the list with an array
    of rows, [getNews] returns one item for each row, in the order of the
    reply, whatever the storage of the browser holds. *)
Theorem getNews_lists_the_reply (w : World) (url key : value) (base : string)
  (headers : list (string * value)) (text : string) (rows : list value) :
  credentials w = Normal (url, key) ->
  local_mode (url, key) = false ->
  replace_trailing_slash url = Normal base ->
  auth_headers key = Normal headers ->
  remote w (requests w) (list_request base headers) = Response true text ->
  JSON_parse text = Normal (JArr rows) ->
  Forall (fun row => nullish row = false) rows ->
  exists items,
    fst (getNews w) = Normal (JArr items)
    /\ Forall2 (fun row item => news_of_row row = Normal item) rows items.
Proof.
  intros Hc Hl Hb Hh Hr Hp Hrows.
  destruct (map_completion_rows rows Hrows) as (items & Hmap & Hall).
  exists items. split; [|exact Hall].
  unfold getNews, bind at 1. rewrite getSupabaseCredentials_pure, Hc, Hl.
  unfold try_catch, bind at 1. unfold lift at 1. rewrite Hb.
  unfold bind at 1. unfold lift at 1. rewrite Hh.
  unfold bind at 1. unfold fetch. rewrite Hr.
  unfold bind at 1. unfold lift at 1. rewrite Hp.
  unfold lift, array_map. rewrite Hmap. reflexivity.
Qed.

Lemma getNews_lists_the_reply_witness :
  exists items,
    fst (getNews Listing.w) = Normal (JArr items)
    /\ Forall2 (fun row item => news_of_row row = Normal item) Listing.rows items.
Proof.
  apply (getNews_lists_the_reply Listing.w (JStr "https://db.example/") (JStr "anon")
           "https://db.example"
           [("apikey", JStr "anon"); ("Authorization", JStr "Bearer anon")]%string
           Listing.reply Listing.rows).
  - vm_compute. reflexivity.
  - reflexivity.
  - reflexivity.
  - reflexivity.
  - reflexivity.
  - vm_compute. reflexivity.
  - repeat constructor.
Defined.

(* ===================================================================== *)
(** ** Saving, again *)
(* ===================================================================== *)

(** X13: the row [saveNews] sends for an item, listed back by [getNews], has
    the eight fields of the item as they were, the date among them, and no
    id: that is for the remote store to give. *)
Theorem posted_row_reads_back_as_the_item (item : value) :
  nullish item = false ->
  exists payload listed,
    payload_of item = Normal payload
    /\ news_of_row payload = Normal listed
    /\ (forall k, In k item_fields -> get_prop listed k = get_prop item k)
    /\ get_prop listed "id" = Normal JUndefined.
Proof.
  intros Hn.
  destruct item; try discriminate Hn;
    (eexists; eexists; split; [reflexivity|]; split; [reflexivity|]; split;
     [|reflexivity];
     intros k Hk; unfold item_fields in Hk; cbn [In] in Hk;
     repeat (destruct Hk as [<-|Hk]; [reflexivity|]); destruct Hk).
Qed.

Lemma posted_row_reads_back_as_the_item_witness :
  exists payload listed,
    payload_of RoundTrip.item = Normal payload
    /\ news_of_row payload = Normal listed
    /\ (forall k, In k item_fields -> get_prop listed k = get_prop RoundTrip.item k)
    /\ get_prop listed "id" = Normal JUndefined.
Proof. apply (posted_row_reads_back_as_the_item RoundTrip.item). reflexivity. Defined.

(** X14: in local mode, a slot of the news that holds JSON but no array is
    listed as it is, and stops [saveNews] and [deleteNews] with nothing
    written. *)
Theorem slot_that_is_no_array_stops_writes (w : World) (item id v : value) :
  in_local_mode w = true ->
  stored_news w = Normal v ->
  (forall items, v <> JArr items) ->
  fst (getNews w) = Normal v
  /\ saveNews item w = (Throw TypeError, w)
  /\ (confirm_answer w = true -> deleteNews id w = (Throw TypeError, w)).
Proof.
  intros Hm Hs Hv. split; [|split].
  - rewrite (getNews_local w Hm). exact Hs.
  - rewrite (saveNews_local item w Hm), Hs.
    destruct v; try reflexivity. destruct (Hv items eq_refl).
  - intros Hc. rewrite (deleteNews_local id w Hm Hc), Hs.
    destruct v; try reflexivity. destruct (Hv items eq_refl).
Qed.

Lemma slot_that_is_no_array_stops_writes_witness :
  fst (getNews NoArray.w) = Normal (JObj [])
  /\ saveNews (Demo.post "admin" "a") NoArray.w = (Throw TypeError, NoArray.w)
  /\ (confirm_answer NoArray.w = true ->
      deleteNews (JStr "a") NoArray.w = (Throw TypeError, NoArray.w)).
Proof.
  apply (slot_that_is_no_array_stops_writes NoArray.w).
  - vm_compute. reflexivity.
  - vm_compute. reflexivity.
  - discriminate.
Defined.

(* ===================================================================== *)
(** ** Deleting, again *)
(* ===================================================================== *)

Lemma answers_refl w : answers_as_before w w.
Proof. split; reflexivity. Qed.

Lemma answers_trans w1 w2 w3 :
  answers_as_before w1 w2 -> answers_as_before w2 w3 -> answers_as_before w1 w3.
Proof. intros [] []. split; congruence. Qed.

#[local] Hint Resolve answers_refl answers_trans : stable.

(** The steps that do not reach the visitor. *)
Ltac answers_untouched :=
  intros w; rewrite ?getSupabaseCredentials_pure;
  unfold fetch, set_button, button_text;
  repeat match goal with
         | |- context [match ?x with _ => _ end] => destruct x
         end;
  split; reflexivity.

Lemma renderNewsAdmin_answers : stable answers_as_before renderNewsAdmin.
Proof.
  unfold renderNewsAdmin, getNews, read_local_news. stable_auto.
  all: answers_untouched.
Qed.

Lemma filter_filter {A} (p : A -> bool) (l : list A) :
  List.filter p (List.filter p l) = List.filter p l.
Proof.
  induction l as [|x l IH]; [reflexivity|]. cbn [List.filter].
  destruct (p x) eqn:Hx; [|exact IH]. cbn [List.filter]. rewrite Hx, IH. reflexivity.
Qed.

(** Deleting in local mode, with what it leaves for the call after it. *)
Lemma deleteNews_local_outcome (w : World) (id : value) (t : string)
  (items : list value) :
  in_local_mode w = true ->
  confirm_answer w = true ->
  stored_news w = Normal (JArr items) ->
  forallb has_id items = true ->
  call_toString id = Normal t ->
  let kept := List.filter (fun item => negb (id_is t item)) items in
  exists w',
    deleteNews id w = (Normal tt, w')
    /\ localStorage w'
       = <["mh_news_data"%string := JSON_stringify (JArr kept)]> (localStorage w)
    /\ stored_news w' = Normal (JArr kept)
    /\ in_local_mode w' = true
    /\ confirm_answer w' = true.
Proof.
  intros Hmode Hsure Hstored Hids Hid kept.
  assert (clean (JArr kept) = true) as Hclean.
  { apply stored_news_clean in Hstored. rewrite clean_array in *.
    apply forallb_filter. exact Hstored. }
  rewrite deleteNews_local by assumption. rewrite Hstored.
  unfold array_filter. rewrite (filter_by_id id t items Hid Hids). fold kept.
  set (w1 := with_localStorage _ w).
  assert (in_local_mode w1 = true) as Hmode1
    by (subst w1; rewrite in_local_mode_written; exact Hmode).
  pose proof (detached_renderNewsAdmin_local w1 (JArr kept)) as Hshown.
  pose proof (stable_detached keeps_storage _ renderNewsAdmin_keeps_storage w1) as Hkeep.
  pose proof (stable_detached offline _ renderNewsAdmin_offline w1 Hmode1) as [Hoff _].
  pose proof (stable_detached answers_as_before _ renderNewsAdmin_answers w1) as [Hans _].
  unfold keeps_storage in Hkeep.
  destruct (detached renderNewsAdmin w1) as [r w'].
  cbn [fst snd] in *. exists w'.
  rewrite Hshown.
  - split; [reflexivity|]. split; [exact Hkeep|]. split; [|split].
    + rewrite (stored_news_ext w' w1 Hkeep). apply stored_news_written. exact Hclean.
    + exact Hoff.
    + rewrite Hans. exact Hsure.
  - exact Hmode1.
  - apply stored_news_written. exact Hclean.
Qed.

(** X15: in local mode, deleting the same id a second time changes nothing:
    the slot holds what the first deletion left. *)
Theorem deleteNews_twice_is_once (w : World) (id : value) (t : string)
  (items : list value) :
  in_local_mode w = true ->
  confirm_answer w = true ->
  stored_news w = Normal (JArr items) ->
  forallb has_id items = true ->
  call_toString id = Normal t ->
  exists w1 w2,
    deleteNews id w = (Normal tt, w1)
    /\ deleteNews id w1 = (Normal tt, w2)
    /\ localStorage w2 = localStorage w1
    /\ stored_news w2 = stored_news w1.
Proof.
  intros Hmode Hsure Hstored Hids Hid.
  destruct (deleteNews_local_outcome w id t items Hmode Hsure Hstored Hids Hid)
    as (w1 & Hrun1 & Hls1 & Hst1 & Hmode1 & Hsure1).
  assert (forallb has_id (List.filter (fun item => negb (id_is t item)) items) = true)
    as Hids1 by (apply forallb_filter; exact Hids).
  destruct (deleteNews_local_outcome w1 id t _ Hmode1 Hsure1 Hst1 Hids1 Hid)
    as (w2 & Hrun2 & Hls2 & Hst2 & _ & _).
  rewrite filter_filter in Hls2, Hst2.
  exists w1, w2. split; [exact Hrun1|]. split; [exact Hrun2|]. split.
  - rewrite Hls2, Hls1. apply insert_insert_eq.
  - rewrite Hst2, Hst1. reflexivity.
Qed.

Lemma deleteNews_twice_is_once_witness :
  exists w1 w2,
    deleteNews (JNum 7) Delete.w = (Normal tt, w1)
    /\ deleteNews (JNum 7) w1 = (Normal tt, w2)
    /\ localStorage w2 = localStorage w1
    /\ stored_news w2 = stored_news w1.
Proof.
  apply (deleteNews_twice_is_once Delete.w (JNum 7) "7"
           [Delete.seven; Delete.eight; Delete.seven_number]).
  - reflexivity.
  - reflexivity.
  - vm_compute. reflexivity.
  - reflexivity.
  - reflexivity.
Defined.

Lemma filter_none {A} (p : A -> bool) (l : list A) :
  forallb p l = true -> List.filter p l = l.
Proof.
  induction l as [|x l IH]; [reflexivity|]. cbn [forallb List.filter].
  intros [Hx Hl]%andb_true_iff. rewrite Hx, IH by assumption. reflexivity.
Qed.

(** X16: in local mode, on a store where every item has an id, saving an
    item whose id, as text, no stored item has, and deleting that id,
    once the visitor has confirmed, gives back the sequence that was
    stored.  The id that is deleted is a value whose text is the one
    JavaScript gives. *)
Theorem save_then_delete_restores (w : World) (item id : value) (t : string)
  (items : list value) :
  in_local_mode w = true ->
  confirm_answer w = true ->
  stored_news w = Normal (JArr items) ->
  forallb has_id items = true ->
  forallb (fun stored => negb (id_is t stored)) items = true ->
  clean item = true ->
  id_text item = Normal t ->
  exact_text id = true ->
  call_toString id = Normal t ->
  exists w1 w2,
    saveNews item w = (Normal true, w1)
    /\ stored_news w1 = Normal (JArr (items ++ [item]))
    /\ deleteNews id w1 = (Normal tt, w2)
    /\ stored_news w2 = Normal (JArr items).
Proof.
  intros Hmode Hsure Hstored Hids Hfresh Hclean Hitem _ Hid.
  assert (clean (JArr (items ++ [item])) = true) as Hall.
  { apply stored_news_clean in Hstored. rewrite clean_array in *.
    rewrite forallb_app, Hstored. cbn [forallb]. rewrite Hclean. reflexivity. }
  rewrite saveNews_local by assumption. rewrite Hstored. cbn [array_push].
  set (w1 := with_localStorage _ w).
  assert (stored_news w1 = Normal (JArr (items ++ [item]))) as Hst1
    by (apply stored_news_written; exact Hall).
  assert (in_local_mode w1 = true) as Hmode1
    by (subst w1; rewrite in_local_mode_written; exact Hmode).
  assert (forallb has_id (items ++ [item]) = true) as Hids1.
  { rewrite forallb_app, Hids. cbn [forallb]. unfold has_id. rewrite Hitem. reflexivity. }
  destruct (deleteNews_local_outcome w1 id t _ Hmode1 Hsure Hst1 Hids1 Hid)
    as (w2 & Hrun2 & _ & Hst2 & _ & _).
  exists w1, w2. split; [reflexivity|]. split; [exact Hst1|]. split; [exact Hrun2|].
  rewrite Hst2. do 2 f_equal.
  rewrite List.filter_app, (filter_none _ items Hfresh). cbn [List.filter].
  unfold id_is at 1. rewrite Hitem, String.eqb_refl. cbn [negb]. apply app_nil_r.
Qed.

Lemma save_then_delete_restores_witness :
  exists w1 w2,
    saveNews (Demo.post "user" "9") Delete.w = (Normal true, w1)
    /\ stored_news w1
       = Normal (JArr ([Delete.seven; Delete.eight; Delete.seven_number]
                       ++ [Demo.post "user" "9"]))
    /\ deleteNews (JNum 9) w1 = (Normal tt, w2)
    /\ stored_news w2 = Normal (JArr [Delete.seven; Delete.eight; Delete.seven_number]).
Proof.
  apply (save_then_delete_restores Delete.w (Demo.post "user" "9") (JNum 9) "9"
           [Delete.seven; Delete.eight; Delete.seven_number]).
  - reflexivity.
  - reflexivity.
  - vm_compute. reflexivity.
  - reflexivity.
  - reflexivity.
  - reflexivity.
  - reflexivity.
  - reflexivity.
  - reflexivity.
Defined.



(* ===================================================================== *)
(** ** Uploading a file *)
(* ===================================================================== *)

(** X18: [uploadFile] never throws.  In local mode it returns [null] and does
    nothing.  When it returns an address, that is the public address, at
    the store's, of the name under which it has just sent the file, in a
    POST that the store has accepted. *)
Theorem uploadFile_answers (file : File) (w : World) :
  (in_local_mode w = true -> uploadFile file w = (Normal None, w))
  /\ (forall e, fst (uploadFile file w) <> Throw e)
  /\ (forall address,
        fst (uploadFile file w) = Normal (Some address) ->
        exists base request,
          address
          = base +:+ "/storage/v1/object/public/news-images/" +:+ upload_name w file
          /\ requests (snd (uploadFile file w)) = requests w ++ [request]
          /\ uploaded w file base (upload_name w file) request).
Proof.
  split.
  { intros (creds & Hc & Hl)%in_local_mode_credentials.
    unfold uploadFile, bind. rewrite getSupabaseCredentials_pure, Hc.
    destruct creds as [url key]. rewrite Hl. reflexivity. }
  assert (exists r w1,
             uploadFile file w = (r, w1)
             /\ (forall e, r <> Throw e)
             /\ (forall address,
                   r = Normal (Some address) ->
                   exists base request,
                     address
                     = base +:+ "/storage/v1/object/public/news-images/"
                       +:+ upload_name w file
                     /\ requests w1 = requests w ++ [request]
                     /\ uploaded w file base (upload_name w file) request))
    as (r & w1 & -> & Hgoal); [|exact Hgoal].
  unfold uploadFile, bind at 1. rewrite getSupabaseCredentials_pure.
  destruct (credentials w) as [[url key]|e'|] eqn:Hc;
    [|destruct (credentials_never_throw w e' Hc)
     |do 2 eexists; split; [reflexivity|]; split; [discriminate|discriminate]].
  destruct (local_mode (url, key)) eqn:Hl;
    [do 2 eexists; split; [reflexivity|]; split; [discriminate|discriminate]|].
  unfold bind at 1. unfold try_catch, bind at 1. unfold lift at 1.
  fold (upload_name w file).
  destruct (replace_trailing_slash url) as [base| |] eqn:Hb;
    [|do 2 eexists; split; [reflexivity|]; split; [discriminate|discriminate]
     |destruct url; discriminate Hb].
  unfold bind at 1. unfold lift at 1.
  destruct (auth_headers key) as [headers| |] eqn:Hh;
    [|do 2 eexists; split; [reflexivity|]; split; [discriminate|discriminate]
     |unfold auth_headers, to_string in Hh; destruct (to_chars key); discriminate Hh].
  unfold bind at 1. unfold fetch.
  cbn [requests with_names_made remote].
  match goal with
  | |- context [remote w (requests w) ?request] =>
      set (sent := request);
      destruct (remote w (requests w) sent) as [|[|] text] eqn:Hr
  end.
  - do 2 eexists. split; [reflexivity|]. split; discriminate.
  - unfold bind, lift, ret.
    do 2 eexists. split; [reflexivity|]. split; [discriminate|].
    intros address [= <-]. exists base, sent.
    split; [reflexivity|]. split; [reflexivity|].
    split; [reflexivity|]. split; [reflexivity|]. split; [reflexivity|].
    exists text. exact Hr.
  - do 2 eexists. split; [reflexivity|]. split; discriminate.
Qed.

Lemma uploadFile_answers_witness :
  exists base request,
    "https://db.example/storage/v1/object/public/news-images/1714557600000_0.png"%string
    = base +:+ "/storage/v1/object/public/news-images/"
      +:+ upload_name ClearRemote.w {| file_name := "a.b.png"; file_type := "" |}
    /\ requests (snd (uploadFile {| file_name := "a.b.png"; file_type := "" |} ClearRemote.w))
       = requests ClearRemote.w ++ [request]
    /\ uploaded ClearRemote.w {| file_name := "a.b.png"; file_type := "" |} base
         (upload_name ClearRemote.w {| file_name := "a.b.png"; file_type := "" |}) request.
Proof.
  apply (proj2 (proj2 (uploadFile_answers {| file_name := "a.b.png"; file_type := "" |}
                         ClearRemote.w))).
  vm_compute. reflexivity.
Defined.

(* ===================================================================== *)
(** ** Publishing, again *)
(* ===================================================================== *)

(** X19: a draft without a title, a content or a PIN is refused with the
    message for what is missing, and nothing else happens, whatever the
    PIN; the administrator's is not even looked at. *)
Theorem incomplete_draft_is_refused (w : World) (tv cv pv : string) :
  news_title (page w) = Some tv ->
  news_content (page w) = Some cv ->
  publish_pin (page w) = Some pv ->
  trim tv = ""%string \/ trim cv = ""%string \/ trim pv = ""%string ->
  handleAddNews w
  = (Normal tt, with_alerts (alerts w ++ [rejection_message tv cv pv]) w).
Proof.
  intros Ht Hc Hp Hempty.
  unfold handleAddNews, bind at 1. unfold get_page. rewrite Ht, Hc, Hp.
  unfold rejection_message.
  destruct (String.eqb (trim tv) "" || String.eqb (trim cv) "") eqn:Hdraft;
    [reflexivity|].
  apply orb_false_iff in Hdraft as [Htv Hcv].
  apply String.eqb_neq in Htv, Hcv.
  destruct Hempty as [H|[H|H]]; try contradiction.
  rewrite H. reflexivity.
Qed.

Lemma incomplete_draft_is_refused_witness :
  handleAddNews WrongPin.w
  = (Normal tt,
     with_alerts (alerts WrongPin.w ++ [rejection_message "  " "World" "9999"]) WrongPin.w).
Proof.
  apply (incomplete_draft_is_refused WrongPin.w "  " "World" "9999").
  - reflexivity.
  - reflexivity.
  - reflexivity.
  - left. reflexivity.
Defined.

Lemma uploadFile_local (file : File) (w : World) :
  in_local_mode w = true -> uploadFile file w = (Normal None, w).
Proof.
  intros (creds & Hc & Hl)%in_local_mode_credentials.
  unfold uploadFile, bind. rewrite getSupabaseCredentials_pure, Hc.
  destruct creds as [url key]. rewrite Hl. reflexivity.
Qed.

(** The steps of [publish] after [saveNews] keep the storage. *)
Lemma after_saving_keeps_storage (success : bool) (originalText : string) :
  stable keeps_storage
    ((if success then
        clear_form ;;
        renderNewsAdmin ;;
        alert "News item published!"
      else ret tt) ;;
     set_button (Some originalText) (Some false)).
Proof.
  pose proof renderNewsAdmin_keeps_storage.
  stable_auto.
Qed.

(** The button while a file is sent, in local mode. *)
Lemma upload_step_local (w : World) (b : Button) (label : string)
  (input : option File) :
  in_local_mode w = true ->
  btn_add_news (page w) = Some b ->
  exists w' b',
    (match input with
     | Some f =>
         set_button (Some label) None ;;
         let* uploadedUrl := uploadFile f in
         ret (match present uploadedUrl with Some u => u | None => ""%string end)
     | None => ret ""%string
     end) w = (Normal ""%string, w')
    /\ in_local_mode w' = true
    /\ btn_add_news (page w') = Some b'
    /\ localStorage w' = localStorage w
    /\ clock w' = clock w
    /\ news_link (page w') = news_link (page w).
Proof.
  intros Hm Hb. destruct input as [f|].
  - unfold bind at 1. unfold set_button. rewrite Hb.
    unfold bind. rewrite uploadFile_local
      by (rewrite <- Hm; apply in_local_mode_ext; reflexivity).
    do 2 eexists. split; [reflexivity|].
    split; [rewrite <- Hm; apply in_local_mode_ext; reflexivity|].
    split; [reflexivity|]. split; [reflexivity|]. split; reflexivity.
  - exists w, b. split; [reflexivity|]. auto.
Qed.

Lemma publish_local (w : World) (role authorName title content link_url : string)
  (b : Button) (items : list value) :
  in_local_mode w = true ->
  btn_add_news (page w) = Some b ->
  stored_news w = Normal (JArr items) ->
  let item :=
    JObj [("title", JStr title); ("content", JStr content);
          ("author", JStr authorName); ("date", JStr (clock w));
          ("image_url", JStr ""); ("video_url", JStr "");
          ("link_url", JStr link_url); ("publisher_role", JStr role)]%string in
  localStorage (snd (publish role authorName title content link_url w))
  = <["mh_news_data"%string := JSON_stringify (JArr (items ++ [item]))]> (localStorage w).
Proof.
  intros Hm Hb Hs item.
  assert (exists r w',
             publish role authorName title content link_url w = (r, w')
             /\ localStorage w'
                = <["mh_news_data"%string := JSON_stringify (JArr (items ++ [item]))]>
                    (localStorage w))
    as (r & w' & -> & H); [|exact H].
  unfold publish, bind at 1. unfold get_page.
  unfold bind at 1. unfold button_text. rewrite Hb.
  unfold bind at 1. unfold set_button at 1. rewrite Hb.
  match goal with
  | |- context [with_page ?p w] => set (w1 := with_page p w)
  end.
  assert (in_local_mode w1 = true) as Hm1
    by (rewrite <- Hm; apply in_local_mode_ext; reflexivity).
  unfold bind at 1.
  destruct (upload_step_local w1 _ "Uploading Image..."
              (first_file (news_image (page w))) Hm1 eq_refl)
    as (w2 & b2 & -> & Hm2 & Hb2 & Hls2 & Hck2 & _).
  unfold bind at 1.
  destruct (upload_step_local w2 b2 "Uploading Video..."
              (first_file (news_video (page w))) Hm2 Hb2)
    as (w3 & b3 & -> & Hm3 & Hb3 & Hls3 & Hck3 & _).
  unfold bind at 1. unfold set_button at 1. rewrite Hb3.
  match goal with
  | |- context [with_page ?p w3] => set (w4 := with_page p w3)
  end.
  unfold bind at 1.
  assert (in_local_mode w4 = true) as Hm4
    by (rewrite <- Hm3; apply in_local_mode_ext; reflexivity).
  assert (clock w4 = clock w) as Hck4
    by (change (clock w4) with (clock w3); rewrite Hck3, Hck2; reflexivity).
  assert (localStorage w4 = localStorage w) as Hls4
    by (change (localStorage w4) with (localStorage w3); rewrite Hls3, Hls2; reflexivity).
  rewrite Hck4. fold item.
  unfold bind at 1. rewrite (saveNews_local item w4 Hm4).
  rewrite (stored_news_ext w4 w Hls4), Hs. cbn [array_push].
  match goal with
  | |- context [with_localStorage ?ls w4] => set (w5 := with_localStorage ls w4)
  end.
  pose proof (after_saving_keeps_storage true (textContent b) w5) as Hkeep.
  unfold keeps_storage in Hkeep.
  match type of Hkeep with
  | localStorage (snd ?run) = _ => destruct run as [r w6] eqn:Hrun
  end.
  exists r, w6. split.
  - reflexivity.
  - cbn [snd] in Hkeep. rewrite Hkeep. subst w5. cbn [localStorage with_localStorage].
    rewrite Hls4. reflexivity.
Qed.

Lemma count_user_posts_modelled (listing : value) :
  count_user_posts listing <> Unmodelled.
Proof.
  unfold count_user_posts, array_filter.
  destruct listing as [| | | | |items|]; try discriminate.
  assert (filter_completion
            (fun n =>
               match get_prop n "publisher_role" with
               | Normal r => Normal (strict_eq_str "user" r)
               | Throw e => Throw e
               | Unmodelled => Unmodelled
               end) items <> Unmodelled) as H.
  { induction items as [|x items IH]; [discriminate|].
    cbn [filter_completion].
    destruct (get_prop x "publisher_role") as [r|e|] eqn:Hx;
      [|discriminate|destruct x; discriminate Hx].
    destruct (filter_completion _ items); [discriminate|discriminate|contradiction]. }
  destruct (filter_completion _ items); [discriminate|discriminate|contradiction].
Qed.

Lemma local_item_clean (w : World) (role authorName tv cv : string) :
  clean (local_item w role authorName tv cv) = true.
Proof. reflexivity. Qed.

(** Where a draft goes in local mode, once the PIN has given a role and the
    count of the user's items has not stopped it. *)
Lemma handleAddNews_local_storage (w : World) (tv cv pv role authorName : string)
  (b : Button) (items : list value) :
  in_local_mode w = true ->
  news_title (page w) = Some tv ->
  news_content (page w) = Some cv ->
  publish_pin (page w) = Some pv ->
  trim tv <> ""%string -> trim cv <> ""%string -> trim pv <> ""%string ->
  auth_check (window w) (hashPassword (window w) (trim pv)) = Some (role, authorName) ->
  (role = "user"%string ->
   forall n, count_user_posts (JArr items) = Normal n -> (n < 5)%nat) ->
  btn_add_news (page w) = Some b ->
  stored_news w = Normal (JArr items) ->
  let item := local_item w role authorName tv cv in
  let w' := snd (handleAddNews w) in
  localStorage w'
  = <["mh_news_data"%string := JSON_stringify (JArr (items ++ [item]))]> (localStorage w).
Proof.
  intros Hm Ht Hc Hp Htv Hcv Hpv Hauth Hquota Hb Hs item w'.
  { subst w'. rewrite (handleAddNews_checked w tv cv pv) by assumption.
    rewrite Hauth.
    assert (exists w1,
               limit_check role w = (Normal false, w1)
               /\ in_local_mode w1 = true
               /\ page w1 = page w
               /\ localStorage w1 = localStorage w
               /\ clock w1 = clock w) as (w1 & Hlimit & Hm1 & Hpg1 & Hls1 & Hck1).
    { destruct (String.eqb_spec role "user") as [->|Hrole].
      - pose proof (getNews_local w Hm) as Hlist. rewrite Hs in Hlist.
        destruct (count_user_posts (JArr items)) as [n|e|] eqn:Hcount.
        + rewrite (limit_check_listing w _ (JArr items) n Hlist Hcount).
          specialize (Hquota eq_refl n eq_refl).
          destruct (Nat.leb_spec 5 n) as [Hn|_]; [lia|].
          eexists. split; [reflexivity|].
          split; [rewrite <- Hm; apply in_local_mode_ext; reflexivity|].
          split; [reflexivity|]. split; reflexivity.
        + rewrite (limit_check_count_throws w _ (JArr items) e Hlist Hcount).
          eexists. split; [reflexivity|].
          split; [rewrite <- Hm; apply in_local_mode_ext; reflexivity|].
          split; [reflexivity|]. split; reflexivity.
        + destruct (count_user_posts_modelled _ Hcount).
      - rewrite (limit_check_other role w Hrole).
        exists w. split; [reflexivity|]. auto. }
    unfold bind at 1. rewrite Hlimit.
    rewrite (publish_local w1 role authorName (trim tv) (trim cv) (draft_link (page w))
               b items Hm1);
      [rewrite Hck1, Hls1; reflexivity
      |rewrite Hpg1; exact Hb
      |rewrite (stored_news_ext w1 w Hls1); exact Hs]. }
Qed.

(** A world whose storage is that of [w] with one more item in the slot of
    the news reads back the stored sequence with the item at its end. *)
Lemma stored_news_appended (w w' : World) (items : list value) (item : value) :
  stored_news w = Normal (JArr items) ->
  clean item = true ->
  localStorage w'
  = <["mh_news_data"%string := JSON_stringify (JArr (items ++ [item]))]> (localStorage w) ->
  stored_news w' = Normal (JArr (items ++ [item])).
Proof.
  intros Hs Hitem Hls.
  rewrite (stored_news_ext w'
             (with_localStorage
                (<["mh_news_data"%string := JSON_stringify (JArr (items ++ [item]))]>
                   (localStorage w)) w)) by exact Hls.
  apply stored_news_written.
  apply stored_news_clean in Hs. rewrite clean_array in *.
  rewrite forallb_app, Hs. cbn [forallb]. rewrite Hitem. reflexivity.
Qed.



(** X20: in local mode a complete draft with a PIN that gives a role, and for
    a user a count below the quota, ends in the slot of the news: the
    stored sequence with the new item at its end, its title and content
    trimmed, its link with a scheme, its date the time of the call, and no
    address of a picture or of a video, whatever file was attached. *)
Theorem local_publish_stores_the_draft (w : World) (tv cv pv role authorName : string)
  (b : Button) (items : list value) :
  in_local_mode w = true ->
  news_title (page w) = Some tv ->
  news_content (page w) = Some cv ->
  publish_pin (page w) = Some pv ->
  trim tv <> ""%string -> trim cv <> ""%string -> trim pv <> ""%string ->
  auth_check (window w) (hashPassword (window w) (trim pv)) = Some (role, authorName) ->
  (role = "user"%string ->
   forall n, count_user_posts (JArr items) = Normal n -> (n < 5)%nat) ->
  btn_add_news (page w) = Some b ->
  stored_news w = Normal (JArr items) ->
  let item := local_item w role authorName tv cv in
  let w' := snd (handleAddNews w) in
  localStorage w'
  = <["mh_news_data"%string := JSON_stringify (JArr (items ++ [item]))]> (localStorage w)
  /\ stored_news w' = Normal (JArr (items ++ [item])).
Proof.
  intros Hm Ht Hc Hp Htv Hcv Hpv Hauth Hquota Hb Hs item w'.
  pose proof (handleAddNews_local_storage w tv cv pv role authorName b items
                Hm Ht Hc Hp Htv Hcv Hpv Hauth Hquota Hb Hs) as Hls.
  split; [exact Hls|].
  apply (stored_news_appended w w' items item Hs); [|exact Hls].
  apply local_item_clean.
Qed.

Lemma local_publish_stores_the_draft_witness :
  let item := local_item LocalPublish.w "user" "User" " Hi " "World" in
  let w' := snd (handleAddNews LocalPublish.w) in
  localStorage w'
  = <["mh_news_data"%string := JSON_stringify (JArr ([] ++ [item]))]>
      (localStorage LocalPublish.w)
  /\ stored_news w' = Normal (JArr ([] ++ [item])).
Proof.
  apply (local_publish_stores_the_draft LocalPublish.w " Hi " "World" "0000" "user" "User"
           {| textContent := "Publish"; disabled := false |} []).
  - vm_compute. reflexivity.
  - reflexivity.
  - reflexivity.
  - reflexivity.
  - discriminate.
  - discriminate.
  - discriminate.
  - reflexivity.
  - intros _ n [= <-]. lia.
  - reflexivity.
  - reflexivity.
Defined.

(** X21: on a page without the button of the form, a complete draft with the
    administrator's PIN stops with a TypeError before anything is
    uploaded, saved or shown. *)
Theorem publish_without_button_throws (w : World) (tv cv pv : string) :
  news_title (page w) = Some tv ->
  news_content (page w) = Some cv ->
  publish_pin (page w) = Some pv ->
  trim tv <> ""%string -> trim cv <> ""%string -> trim pv <> ""%string ->
  strict_eq_str (hashPassword (window w) (trim pv)) (ADMIN_PASSWORD_HASH (window w))
  = true ->
  btn_add_news (page w) = None ->
  handleAddNews w = (Throw TypeError, w).
Proof.
  intros Ht Hc Hp Htv Hcv Hpv Hadmin Hb.
  rewrite (handleAddNews_checked w tv cv pv) by assumption.
  unfold auth_check. rewrite Hadmin.
  unfold bind at 1. rewrite limit_check_other by discriminate.
  unfold publish, bind at 1. unfold get_page.
  unfold bind at 1. unfold button_text. rewrite Hb. reflexivity.
Qed.

Lemma publish_without_button_throws_witness :
  handleAddNews LocalPublish.no_button = (Throw TypeError, LocalPublish.no_button).
Proof.
  apply (publish_without_button_throws LocalPublish.no_button "Hi" "World" "1234").
  - reflexivity.
  - reflexivity.
  - reflexivity.
  - discriminate.
  - discriminate.
  - discriminate.
  - reflexivity.
  - reflexivity.
Defined.

(** X22: in local mode one entry of the stored sequence that is [null] lifts
    the quota: a user's draft is stored however many items of users the
    sequence holds. *)
Theorem null_entry_lifts_the_quota (w : World) (tv cv pv : string) (b : Button)
  (before after : list value) :
  in_local_mode w = true ->
  news_title (page w) = Some tv ->
  news_content (page w) = Some cv ->
  publish_pin (page w) = Some pv ->
  trim tv <> ""%string -> trim cv <> ""%string -> trim pv <> ""%string ->
  strict_eq_str (hashPassword (window w) (trim pv)) (ADMIN_PASSWORD_HASH (window w))
  = false ->
  strict_eq_str (hashPassword (window w) (trim pv)) (USER_PASSWORD_HASH (window w))
  = true ->
  btn_add_news (page w) = Some b ->
  stored_news w = Normal (JArr (before ++ JNull :: after)) ->
  stored_news (snd (handleAddNews w))
  = Normal (JArr ((before ++ JNull :: after) ++ [local_item w "user" "User" tv cv])).
Proof.
  intros Hm Ht Hc Hp Htv Hcv Hpv Hadmin Huser Hb Hs.
  apply (stored_news_appended w _ _ _ Hs); [apply local_item_clean|].
  apply (handleAddNews_local_storage w tv cv pv "user" "User" b); try assumption.
  - unfold auth_check. rewrite Hadmin, Huser. reflexivity.
  - intros _ n Hn. rewrite count_user_posts_null in Hn. discriminate Hn.
Qed.

Lemma null_entry_lifts_the_quota_witness :
  stored_news (snd (handleAddNews NullEntry.w))
  = Normal (JArr ((NullEntry.users ++ JNull :: [])
                  ++ [local_item NullEntry.w "user" "User" "Hi" "World"])).
Proof.
  apply (null_entry_lifts_the_quota NullEntry.w "Hi" "World" "0000"
           {| textContent := "Publish"; disabled := false |} NullEntry.users []).
  - vm_compute. reflexivity.
  - reflexivity.
  - reflexivity.
  - reflexivity.
  - discriminate.
  - discriminate.
  - discriminate.
  - reflexivity.
  - reflexivity.
  - reflexivity.
  - vm_compute. reflexivity.
Defined.

(* ===================================================================== *)
(** ** A listing that fails inside the check of the quota *)
(* ===================================================================== *)

Lemma same_form_refl w : same_form w w.
Proof. split; reflexivity. Qed.

Lemma same_form_trans w1 w2 w3 : same_form w1 w2 -> same_form w2 w3 -> same_form w1 w3.
Proof. intros [? ?] [? ?]. split; congruence. Qed.

Lemma same_form_console args : stable same_form (console_log args).
Proof. intros w. split; reflexivity. Qed.

Lemma same_form_getItem k : stable same_form (getItem k).
Proof. intros w. split; reflexivity. Qed.

Lemma same_form_fetch r : stable same_form (fetch r).
Proof. intros w. unfold fetch. destruct (remote _ _ _); split; reflexivity. Qed.

Lemma same_form_credentials : stable same_form getSupabaseCredentials.
Proof. intros w. rewrite getSupabaseCredentials_pure. apply same_form_refl. Qed.

#[local] Hint Resolve same_form_refl same_form_trans same_form_console
  same_form_getItem same_form_fetch same_form_credentials : stable.


Section Remote.
Variables (url key : value) (base : string) (headers : list (string * value)).
Hypothesis Hl : local_mode (url, key) = false.
Hypothesis Hb : replace_trailing_slash url = Normal base.
Hypothesis Hh : auth_headers key = Normal headers.




End Remote.







(** X23: in local mode the items saved one after another are listed after
    those that were stored, in the order in which they were saved and as
    they were handed over. *)
Theorem saved_items_are_listed_in_order (w : World) (items added : list value) :
  in_local_mode w = true ->
  stored_news w = Normal (JArr items) ->
  forallb clean added = true ->
  fst (getNews (perform_all (map Save added) w)) = Normal (JArr (items ++ added)).
Proof.
  revert w items. induction added as [|item added IH]; intros w items Hm Hs Hclean.
  - cbn [map perform_all fold_left]. rewrite (getNews_local w Hm), app_nil_r. exact Hs.
  - cbn [forallb] in Hclean. apply andb_true_iff in Hclean as [Hitem Hadded].
    cbn [map perform_all fold_left perform].
    rewrite (saveNews_local item w Hm), Hs. cbn [array_push snd].
    change (fold_left perform (map Save added) ?w1)
      with (perform_all (map Save added) w1).
    rewrite (IH _ (items ++ [item])).
    + rewrite <- app_assoc. reflexivity.
    + rewrite in_local_mode_written. exact Hm.
    + apply stored_news_written.
      apply stored_news_clean in Hs. rewrite clean_array in *.
      rewrite forallb_app, Hs. cbn [forallb]. rewrite Hitem. reflexivity.
    + exact Hadded.
Qed.

Lemma saved_items_are_listed_in_order_witness :
  fst (getNews
         (perform_all (map Save [Demo.post "user" "x"; Demo.post "admin" "y"]) ClearLocal.w))
  = Normal (JArr ([Demo.post "user" "a"; Demo.post "admin" "b"]
                  ++ [Demo.post "user" "x"; Demo.post "admin" "y"])).
Proof.
  apply (saved_items_are_listed_in_order ClearLocal.w).
  - reflexivity.
  - vm_compute. reflexivity.
  - reflexivity.
Defined.

(* ===================================================================== *)
(** ** Showing the list *)
(* ===================================================================== *)

Lemma cards_all_shown (items : list value) :
  forallb (fun item => negb (card_fails item)) items = true ->
  cards_until_failure items = (items, false).
Proof.
  induction items as [|item items IH]; [reflexivity|].
  cbn [forallb cards_until_failure]. intros [Hitem Hitems]%andb_true_iff.
  apply negb_true_iff in Hitem. rewrite Hitem, IH by assumption. reflexivity.
Qed.

(** X24: on a page without the admin list [renderNewsAdmin] does nothing; in
    local mode, when each stored item has a card, it ends with the list
    holding the stored items in their order, or the notice that there are
    none. *)
Theorem renderNewsAdmin_shows_the_stored_items (w : World) :
  (news_list_admin (page w) = None -> renderNewsAdmin w = (Normal tt, w))
  /\ (forall pane items,
        in_local_mode w = true ->
        news_list_admin (page w) = Some pane ->
        stored_news w = Normal (JArr items) ->
        forallb (fun item => negb (card_fails item)) items = true ->
        exists w',
          renderNewsAdmin w = (Normal tt, w')
          /\ news_list_admin (page w') = Some (pane_of items)
          /\ localStorage w' = localStorage w
          /\ requests w' = requests w).
Proof.
  split.
  { intros Hnone. unfold renderNewsAdmin, bind, get_page. rewrite Hnone. reflexivity. }
  intros pane items Hmode Hpane Hstored Hcards.
  unfold renderNewsAdmin, bind at 1. unfold get_page. rewrite Hpane.
  unfold bind at 1. unfold set_admin_list at 1.
  unfold bind at 1.
  rewrite getNews_local by (rewrite <- Hmode; apply in_local_mode_ext; reflexivity).
  match goal with
  | |- context [stored_news ?w'] => change (stored_news w') with (stored_news w)
  end.
  rewrite Hstored. unfold bind at 1. unfold set_admin_list at 1.
  unfold bind at 1. unfold lift. cbn [get_prop String.eqb Ascii.eqb Bool.eqb].
  destruct items as [|item items].
  - eexists. split; [reflexivity|]. split; [reflexivity|]. split; reflexivity.
  - rewrite (cards_all_shown _ Hcards).
    replace (Z.of_nat (List.length (item :: items)))
      with (Z.pos (Pos.of_succ_nat (List.length items))) by reflexivity.
    eexists. split; [reflexivity|]. split; [reflexivity|]. split; reflexivity.
Qed.

Lemma renderNewsAdmin_shows_the_stored_items_witness :
  exists w',
    renderNewsAdmin ClearLocal.w = (Normal tt, w')
    /\ news_list_admin (page w')
       = Some (pane_of [Demo.post "user" "a"; Demo.post "admin" "b"])
    /\ localStorage w' = localStorage ClearLocal.w
    /\ requests w' = requests ClearLocal.w.
Proof.
  apply (proj2 (renderNewsAdmin_shows_the_stored_items ClearLocal.w) (PaneCards [])).
  - reflexivity.
  - reflexivity.
  - vm_compute. reflexivity.
  - reflexivity.
Defined.

(* ===================================================================== *)
(** ** Clearing all the news, again *)
(* ===================================================================== *)

(** X25: [handleClearAllNews] does nothing for a visitor who does not
    confirm or gives no PIN, and for a PIN whose digest is not the
    administrator's it shows the refusal and does nothing else: no
    request goes out, in whatever mode, and a user's PIN is refused like
    any other. *)
Theorem handleClearAllNews_refuses (w : World) :
  (confirm_answer w = false \/ present (prompt_answer w) = None ->
   handleClearAllNews w = (Normal tt, w))
  /\ (forall pin,
        confirm_answer w = true ->
        present (prompt_answer w) = Some pin ->
        strict_eq_str (hashPassword (window w) pin) (ADMIN_PASSWORD_HASH (window w))
        = false ->
        handleClearAllNews w
        = (Normal tt,
           with_alerts
             (alerts w
              ++ ["❌ Access Denied: Incorrect PIN. Only Admin can clear all news."%string])
             w)).
Proof.
  split.
  - intros [Hno|Hno].
    + unfold handleClearAllNews, bind, confirm. rewrite Hno. reflexivity.
    + unfold handleClearAllNews, bind at 1. unfold confirm.
      destruct (confirm_answer w); [|reflexivity]. cbn [negb].
      unfold bind, prompt. rewrite Hno. reflexivity.
  - intros pin Hsure Hpin Hother.
    unfold handleClearAllNews, bind at 1. unfold confirm. rewrite Hsure. cbn [negb].
    unfold bind at 1. unfold prompt. rewrite Hpin.
    unfold bind at 1. unfold get_window. rewrite Hother. reflexivity.
Qed.

Lemma handleClearAllNews_refuses_witness :
  handleClearAllNews ClearDenied.w
  = (Normal tt,
     with_alerts
       (alerts ClearDenied.w
        ++ ["❌ Access Denied: Incorrect PIN. Only Admin can clear all news."%string])
       ClearDenied.w).
Proof.
  apply (proj2 (handleClearAllNews_refuses ClearDenied.w) "0000"%string).
  - reflexivity.
  - reflexivity.
  - reflexivity.
Defined.

(* ===================================================================== *)
(** ** Links and addresses *)
(* ===================================================================== *)

Lemma has_http_scheme_prefixed (l : string) :
  has_http_scheme ("https://" +:+ l) = true.
Proof. reflexivity. Qed.

(** X26: the link of a draft is saved empty when it is empty, and with a
    scheme otherwise; fixing it again changes nothing, so the card, which
    makes the same test, shows the saved link as it is. *)
Theorem auto_fix_link_gives_a_scheme (l : string) :
  (l = ""%string -> auto_fix_link l = ""%string)
  /\ (l <> ""%string -> has_http_scheme (auto_fix_link l) = true)
  /\ auto_fix_link (auto_fix_link l) = auto_fix_link l.
Proof.
  assert (l <> ""%string -> has_http_scheme (auto_fix_link l) = true) as Hscheme.
  { intros Hl. unfold auto_fix_link.
    rewrite (eqb_empty_false l Hl). cbn [negb andb].
    destruct (has_http_scheme l) eqn:Hs; cbn [negb]; [exact Hs|].
    apply has_http_scheme_prefixed. }
  split; [intros ->; reflexivity|]. split; [exact Hscheme|].
  destruct (String.eqb_spec l "") as [->|Hl]; [reflexivity|].
  unfold auto_fix_link at 1. rewrite (Hscheme Hl). cbn [negb].
  rewrite andb_false_r. reflexivity.
Qed.

Lemma strip_trailing_slash_added (s : string) : strip_trailing_slash (s +:+ "/") = s.
Proof.
  induction s as [|c s IH]; [reflexivity|].
  rewrite append_cons. cbn [strip_trailing_slash]. rewrite IH.
  destruct s; reflexivity.
Qed.

Lemma strip_trailing_slash_cases (s : string) :
  strip_trailing_slash s = s \/ strip_trailing_slash s +:+ "/" = s.
Proof.
  induction s as [|c s IH]; [left; reflexivity|].
  destruct s as [|c' s].
  - cbn [strip_trailing_slash]. destruct (Ascii.eqb_spec c "/") as [->|_].
    + right. reflexivity.
    + left. reflexivity.
  - change (strip_trailing_slash (String c (String c' s)))
      with (String c (strip_trailing_slash (String c' s))).
    destruct IH as [IH|IH].
    + left. rewrite IH. reflexivity.
    + right. rewrite append_cons, IH. reflexivity.
Qed.

(** X27: of the address of the remote store one slash at its end is dropped
    and nothing else, so that an address given with a slash at its end
    makes the requests of the same address given without. *)
Theorem endpoint_with_or_without_slash (s : string) :
  replace_trailing_slash (JStr (s +:+ "/")) = Normal s
  /\ (replace_trailing_slash (JStr s) = Normal s
      \/ exists base,
           replace_trailing_slash (JStr s) = Normal base /\ base +:+ "/" = s).
Proof.
  cbn [replace_trailing_slash]. rewrite strip_trailing_slash_added.
  split; [reflexivity|].
  destruct (strip_trailing_slash_cases s) as [H|H].
  - left. rewrite H. reflexivity.
  - right. eexists. split; [reflexivity|exact H].
Qed.

(* ===================================================================== *)
(** ** The lightbox *)
(* ===================================================================== *)

Lemma openLightbox_shows (src type : string) (d : Lightbox) (active : bool)
  (held : list Media) :
  overlay d = Some active ->
  container d = Some held ->
  openLightbox src type d
  = {| overlay := Some true; container := Some [medium src type] |}.
Proof. intros Ho Hc. unfold openLightbox. rewrite Ho, Hc. reflexivity. Qed.

Lemma open_each_ready (calls : list (string * string)) (d : Lightbox) (active : bool)
  (held : list Media) :
  overlay d = Some active ->
  container d = Some held ->
  exists active' held',
    overlay (open_each calls d) = Some active'
    /\ container (open_each calls d) = Some held'.
Proof.
  revert d active held. induction calls as [|[src type] calls IH]; intros d active held Ho Hc.
  - exists active, held. auto.
  - cbn [open_each fold_left fst snd].
    rewrite (openLightbox_shows src type d active held Ho Hc).
    eapply IH; reflexivity.
Qed.

(** X28: on a page where [setupLightbox] has made the overlay, however many
    media have been opened, the lightbox shows the one opened last and
    nothing else; closing it empties it, and a second set-up changes
    nothing. *)
Theorem lightbox_shows_the_last_opened (d : Lightbox) (calls : list (string * string))
  (src type : string) :
  overlay d = None ->
  let ready := setupLightbox d in
  let shown := open_each (calls ++ [(src, type)]) ready in
  setupLightbox ready = ready
  /\ shown = {| overlay := Some true; container := Some [medium src type] |}
  /\ closeLightbox shown = {| overlay := Some false; container := Some [] |}.
Proof.
  intros Hfresh ready shown.
  assert (exists held, overlay ready = Some false /\ container ready = Some held)
    as (held & Ho & Hc).
  { subst ready. unfold setupLightbox. rewrite Hfresh.
    destruct (container d) as [held|]; eexists; split; reflexivity. }
  assert (shown = {| overlay := Some true; container := Some [medium src type] |})
    as Hshown.
  { subst shown. unfold open_each. rewrite fold_left_app. cbn [fold_left fst snd].
    destruct (open_each_ready calls ready false held Ho Hc) as (a & h & Ha & Hh).
    apply (openLightbox_shows src type _ a h Ha Hh). }
  split; [|split].
  - unfold setupLightbox at 1. rewrite Ho. reflexivity.
  - exact Hshown.
  - rewrite Hshown. reflexivity.
Qed.

Lemma lightbox_shows_the_last_opened_witness :
  let ready := setupLightbox {| overlay := None; container := None |} in
  let shown :=
    open_each
      ([("a.png"%string, "image"%string); ("b.mp4"%string, "video"%string)]
       ++ [("c.png"%string, "image"%string)]) ready in
  setupLightbox ready = ready
  /\ shown = {| overlay := Some true; container := Some [medium "c.png" "image"] |}
  /\ closeLightbox shown = {| overlay := Some false; container := Some [] |}.
Proof.
  apply (lightbox_shows_the_last_opened {| overlay := None; container := None |}).
  reflexivity.
Defined.

(* ===================================================================== *)
(** ** The public page *)
(* ===================================================================== *)

Lemma stops_without_id (a b c d e f g h : bool) :
  a || (b || (c || (d || (e || (f || (g || false)))))) || h = false ->
  a || b || c || (false && h) || d || e || f || g = false.
Proof. destruct a, b, c, d, e, f, g, h; simpl; congruence. Qed.

(** An item that has a card on the admin page has one on the public page. *)
Lemma public_card_exists (date_text : value -> string) (item : value) :
  card_fails item = false ->
  exists html, createNewsCardHtml date_text item false = Normal html.
Proof.
  intros Hfails.
  destruct (nullish item) eqn:Hn; [destruct item; discriminate|].
  pose proof (card_of_fields date_text item false Hn) as H.
  cbv beta zeta in H.
  match type of H with
  | if ?c then _ else _ => assert (c = false) as Hc
  end.
  { destruct item; try discriminate Hn; apply stops_without_id; exact Hfails. }
  rewrite Hc in H. exact H.
Qed.

Lemma public_cards_all (date_text : value -> string) (items : list value) :
  forallb (fun item => negb (card_fails item)) items = true ->
  exists cards,
    public_cards date_text items = (cards, false)
    /\ Forall2 (fun item html => createNewsCardHtml date_text item false = Normal html)
         items cards.
Proof.
  induction items as [|item items IH].
  - exists []. split; [reflexivity|constructor].
  - cbn [forallb]. intros [Hitem Hitems]%andb_true_iff.
    apply negb_true_iff in Hitem.
    destruct (public_card_exists date_text item Hitem) as [html Hhtml].
    destruct (IH Hitems) as (cards & Hcards & Hall).
    exists (html :: cards). split.
    + cbn [public_cards]. rewrite Hhtml, Hcards. reflexivity.
    + constructor; assumption.
Qed.

(** X29: on a page without the public list [renderNewsPublic] does nothing;
    in local mode, when each stored item has a card, it ends with the list
    holding one card for each stored item, in their order, each the markup
    [createNewsCardHtml] makes without the button to delete, or with the
    notice that there are none; it writes nothing and sends nothing. *)
Theorem renderNewsPublic_shows_the_stored_items (date_text : value -> string)
  (w : World) :
  renderNewsPublic date_text None w = (Normal tt, None, w)
  /\ (forall held items,
        in_local_mode w = true ->
        stored_news w = Normal (JArr items) ->
        forallb (fun item => negb (card_fails item)) items = true ->
        exists cards w',
          renderNewsPublic date_text (Some held) w
          = (Normal tt,
             Some (match items with [] => ListEmpty | _ => ListCards cards end), w')
          /\ Forall2
               (fun item html => createNewsCardHtml date_text item false = Normal html)
               items cards
          /\ localStorage w' = localStorage w
          /\ requests w' = requests w).
Proof.
  split; [reflexivity|].
  intros held items Hmode Hstored Hcards.
  destruct (public_cards_all date_text items Hcards) as (cards & Hshown & Hall).
  exists cards. unfold renderNewsPublic.
  rewrite (getNews_local w Hmode), Hstored.
  cbn [get_prop String.eqb Ascii.eqb Bool.eqb].
  destruct items as [|item items].
  - eexists. split; [reflexivity|]. split; [exact Hall|]. split; reflexivity.
  - rewrite Hshown.
    replace (Z.of_nat (List.length (item :: items)))
      with (Z.pos (Pos.of_succ_nat (List.length items))) by reflexivity.
    eexists. split; [reflexivity|]. split; [exact Hall|]. split; reflexivity.
Qed.

Lemma renderNewsPublic_shows_the_stored_items_witness :
  exists cards w',
    renderNewsPublic (fun _ => "May 1, 2024"%string) (Some ListLoading) ClearLocal.w
    = (Normal tt, Some (ListCards cards), w')
    /\ Forall2
         (fun item html =>
            createNewsCardHtml (fun _ => "May 1, 2024"%string) item false = Normal html)
         [Demo.post "user" "a"; Demo.post "admin" "b"] cards
    /\ localStorage w' = localStorage ClearLocal.w
    /\ requests w' = requests ClearLocal.w.
Proof.
  apply (proj2 (renderNewsPublic_shows_the_stored_items
                  (fun _ => "May 1, 2024"%string) ClearLocal.w) ListLoading
           [Demo.post "user" "a"; Demo.post "admin" "b"]).
  - reflexivity.
  - vm_compute. reflexivity.
  - reflexivity.
Defined.
